(** * Reddit auto-poster: a shallow embedding of [reddit_autopost.py]

    The development follows the Python module top-down:
    - [PyStr]: the [str] methods the program calls ([find], [in], slicing,
      [lower], [endswith], [split('/')[-1]], [capitalize], [encode('ascii')],
      [base64.b64encode]);
    - Python values as produced by [response.json()] and [request.get_json()],
      truthiness, [dict.get], subscripting;
    - the outside world: HTTP exchanges through [requests], [mimetypes],
      the configuration file; every exchange is appended to a trace;
    - a state-and-exception monad in which the methods of
      [RedditAutoPoster] and the [/post] handler are written;
    - the properties of the authentication lifecycle, of the media upload
      sequence and of the request routing.

    Modelling conventions.  A Python [str] is a [string] of 8-bit characters;
    [lower], [upper], [capitalize] act on the ASCII letters.  JSON numbers
    are integers.  [print] has no effect that the program can observe and is
    left out.  [None] is [VNone].  The attributes that [__init__] declares
    [str] are strings: a configuration file that holds another type of
    value for a credential is outside the model ([init_poster] answers
    [None] for it). *)

From Stdlib Require Import ZArith NArith String Ascii List Bool Lia.
From stdpp Require Import base option gmap strings.

Local Set Warnings "-register-all".
Local Open Scope Z_scope.

(* ------------------------------------------------------------------ *)
(** ** Python strings *)
(* ------------------------------------------------------------------ *)

Module PyStr.

(** [s.startswith(sub)]. *)
Fixpoint startswith (sub s : string) : bool :=
  match sub, s with
  | EmptyString, _ => true
  | String a sub', String b s' => Ascii.eqb a b && startswith sub' s'
  | String _ _, EmptyString => false
  end.

(** [s.find(sub)] scanning from offset [i]: lowest index of an occurrence,
    [-1] when there is none. *)
Fixpoint find_from (sub s : string) (i : Z) : Z :=
  if startswith sub s then i
  else match s with
       | EmptyString => -1
       | String _ s' => find_from sub s' (i + 1)
       end.

Definition find (sub s : string) : Z := find_from sub s 0.

(** [sub in s]. *)
Definition contains (sub s : string) : bool := 0 <=? find sub s.

Definition len (s : string) : Z := Z.of_nat (String.length s).

(** Index normalisation of a slice bound: negative bounds count from the
    end, everything is clamped to [0, len]. *)
Definition clamp (n i : Z) : Z :=
  if i <? 0 then Z.max 0 (i + n) else Z.min i n.

(** [s[start:stop]]. *)
Definition slice (s : string) (start stop : Z) : string :=
  let lo := clamp (len s) start in
  let hi := clamp (len s) stop in
  substring (Z.to_nat lo) (Z.to_nat (hi - lo)) s.

(** [s.endswith(suf)]. *)
Fixpoint endswith (s suf : string) : bool :=
  String.eqb s suf ||
  match s with
  | EmptyString => false
  | String _ s' => endswith s' suf
  end.

Definition is_upper (c : ascii) : bool :=
  let n := nat_of_ascii c in (65 <=? n)%nat && (n <=? 90)%nat.

Definition is_lower (c : ascii) : bool :=
  let n := nat_of_ascii c in (97 <=? n)%nat && (n <=? 122)%nat.

Definition lower_char (c : ascii) : ascii :=
  if is_upper c then ascii_of_nat (nat_of_ascii c + 32) else c.

Definition upper_char (c : ascii) : ascii :=
  if is_lower c then ascii_of_nat (nat_of_ascii c - 32) else c.

(** [s.lower()]. *)
Fixpoint lower (s : string) : string :=
  match s with
  | EmptyString => EmptyString
  | String c s' => String (lower_char c) (lower s')
  end.

(** [s.upper()]. *)
Fixpoint upper (s : string) : string :=
  match s with
  | EmptyString => EmptyString
  | String c s' => String (upper_char c) (upper s')
  end.

(** [s.capitalize()]. *)
Definition capitalize (s : string) : string :=
  match s with
  | EmptyString => EmptyString
  | String c s' => String (upper_char c) (lower s')
  end.

(** [s.split('/')[-1]]: [cur] is the segment being read. *)
Fixpoint last_segment_from (cur s : string) : string :=
  match s with
  | EmptyString => cur
  | String c s' =>
      if Ascii.eqb c "/" then last_segment_from EmptyString s'
      else last_segment_from (cur +:+ String c EmptyString) s'
  end.

Definition last_segment (s : string) : string :=
  last_segment_from EmptyString s.

(** [s.encode('ascii')] succeeds when every character is below 128. *)
Fixpoint is_ascii (s : string) : bool :=
  match s with
  | EmptyString => true
  | String c s' => (nat_of_ascii c <? 128)%nat && is_ascii s'
  end.

Definition b64_alphabet : string :=
  "ABCDEFGHIJKLMNOPQRSTUVWXYZabcdefghijklmnopqrstuvwxyz0123456789+/".

Definition b64_digit (n : N) : ascii :=
  match String.get (N.to_nat n) b64_alphabet with
  | Some c => c
  | None => "="%char
  end.

Definition b64_quad (n : N) (pad : nat) : string :=
  let d1 := b64_digit (n / 262144) in
  let d2 := b64_digit ((n / 4096) mod 64) in
  let d3 := b64_digit ((n / 64) mod 64) in
  let d4 := b64_digit (n mod 64) in
  match pad with
  | O => String d1 (String d2 (String d3 (String d4 EmptyString)))
  | S O => String d1 (String d2 (String d3 "="))
  | _ => String d1 (String d2 "==")
  end.

Fixpoint b64_bytes (l : list N) : string :=
  match l with
  | [] => EmptyString
  | [a] => b64_quad (a * 65536) 2
  | [a; b] => b64_quad (a * 65536 + b * 256) 1
  | a :: b :: c :: rest =>
      b64_quad (a * 65536 + b * 256 + c) 0 +:+ b64_bytes rest
  end.

(** [base64.b64encode(s.encode('ascii')).decode('ascii')]. *)
Definition b64encode (s : string) : string :=
  b64_bytes (map N_of_ascii (list_ascii_of_string s)).

End PyStr.

(* ------------------------------------------------------------------ *)
(** ** Python values, exceptions *)
(* ------------------------------------------------------------------ *)

Inductive value : Type :=
| VNone
| VBool (b : bool)
| VInt (z : Z)
| VStr (s : string)
| VList (l : list value)
| VDict (d : gmap string value).

Inductive exn : Type :=
| AttributeError (ty attr : string)
| KeyError (key : string)
| TypeError (msg : string)
| ValueError (msg : string)
| UnicodeEncodeError
| LibraryError (msg : string).

Inductive pyresult (A : Type) : Type :=
| Ok (a : A)
| Raise (e : exn).

Arguments Ok {A} a.
Arguments Raise {A} e.

Definition type_name (v : value) : string :=
  match v with
  | VNone => "NoneType"
  | VBool _ => "bool"
  | VInt _ => "int"
  | VStr _ => "str"
  | VList _ => "list"
  | VDict _ => "dict"
  end.

(** [str(e)]. *)
Definition exn_message (e : exn) : string :=
  match e with
  | AttributeError ty attr =>
      "'" +:+ ty +:+ "' object has no attribute '" +:+ attr +:+ "'"
  | KeyError key => "'" +:+ key +:+ "'"
  | TypeError msg => msg
  | ValueError msg => msg
  | UnicodeEncodeError => "'ascii' codec can't encode characters"
  | LibraryError msg => msg
  end.

(** [bool(v)]. *)
Definition truthy (v : value) : bool :=
  match v with
  | VNone => false
  | VBool b => b
  | VInt z => negb (z =? 0)
  | VStr s => negb (String.eqb s "")
  | VList l => match l with [] => false | _ :: _ => true end
  | VDict d => match map_to_list d with [] => false | _ :: _ => true end
  end.

(** [v.get(key, dflt)]; only a dict has the method. *)
Definition py_get (v : value) (key : string) (dflt : value) : pyresult value :=
  match v with
  | VDict d => Ok (default dflt (d !! key))
  | _ => Raise (AttributeError (type_name v) "get")
  end.

(** [v[key]] for a string key. *)
Definition py_getitem (v : value) (key : string) : pyresult value :=
  match v with
  | VDict d =>
      match d !! key with
      | Some x => Ok x
      | None => Raise (KeyError key)
      end
  | VStr _ => Raise (TypeError "string indices must be integers, not 'str'")
  | VList _ =>
      Raise (TypeError "list indices must be integers or slices, not str")
  | _ => Raise (TypeError ("'" +:+ type_name v +:+ "' object is not subscriptable"))
  end.

(** [v == s] for a string literal [s]. *)
Definition eq_str (v : value) (s : string) : bool :=
  match v with
  | VStr t => String.eqb t s
  | _ => false
  end.

(** Keys of a dict built by the program: hashable values, compared as Python
    compares them ([True == 1], [False == 0]). *)
Definition hashable (v : value) : bool :=
  match v with
  | VList _ | VDict _ => false
  | _ => true
  end.

Definition key_eqb (a b : value) : bool :=
  match a, b with
  | VNone, VNone => true
  | VStr s, VStr t => String.eqb s t
  | VInt x, VInt y => x =? y
  | VBool x, VBool y => Bool.eqb x y
  | VBool x, VInt y | VInt y, VBool x => (if x then 1 else 0) =? y
  | _, _ => false
  end.

(** A dict the program builds and hands to [requests]: insertion-ordered. *)
Definition form := list (value * value).

(** [d[k] = v]. *)
Fixpoint dict_set (d : form) (k v : value) : form :=
  match d with
  | [] => [(k, v)]
  | (k', v') :: d' =>
      if key_eqb k' k then (k', v) :: d' else (k', v') :: dict_set d' k v
  end.

Fixpoint dict_lookup (d : form) (k : value) : option value :=
  match d with
  | [] => None
  | (k', v') :: d' => if key_eqb k' k then Some v' else dict_lookup d' k
  end.

(* ------------------------------------------------------------------ *)
(** ** The outside world *)
(* ------------------------------------------------------------------ *)

(** What the program hands to [requests.post] / [requests.get]. *)
Record request : Type := {
  method : string;
  url : string;
  headers : list (string * string);
  data : form;
  files : option (string * string * string);
  timeout : Z
}.

(** A [requests.Response]: [json] is the result of [response.json()], which
    raises when the body does not parse. *)
Record response : Type := {
  status_code : Z;
  text : string;
  content : string;
  json : pyresult value
}.

Inductive http_outcome : Type :=
| Response (r : response)
| TransportError (e : exn).

(** The trace records every invocation of [authenticate] and every HTTP
    exchange, oldest first. *)
Inductive event : Type :=
| AuthAttempt
| EvHttp (req : request) (out : http_outcome).

(** The environment answers a request knowing everything that happened
    before; [guess_type] is [mimetypes.guess_type(...)[0]], [py_str] is
    [str()] on a value that is not a string (inside an f-string), and
    [load_config] is the outcome of reading the configuration file. *)
Record Env : Type := {
  http : list event -> request -> http_outcome;
  guess_type : string -> option string;
  py_str : value -> string;
  load_config : pyresult value
}.

Record RedditAutoPoster : Type := {
  client_id : string;
  client_secret : string;
  username : string;
  password : string;
  user_agent : string;
  access_token : value;
  token_type : value
}.

Definition token_url : string := "https://www.reddit.com/api/v1/access_token".
Definition api_base : string := "https://oauth.reddit.com".

(** [RedditAutoPoster.__init__]. *)
Definition new_poster (client_id client_secret username password : string)
    (user_agent : option string) : RedditAutoPoster :=
  {| client_id := client_id;
     client_secret := client_secret;
     username := username;
     password := password;
     user_agent :=
       match user_agent with
       | None => "LivePosting/1.0 (by /u/" +:+ username +:+ ")"
       | Some ua => ua
       end;
     access_token := VNone;
     token_type := VStr "bearer" |}.

(** The state that a method of [RedditAutoPoster] runs in: the object
    [self] and the trace. *)
Record World : Type := {
  poster : RedditAutoPoster;
  trace : list event
}.

(** The state of the server process: the module-level [poster] (line 441),
    [None] until [init_poster] has built one, and the trace. *)
Record Server : Type := {
  global_poster : option RedditAutoPoster;
  history : list event
}.

Definition with_access_token (v : value) (w : World) : World :=
  {| poster :=
       {| client_id := client_id (poster w);
          client_secret := client_secret (poster w);
          username := username (poster w);
          password := password (poster w);
          user_agent := user_agent (poster w);
          access_token := v;
          token_type := token_type (poster w) |};
     trace := trace w |}.

Definition with_token_type (v : value) (w : World) : World :=
  {| poster :=
       {| client_id := client_id (poster w);
          client_secret := client_secret (poster w);
          username := username (poster w);
          password := password (poster w);
          user_agent := user_agent (poster w);
          access_token := access_token (poster w);
          token_type := v |};
     trace := trace w |}.

Definition log (e : event) (w : World) : World :=
  {| poster := poster w; trace := trace w ++ [e] |}.

(* ------------------------------------------------------------------ *)
(** ** State and exceptions *)
(* ------------------------------------------------------------------ *)

Definition M (A : Type) : Type := World -> pyresult A * World.

Definition ret {A} (a : A) : M A := fun w => (Ok a, w).

Definition raise {A} (e : exn) : M A := fun w => (Raise e, w).

Definition lift {A} (r : pyresult A) : M A := fun w => (r, w).

Definition bind {A B} (m : M A) (k : A -> M B) : M B :=
  fun w =>
    match m w with
    | (Ok a, w') => k a w'
    | (Raise e, w') => (Raise e, w')
    end.

(** [try: body except Exception as e: handler]. *)
Definition try_except {A} (body : M A) (handler : exn -> M A) : M A :=
  fun w =>
    match body w with
    | (Ok a, w') => (Ok a, w')
    | (Raise e, w') => handler e w'
    end.

Definition get_self : M RedditAutoPoster := fun w => (Ok (poster w), w).

Definition modify (f : World -> World) : M unit := fun w => (Ok tt, f w).

Notation "x <~ m ;; k" := (bind m (fun x => k))
  (at level 100, m at next level, right associativity,
   format "'[v' x  <~  m  ;;  '/' k ']'").
Notation "m ;;; k" := (bind m (fun _ => k))
  (at level 100, right associativity).

(** The new part of the trace after running [m] from [w]. *)
Definition outcome_of {A} (m : M A) (w : World) : pyresult A := fst (m w).
Definition world_after {A} (m : M A) (w : World) : World := snd (m w).
Definition emitted {A} (m : M A) (w : World) : list event :=
  drop (length (trace w)) (trace (world_after m w)).

(** What [jsonify(body), status] sends back. *)
Record reply : Type := {
  reply_body : gmap string value;
  reply_status : Z
}.

Definition error_reply (msg : string) (status : Z) : reply :=
  {| reply_body := {[ "error" := VStr msg ]}; reply_status := status |}.

(** [sep.join(l)]. *)
Fixpoint join (sep : string) (l : list string) : string :=
  match l with
  | [] => EmptyString
  | [x] => x
  | x :: rest => x +:+ sep +:+ join sep rest
  end.

Section Program.

Variable env : Env.

(** An f-string field [{v}]. *)
Definition fmt (v : value) : string :=
  match v with
  | VStr s => s
  | _ => py_str env v
  end.

(** [requests.post(...)] / [requests.get(...)]: the exchange is recorded,
    a transport failure raises. *)
Definition send (req : request) : M response :=
  fun w =>
    let out := http env (trace w) req in
    match out with
    | Response r => (Ok r, log (EvHttp req out) w)
    | TransportError e => (Raise e, log (EvHttp req out) w)
    end.

Definition requests_post (url : string) (headers : list (string * string))
    (data : form) (files : option (string * string * string))
    (timeout : Z) : M response :=
  send {| method := "POST"; url := url; headers := headers; data := data;
          files := files; timeout := timeout |}.

Definition requests_get (url : string) (timeout : Z) : M response :=
  send {| method := "GET"; url := url; headers := []; data := [];
          files := None; timeout := timeout |}.

(** [auth_string.encode('ascii')]. *)
Definition encode_ascii (s : string) : pyresult string :=
  if PyStr.is_ascii s then Ok s else Raise UnicodeEncodeError.

(** [RedditAutoPoster.authenticate]. *)
Definition authenticate : M bool :=
  modify (log AuthAttempt) ;;;
  try_except
    (self <~ get_self ;;
     let auth_string := client_id self +:+ ":" +:+ client_secret self in
     auth_bytes <~ lift (encode_ascii auth_string) ;;
     let auth_b64 := PyStr.b64encode auth_bytes in
     let headers :=
       [("Authorization", "Basic " +:+ auth_b64);
        ("User-Agent", user_agent self);
        ("Content-Type", "application/x-www-form-urlencoded")] in
     let data :=
       [(VStr "grant_type", VStr "password");
        (VStr "username", VStr (username self));
        (VStr "password", VStr (password self))] in
     response <~ requests_post token_url headers data None 30 ;;
     if status_code response =? 200 then
       token_data <~ lift (json response) ;;
       tok <~ lift (py_get token_data "access_token" VNone) ;;
       modify (with_access_token tok) ;;;
       ty <~ lift (py_get token_data "token_type" (VStr "bearer")) ;;
       modify (with_token_type ty) ;;;
       ret true
     else
       ret false)
    (fun _ => ret false).

(** [RedditAutoPoster._get_headers]. *)
Definition _get_headers : M (list (string * string)) :=
  self <~ get_self ;;
  if negb (truthy (access_token self)) then
    raise (ValueError "Authentication required first")
  else
    scheme <~ lift
      match token_type self with
      | VStr s => Ok (PyStr.capitalize s)
      | v => Raise (AttributeError (type_name v) "capitalize")
      end ;;
    ret [("Authorization", scheme +:+ " " +:+ fmt (access_token self));
         ("User-Agent", user_agent self);
         ("Content-Type", "application/x-www-form-urlencoded")].

(** The guard that opens every public submission method:
    [if not self.access_token: if not self.authenticate(): return None].
    [true] means that the method goes on. *)
Definition ensure_token : M bool :=
  self <~ get_self ;;
  if negb (truthy (access_token self)) then authenticate else ret true.

(** [if flair_id: data['flair_id'] = flair_id] and its like. *)
Definition set_if (d : form) (key : string) (v : value) : form :=
  if truthy v then dict_set d (VStr key) v else d.

(** The part shared by the three methods after the POST to
    [/api/submit]: lines 165-180, 233-247 and 389-403.  [with_id] tells
    whether the method also reads [post_data.get('id')] (only
    [post_text] does). *)
Definition read_submission (with_id : bool) (response : response) : M value :=
  if status_code response =? 200 then
    result <~ lift (json response) ;;
    envelope <~ lift (py_get result "json" (VDict ∅)) ;;
    errs <~ lift (py_get envelope "errors" VNone) ;;
    if truthy errs then
      inner <~ lift (py_getitem result "json") ;;
      errors <~ lift (py_getitem inner "errors") ;;
      ret VNone
    else
      envelope' <~ lift (py_get result "json" (VDict ∅)) ;;
      post_data <~ lift (py_get envelope' "data" (VDict ∅)) ;;
      post_id <~ (if with_id then lift (py_get post_data "id" VNone)
                  else ret VNone) ;;
      post_name <~ lift (py_get post_data "name" VNone) ;;
      ret result
  else
    ret VNone.

(** [RedditAutoPoster.post_text]. *)
Definition post_text (subreddit title text flair_id : value) : M value :=
  go <~ ensure_token ;;
  if negb go then ret VNone else
  try_except
    (let data :=
       [(VStr "api_type", VStr "json");
        (VStr "sr", subreddit);
        (VStr "title", title);
        (VStr "text", text);
        (VStr "kind", VStr "self")] in
     let data := set_if data "flair_id" flair_id in
     hdrs <~ _get_headers ;;
     response <~ requests_post (api_base +:+ "/api/submit") hdrs data None 30 ;;
     read_submission true response)
    (fun _ => ret VNone).

(** [RedditAutoPoster.post_link]. *)
Definition post_link (subreddit title url text flair_id : value) : M value :=
  go <~ ensure_token ;;
  if negb go then ret VNone else
  try_except
    (let data :=
       [(VStr "api_type", VStr "json");
        (VStr "sr", subreddit);
        (VStr "title", title);
        (VStr "url", url);
        (VStr "kind", VStr "link")] in
     let data := set_if data "text" text in
     let data := set_if data "flair_id" flair_id in
     hdrs <~ _get_headers ;;
     response <~ requests_post (api_base +:+ "/api/submit") hdrs data None 30 ;;
     read_submission false response)
    (fun _ => ret VNone).

(** Lines 304-306: [for field in fields: upload_data[field['name']] =
    field['value']].  Iterating over anything but a list raises: a
    number or a boolean is not iterable, the items of a string or of a
    dict are strings and cannot be subscripted by ['name']. *)
Fixpoint fill_upload_data (upload_data : form) (fields : list value)
    : pyresult form :=
  match fields with
  | [] => Ok upload_data
  | field :: rest =>
      (* the right-hand side is evaluated first *)
      match py_getitem field "value" with
      | Raise e => Raise e
      | Ok v =>
          match py_getitem field "name" with
          | Raise e => Raise e
          | Ok name =>
              if hashable name then
                fill_upload_data (dict_set upload_data name v) rest
              else
                Raise (TypeError ("unhashable type: '" +:+ type_name name +:+ "'"))
          end
      end
  end.

Definition build_upload_data (fields : value) : pyresult form :=
  match fields with
  | VList l => fill_upload_data [] l
  | VStr _ => Raise (TypeError "string indices must be integers, not 'str'")
  | VDict _ => Raise (TypeError "string indices must be integers, not 'str'")
  | v => Raise (TypeError ("'" +:+ type_name v +:+ "' object is not iterable"))
  end.

(** Lines 320-329: the location is cut out of the upload response. *)
Definition extract_location (response_text : string) : option string :=
  if PyStr.contains "<Location>" response_text then
    let start := PyStr.find "<Location>" response_text + 10 in
    let end_ := PyStr.find "</Location>" response_text in
    Some (PyStr.slice response_text start end_)
  else
    None.

(** Lines 265-268: the file name and the MIME type of the lease. *)
Definition lease_filename (media_url : string) : string :=
  let seg := PyStr.last_segment media_url in
  if String.eqb seg "" then "media.jpg" else seg.

Definition lease_mime_type (filename : string) : string :=
  let fallback :=
    if negb (PyStr.endswith filename ".mp4") then "image/jpeg"
    else "video/mp4" in
  match guess_type env filename with
  | Some m => if String.eqb m "" then fallback else m
  | None => fallback
  end.

(** [RedditAutoPoster._upload_media]. *)
Definition _upload_media (media_url : value) : M value :=
  try_except
    (u <~ lift
       match media_url with
       | VStr u => Ok u
       | v => Raise (AttributeError (type_name v) "split")
       end ;;
     (* Step 1: get upload lease *)
     let filename := lease_filename u in
     let mime_type := lease_mime_type filename in
     let lease_data :=
       [(VStr "filepath", VStr filename); (VStr "mimetype", VStr mime_type)] in
     hdrs <~ _get_headers ;;
     response <~
       requests_post (api_base +:+ "/api/media/asset") hdrs lease_data None 30 ;;
     if negb (status_code response =? 200) then ret VNone else
     lease_result <~ lift (json response) ;;
     args <~ lift (py_get lease_result "args" (VDict ∅)) ;;
     action <~ lift (py_get args "action" VNone) ;;
     fields <~ lift (py_get args "fields" (VList [])) ;;
     if negb (truthy action) || negb (truthy fields) then ret VNone else
     (* Step 2: download file *)
     media_response <~ requests_get u 60 ;;
     if negb (status_code media_response =? 200) then ret VNone else
     (* Step 3: upload to Reddit *)
     let files := Some (filename, content media_response, mime_type) in
     upload_data <~ lift (build_upload_data fields) ;;
     upload_response <~
       requests_post ("https:" +:+ fmt action) [] upload_data files 120 ;;
     if negb (status_code upload_response =? 200) then ret VNone else
     (* Parse location from XML response *)
     match extract_location (text upload_response) with
     | Some location => ret (VStr location)
     | None => ret VNone
     end)
    (fun _ => ret VNone).

(** Lines 367-368: [kind] of a media submission. *)
Definition is_video (media_url : string) : bool :=
  PyStr.endswith (PyStr.lower media_url) ".mp4"
  || PyStr.contains "video" (PyStr.lower media_url).

Definition media_kind (media_url : string) : string :=
  if is_video media_url then "video" else "image".

(** [text or '']. *)
Definition or_empty (v : value) : value :=
  if truthy v then v else VStr "".

(** [RedditAutoPoster.post_media]. *)
Definition post_media (subreddit title media_url text flair_id : value)
    : M value :=
  go <~ ensure_token ;;
  if negb go then ret VNone else
  try_except
    (uploaded_url <~ _upload_media media_url ;;
     if negb (truthy uploaded_url) then ret VNone else
     kind <~ lift
       match media_url with
       | VStr u => Ok (media_kind u)
       | v => Raise (AttributeError (type_name v) "lower")
       end ;;
     let data :=
       [(VStr "api_type", VStr "json");
        (VStr "sr", subreddit);
        (VStr "title", title);
        (VStr "url", uploaded_url);
        (VStr "kind", VStr kind);
        (VStr "text", or_empty text)] in
     let data := set_if data "flair_id" flair_id in
     hdrs <~ _get_headers ;;
     response <~ requests_post (api_base +:+ "/api/submit") hdrs data None 30 ;;
     read_submission false response)
    (fun _ => ret VNone).

(* ---------------------------------------------------------------- *)
(** *** The [/post] handler *)
(* ---------------------------------------------------------------- *)

(** Lines 535-542: the post type when the request names none. *)
Definition detect_post_type (post_type media_url url : value) : value :=
  if negb (truthy post_type) then
    if truthy media_url then VStr "media"
    else if truthy url then VStr "link"
    else VStr "self"
  else post_type.

(** Lines 544-568: publish based on type. *)
Definition publish (post_type subreddit title text url media_url flair_id : value)
    : M value :=
  if eq_str post_type "media" && truthy media_url then
    post_media subreddit title media_url text flair_id
  else if eq_str post_type "link" && truthy url then
    post_link subreddit title url text flair_id
  else
    (* Default to text post *)
    post_text subreddit title text flair_id.

(** Lines 570-579: the answer built from the result. *)
Definition respond (result : value) : M reply :=
  if truthy result then
    envelope <~ lift (py_get result "json" (VDict ∅)) ;;
    post_data <~ lift (py_get envelope "data" (VDict ∅)) ;;
    post_id <~ lift (py_get post_data "id" VNone) ;;
    post_name <~ lift (py_get post_data "name" VNone) ;;
    permalink <~ lift (py_get post_data "permalink" (VStr "")) ;;
    ret {| reply_body :=
             {[ "success" := VBool true;
                "post_id" := post_id;
                "post_name" := post_name;
                "url" := VStr ("https://reddit.com" +:+ fmt permalink) ]};
           reply_status := 200 |}
  else
    ret (error_reply "Failed to publish post" 500).

(** Lines 522-524: the subreddit of the configuration file stands in for
    a missing one. *)
Definition or_default_subreddit (subreddit : value) : M value :=
  if negb (truthy subreddit) then
    config <~ lift (load_config env) ;;
    lift (py_get config "default_subreddit" (VStr "test"))
  else ret subreddit.

(** Lines 509-582: the [try] block of [post_to_reddit], as it runs on
    the object that the global [poster] names; [get_json] is the outcome
    of [request.get_json()], which raises when the request carries no
    JSON that parses. *)
Definition handle_post (get_json : pyresult value) : M reply :=
  try_except
    (data <~ lift get_json ;;
     if negb (truthy data) then ret (error_reply "No JSON data provided" 400)
     else
     (* Required fields *)
     title <~ lift (py_get data "title" VNone) ;;
     if negb (truthy title) then
       ret (error_reply "Missing required field: title" 400)
     else
     (* Get subreddit (use default from config if not provided) *)
     subreddit <~ lift (py_get data "subreddit" VNone) ;;
     subreddit <~ or_default_subreddit subreddit ;;
     (* Determine post type *)
     post_type <~ lift (py_get data "post_type" VNone) ;;
     text <~ lift (py_get data "text" (VStr "")) ;;
     url <~ lift (py_get data "url" VNone) ;;
     media_url <~ lift (py_get data "media_url" VNone) ;;
     flair_id <~ lift (py_get data "flair_id" VNone) ;;
     let post_type := detect_post_type post_type media_url url in
     result <~ publish post_type subreddit title text url media_url flair_id ;;
     respond result)
    (fun e => ret (error_reply (exn_message e) 500)).

(** A method call on the object that the global [poster] names: the
    object is updated in place, so the global sees every change. *)
Definition on_poster {A} (self : RedditAutoPoster) (m : M A) (s : Server)
    : pyresult A * Server :=
  let (r, w) := m {| poster := self; trace := history s |} in
  (r, {| global_poster := Some (poster w); history := trace w |}).

(** Lines 450-451: [[key for key in required_keys if config.get(key) ==
    f'YOUR_{key.upper()}']]. *)
Fixpoint missing_keys (config : value) (required_keys : list string)
    : pyresult (list string) :=
  match required_keys with
  | [] => Ok []
  | key :: rest =>
      match py_get config key VNone with
      | Raise e => Raise e
      | Ok v =>
          match missing_keys config rest with
          | Raise e => Raise e
          | Ok found =>
              Ok (if eq_str v ("YOUR_" +:+ PyStr.upper key) then key :: found
                  else found)
          end
      end
  end.

(** Lines 456-463: the arguments of the constructor, in the order they
    are evaluated: [config.get('user_agent')] first, then the four
    subscripts. *)
Definition constructor_arguments (config : value)
    : pyresult (value * value * value * value * value) :=
  match py_get config "user_agent" VNone with
  | Raise e => Raise e
  | Ok user_agent =>
  match py_getitem config "client_id" with
  | Raise e => Raise e
  | Ok client_id =>
  match py_getitem config "client_secret" with
  | Raise e => Raise e
  | Ok client_secret =>
  match py_getitem config "username" with
  | Raise e => Raise e
  | Ok username =>
  match py_getitem config "password" with
  | Raise e => Raise e
  | Ok password => Ok (client_id, client_secret, username, password, user_agent)
  end end end end end.

(** The constructor applied to values: [__init__] declares the four
    credentials [str] and the user agent [Optional[str]]; [None] when a
    value is of another type. *)
Definition construct (args : value * value * value * value * value)
    : option RedditAutoPoster :=
  match args with
  | (VStr client_id, VStr client_secret, VStr username, VStr password, VNone) =>
      Some (new_poster client_id client_secret username password None)
  | (VStr client_id, VStr client_secret, VStr username, VStr password,
     VStr user_agent) =>
      Some (new_poster client_id client_secret username password
              (Some user_agent))
  | _ => None
  end.

(** [init_poster] (lines 444-469).  The global is assigned before
    [authenticate] is called, and stays assigned when that fails.  The
    result is [None] when the configuration is outside the model. *)
Definition init_poster (s : Server)
    : option (pyresult RedditAutoPoster * Server) :=
  match load_config env with
  | Raise e => Some (Raise e, s)
  | Ok config =>
  (* Check configuration *)
  match missing_keys config
          ["client_id"; "client_secret"; "username"; "password"] with
  | Raise e => Some (Raise e, s)
  | Ok (key :: keys) =>
      Some (Raise (ValueError ("Missing required configuration: "
                               +:+ join ", " (key :: keys))), s)
  | Ok [] =>
  match constructor_arguments config with
  | Raise e => Some (Raise e, s)
  | Ok args =>
  match construct args with
  | None => None
  | Some self =>
      (* Authenticate *)
      let (ok, w) := authenticate {| poster := self; trace := history s |} in
      let s' := {| global_poster := Some (poster w); history := trace w |} in
      match ok with
      | Raise e => Some (Raise e, s')
      | Ok false =>
          Some (Raise (ValueError "Failed to authenticate with Reddit"), s')
      | Ok true => Some (Ok (poster w), s')
      end
  end end end end.

(** [post_to_reddit] (lines 482-582): the poster is built on the first
    request when [main] has not built it; a failure to build it is
    answered at once.  [init_poster] returns the object that it stored
    in the global, on which the [try] block then runs. *)
Definition post_to_reddit (get_json : pyresult value) (s : Server)
    : option (pyresult reply * Server) :=
  match global_poster s with
  | Some self => Some (on_poster self (handle_post get_json) s)
  | None =>
      match init_poster s with
      | None => None
      | Some (Raise e, s') =>
          Some (Ok (error_reply
                      ("Failed to initialize poster: " +:+ exn_message e) 500),
                s')
      | Some (Ok self, s') =>
          Some (on_poster self (handle_post get_json) s')
      end
  end.

End Program.

(* ------------------------------------------------------------------ *)
(** ** Vocabulary of the specification *)
(* ------------------------------------------------------------------ *)

(** [sub] occurs in [s] at offset [n]. *)
Definition occurs (sub s : string) (n : nat) : Prop :=
  exists a b, s = a +:+ sub +:+ b /\ String.length a = n.

(** The first occurrence of [sub] in [s] is at offset [n]. *)
Definition first_occurrence (sub s : string) (n : nat) : Prop :=
  occurs sub s n /\ forall m, occurs sub s m -> (n <= m)%nat.

(** [s] without its last character. *)
Fixpoint drop_last (s : string) : string :=
  match s with
  | EmptyString => EmptyString
  | String c s' =>
      match s' with
      | EmptyString => EmptyString
      | String _ _ => String c (drop_last s')
      end
  end.

(** Every event that [m] adds to the trace satisfies [P]. *)
Definition emits {A} (P : event -> Prop) (m : M A) : Prop :=
  forall w, exists evs,
    trace (world_after m w) = trace w ++ evs /\ Forall P evs.

Definition is_exchange (e : event) : Prop := e <> AuthAttempt.

(** A call of one of the three public submission methods. *)
Inductive submission : Type :=
| PostText (subreddit title text flair_id : value)
| PostLink (subreddit title url text flair_id : value)
| PostMedia (subreddit title media_url text flair_id : value).

Definition submit (env : Env) (c : submission) : M value :=
  match c with
  | PostText subreddit title text flair_id =>
      post_text env subreddit title text flair_id
  | PostLink subreddit title url text flair_id =>
      post_link env subreddit title url text flair_id
  | PostMedia subreddit title media_url text flair_id =>
      post_media env subreddit title media_url text flair_id
  end.

(** The lease response carries, under [args], an [action] and a [fields]
    value that both count as true. *)
Definition lease_grants (r : response) : bool :=
  match json r with
  | Ok (VDict lease) =>
      match default (VDict ∅) (lease !! "args") with
      | VDict args =>
          truthy (default VNone (args !! "action"))
          && truthy (default (VList []) (args !! "fields"))
      | _ => false
      end
  | _ => false
  end.

(** The lease response carries an [action] that counts as true. *)
Definition lease_has_action (r : response) : bool :=
  match json r with
  | Ok (VDict lease) =>
      match default (VDict ∅) (lease !! "args") with
      | VDict args => truthy (default VNone (args !! "action"))
      | _ => false
      end
  | _ => false
  end.

(** The download of the original media, step 2 of the upload. *)
Definition fetch_request (media_url : string) : request :=
  {| method := "GET"; url := media_url; headers := []; data := [];
     files := None; timeout := 60 |}.

(** Environments and worlds used to exercise the program. *)
Definition scripted (answer : request -> http_outcome) : Env :=
  {| http := fun _ req => answer req;
     guess_type := fun _ => None;
     py_str := fun _ => "";
     load_config := Ok (VDict ∅) |}.

Definition json_response (status : Z) (body : value) : response :=
  {| status_code := status; text := ""; content := ""; json := Ok body |}.

Definition text_response (status : Z) (body : string) : response :=
  {| status_code := status; text := body; content := body;
     json := Raise (LibraryError "Expecting value: line 1 column 1 (char 0)") |}.

Definition world_with_token (tok : value) : World :=
  {| poster :=
       {| client_id := "id"; client_secret := "secret"; username := "user";
          password := "pw"; user_agent := "LivePosting/1.0 (by /u/user)";
          access_token := tok; token_type := VStr "bearer" |};
     trace := [] |}.

(** The password-grant request that [authenticate] sends for [self]. *)
Definition token_request (self : RedditAutoPoster) : request :=
  {| method := "POST";
     url := token_url;
     headers :=
       [("Authorization",
         "Basic " +:+ PyStr.b64encode (client_id self +:+ ":" +:+ client_secret self));
        ("User-Agent", user_agent self);
        ("Content-Type", "application/x-www-form-urlencoded")];
     data :=
       [(VStr "grant_type", VStr "password");
        (VStr "username", VStr (username self));
        (VStr "password", VStr (password self))];
     files := None;
     timeout := 30 |}.

(** What [authenticate] does with the outcome of the token request. *)
Definition token_verdict (out : http_outcome) (w : World) : pyresult bool * World :=
  match out with
  | TransportError _ => (Ok false, w)
  | Response r =>
      if status_code r =? 200 then
        match json r with
        | Ok (VDict d) =>
            (Ok true,
             with_token_type (default (VStr "bearer") (d !! "token_type"))
               (with_access_token (default VNone (d !! "access_token")) w))
        | _ => (Ok false, w)
        end
      else (Ok false, w)
  end.

(** The headers that [_get_headers] builds for [self], as a value. *)
Definition auth_headers (env : Env) (self : RedditAutoPoster)
    : pyresult (list (string * string)) :=
  if truthy (access_token self) then
    match token_type self with
    | VStr s =>
        Ok [("Authorization",
             PyStr.capitalize s +:+ " " +:+ fmt env (access_token self));
            ("User-Agent", user_agent self);
            ("Content-Type", "application/x-www-form-urlencoded")]
    | v => Raise (AttributeError (type_name v) "capitalize")
    end
  else Raise (ValueError "Authentication required first").

(** The [action] and [fields] of a lease response that passes the check of
    line 291. *)
Definition lease_terms (r : response) : option (value * value) :=
  match json r with
  | Ok (VDict lease) =>
      match default (VDict ∅) (lease !! "args") with
      | VDict args =>
          let action := default VNone (args !! "action") in
          let fields := default (VList []) (args !! "fields") in
          if truthy action && truthy fields then Some (action, fields)
          else None
      | _ => None
      end
  | _ => None
  end.

Definition lease_request (hdrs : list (string * string))
    (filename mime_type : string) : request :=
  {| method := "POST";
     url := api_base +:+ "/api/media/asset";
     headers := hdrs;
     data := [(VStr "filepath", VStr filename); (VStr "mimetype", VStr mime_type)];
     files := None;
     timeout := 30 |}.

Definition upload_request (env : Env) (action : value) (upload_data : form)
    (file : string * string * string) : request :=
  {| method := "POST";
     url := "https:" +:+ fmt env action;
     headers := [];
     data := upload_data;
     files := Some file;
     timeout := 120 |}.

Definition located (r : response) : value :=
  match extract_location (text r) with
  | Some location => VStr location
  | None => VNone
  end.

(** The upload sequence written out exchange by exchange, for headers
    [hdrs] and the media URL [u]; [_upload_media] is shown to run it. *)
Definition upload_sequence (env : Env) (hdrs : list (string * string))
    (u : string) (w : World) : pyresult value * World :=
  let filename := lease_filename u in
  let mime_type := lease_mime_type env filename in
  let req1 := lease_request hdrs filename mime_type in
  let out1 := http env (trace w) req1 in
  let w1 := log (EvHttp req1 out1) w in
  match out1 with
  | TransportError _ => (Ok VNone, w1)
  | Response r1 =>
      if negb (status_code r1 =? 200) then (Ok VNone, w1) else
      match lease_terms r1 with
      | None => (Ok VNone, w1)
      | Some (action, fields) =>
          let req2 := fetch_request u in
          let out2 := http env (trace w1) req2 in
          let w2 := log (EvHttp req2 out2) w1 in
          match out2 with
          | TransportError _ => (Ok VNone, w2)
          | Response r2 =>
              if negb (status_code r2 =? 200) then (Ok VNone, w2) else
              match build_upload_data fields with
              | Raise _ => (Ok VNone, w2)
              | Ok upload_data =>
                  let req3 :=
                    upload_request env action upload_data
                      (filename, content r2, mime_type) in
                  let out3 := http env (trace w2) req3 in
                  let w3 := log (EvHttp req3 out3) w2 in
                  match out3 with
                  | TransportError _ => (Ok VNone, w3)
                  | Response r3 =>
                      if negb (status_code r3 =? 200) then (Ok VNone, w3)
                      else (Ok (located r3), w3)
                  end
              end
          end
      end
  end.

(** A request that creates a post: a plain form POST to [/api/submit]. *)
Definition is_submission (req : request) : Prop :=
  method req = "POST" /\ url req = api_base +:+ "/api/submit"
  /\ files req = None.

(** If [e] is such a request, its form carries [key = v]. *)
Definition carries (key : string) (v : value) (e : event) : Prop :=
  forall req out,
    e = EvHttp req out -> is_submission req ->
    dict_lookup (data req) (VStr key) = Some v.

(** [data.get(key)] on the request body. *)
Definition field (d : gmap string value) (key : string) : value :=
  default VNone (d !! key).

(** The handler once the fields of the body are read. *)
Definition route (env : Env)
    (title subreddit post_type text url media_url flair_id : value) : M reply :=
  try_except
    (subreddit <~ or_default_subreddit env subreddit ;;
     result <~ publish env (detect_post_type post_type media_url url)
                 subreddit title text url media_url flair_id ;;
     respond env result)
    (fun e => ret (error_reply (exn_message e) 500)).


(** A remote side that accepts everything: token, lease, download, upload
    and submission all answer 200. *)
Definition lease_body : value :=
  VDict {[ "args" :=
    VDict {[ "action" := VStr "//bucket.s3/amazon";
             "fields" := VList [VDict {[ "name" := VStr "a";
                                         "value" := VStr "1" ]}] ]} ]}.

Definition submitted_body : value :=
  VDict {[ "json" :=
    VDict {[ "data" :=
      VDict {[ "id" := VStr "abc"; "name" := VStr "t3_abc";
               "permalink" := VStr "/r/test/abc" ]} ]} ]}.

Definition friendly (req : request) : http_outcome :=
  if String.eqb (url req) token_url then
    Response (json_response 200 (VDict {[ "access_token" := VStr "tok" ]}))
  else if String.eqb (url req) (api_base +:+ "/api/media/asset") then
    Response (json_response 200 lease_body)
  else if String.eqb (method req) "GET" then
    Response (text_response 200 "bytes")
  else if String.eqb (url req) (api_base +:+ "/api/submit") then
    Response (json_response 200 submitted_body)
  else
    Response (text_response 200
      "<PostResponse><Location>https://cdn/x.jpg</Location></PostResponse>").

(** A lease endpoint that grants an [action] but no [fields]. *)
Definition lease_without_fields : response :=
  json_response 200
    (VDict {[ "args" := VDict {[ "action" := VStr "//bucket.s3/amazon" ]} ]}).

(** A remote side that refuses everything. *)
Definition hostile (status : Z) (req : request) : http_outcome :=
  Response (text_response status "refused").

(** The lease response carries, under [args], a [fields] value that is a
    non-empty list. *)
Definition lease_has_fields_list (r : response) : bool :=
  match json r with
  | Ok (VDict lease) =>
      match default (VDict ∅) (lease !! "args") with
      | VDict args =>
          match default (VList []) (args !! "fields") with
          | VList (_ :: _) => true
          | _ => false
          end
      | _ => false
      end
  | _ => false
  end.

(** A lease endpoint whose [fields] is a string instead of a list. *)
Definition lease_with_text_fields : response :=
  json_response 200
    (VDict {[ "args" := VDict {[ "action" := VStr "//bucket.s3/amazon";
                                 "fields" := VStr "signed" ]} ]}).

(* ------------------------------------------------------------------ *)
(** ** The submission written out *)
(* ------------------------------------------------------------------ *)

(** The POST to [/api/submit] with headers [hdrs] and form [data]. *)
Definition submission_request (hdrs : list (string * string)) (data : form)
    : request :=
  {| method := "POST";
     url := api_base +:+ "/api/submit";
     headers := hdrs;
     data := data;
     files := None;
     timeout := 30 |}.

(** What a submission method returns for the response [r] of the
    submission endpoint: the parsed body when the status is 200, the body
    is an object whose [json] member (if any) is an object without errors
    and whose [data] member (if any) is an object; [None] otherwise. *)
Definition submission_result (r : response) : value :=
  if status_code r =? 200 then
    match json r with
    | Ok (VDict body) =>
        match default (VDict ∅) (body !! "json") with
        | VDict envelope =>
            if truthy (default VNone (envelope !! "errors")) then VNone
            else
              match default (VDict ∅) (envelope !! "data") with
              | VDict _ => VDict body
              | _ => VNone
              end
        | _ => VNone
        end
    | _ => VNone
    end
  else VNone.

(** The submission proper, once the form is built: headers, one exchange,
    reading of the response. *)
Definition submit_form (env : Env) (data : form) (w : World)
    : pyresult value * World :=
  match auth_headers env (poster w) with
  | Raise _ => (Ok VNone, w)
  | Ok hdrs =>
      let req := submission_request hdrs data in
      let out := http env (trace w) req in
      let w' := log (EvHttp req out) w in
      match out with
      | TransportError _ => (Ok VNone, w')
      | Response r => (Ok (submission_result r), w')
      end
  end.

Definition text_form (subreddit title text flair_id : value) : form :=
  set_if
    [(VStr "api_type", VStr "json"); (VStr "sr", subreddit);
     (VStr "title", title); (VStr "text", text); (VStr "kind", VStr "self")]
    "flair_id" flair_id.

Definition link_form (subreddit title url text flair_id : value) : form :=
  set_if
    (set_if
       [(VStr "api_type", VStr "json"); (VStr "sr", subreddit);
        (VStr "title", title); (VStr "url", url); (VStr "kind", VStr "link")]
       "text" text)
    "flair_id" flair_id.

Definition media_form (subreddit title uploaded_url : value) (kind : string)
    (text flair_id : value) : form :=
  set_if
    [(VStr "api_type", VStr "json"); (VStr "sr", subreddit);
     (VStr "title", title); (VStr "url", uploaded_url);
     (VStr "kind", VStr kind); (VStr "text", or_empty text)]
    "flair_id" flair_id.

(** A submission method past its guard: [go] is what the guard answered. *)
Definition guarded (go : pyresult bool) (w : World)
    (proceed : World -> pyresult value * World) : pyresult value * World :=
  match go with
  | Ok true => proceed w
  | Ok false => (Ok VNone, w)
  | Raise e => (Raise e, w)
  end.

(** [post_media] past its guard. *)
Definition media_submission (env : Env)
    (subreddit title media_url text flair_id : value) (w : World)
    : pyresult value * World :=
  match _upload_media env media_url w with
  | (Ok uploaded_url, w') =>
      if truthy uploaded_url then
        match media_url with
        | VStr u =>
            submit_form env
              (media_form subreddit title uploaded_url (media_kind u) text flair_id)
              w'
        | _ => (Ok VNone, w')
        end
      else (Ok VNone, w')
  | (Raise _, w') => (Ok VNone, w')
  end.

(* ------------------------------------------------------------------ *)
(** ** The handler written out *)
(* ------------------------------------------------------------------ *)

(** The call that [publish] makes. *)
Definition chosen_submission
    (post_type subreddit title text url media_url flair_id : value)
    : submission :=
  if eq_str post_type "media" && truthy media_url then
    PostMedia subreddit title media_url text flair_id
  else if eq_str post_type "link" && truthy url then
    PostLink subreddit title url text flair_id
  else
    PostText subreddit title text flair_id.

(** The reply for a published post whose [json.data] is [post_data]. *)
Definition success_reply (env : Env) (post_data : gmap string value) : reply :=
  {| reply_body :=
       {[ "success" := VBool true;
          "post_id" := default VNone (post_data !! "id");
          "post_name" := default VNone (post_data !! "name");
          "url" := VStr ("https://reddit.com"
                         +:+ fmt env (default (VStr "") (post_data !! "permalink"))) ]};
     reply_status := 200 |}.

(** The subreddit a request is posted to: its own, or the default of the
    configuration file, or [test]; [None] when the file is needed and
    cannot be used. *)
Definition resolved_subreddit (env : Env) (subreddit : value) : option value :=
  if truthy subreddit then Some subreddit
  else
    match load_config env with
    | Ok (VDict config) => Some (default (VStr "test") (config !! "default_subreddit"))
    | _ => None
    end.

(** The submission that the handler makes for the body [d], posted to
    [subreddit]. *)
Definition request_submission (d : gmap string value) (subreddit : value)
    : submission :=
  chosen_submission
    (detect_post_type (field d "post_type") (field d "media_url") (field d "url"))
    subreddit (field d "title") (default (VStr "") (d !! "text"))
    (field d "url") (field d "media_url") (field d "flair_id").

(** One of the three exchanges of the upload of [u] under headers [hdrs]. *)
Definition upload_exchange (env : Env) (hdrs : list (string * string))
    (u : string) (req : request) : Prop :=
  let filename := lease_filename u in
  let mime_type := lease_mime_type env filename in
  req = lease_request hdrs filename mime_type
  \/ req = fetch_request u
  \/ exists action upload_data content,
       req = upload_request env action upload_data (filename, content, mime_type).

(** The form that the call [c] submits. *)
Definition form_of (c : submission) (data : form) : Prop :=
  match c with
  | PostText subreddit title text flair_id =>
      data = text_form subreddit title text flair_id
  | PostLink subreddit title url text flair_id =>
      data = link_form subreddit title url text flair_id
  | PostMedia subreddit title media_url text flair_id =>
      exists u location,
        media_url = VStr u
        /\ truthy (VStr location) = true
        /\ data = media_form subreddit title (VStr location) (media_kind u)
                    text flair_id
  end.

(** The media URL of a call, when it uploads one. *)
Definition uploads (c : submission) (u : string) : Prop :=
  match c with
  | PostMedia _ _ media_url _ _ => media_url = VStr u
  | _ => False
  end.

(* ------------------------------------------------------------------ *)
(** ** The upload form *)
(* ------------------------------------------------------------------ *)

(** The value that the lease fields give to [name]: that of the last field
    whose name equals it. *)
Fixpoint last_field_value (fields : list value) (name : value) : option value :=
  match fields with
  | [] => None
  | entry :: rest =>
      match last_field_value rest name with
      | Some v => Some v
      | None =>
          match py_getitem entry "name", py_getitem entry "value" with
          | Ok n, Ok v => if key_eqb n name then Some v else None
          | _, _ => None
          end
      end
  end.

(** A lease field that the loop of lines 305-306 accepts: an object with a
    [value] and a hashable [name]. *)
Definition well_formed_field (entry : value) : bool :=
  match py_getitem entry "value", py_getitem entry "name" with
  | Ok _, Ok n => hashable n
  | _, _ => false
  end.

(* ------------------------------------------------------------------ *)
(** ** The stored credentials *)
(* ------------------------------------------------------------------ *)

(** Two posters with the same credentials and user agent; the token may
    differ. *)
Definition same_identity (p q : RedditAutoPoster) : Prop :=
  client_id p = client_id q
  /\ client_secret p = client_secret q
  /\ username p = username q
  /\ password p = password q
  /\ user_agent p = user_agent q.

(* ------------------------------------------------------------------ *)
(** ** Sample requests and worlds *)
(* ------------------------------------------------------------------ *)

(** The headers of a poster that holds the bearer token [tok]. *)
Definition bearer_headers (tok : string) : list (string * string) :=
  [("Authorization", "Bearer " +:+ tok);
   ("User-Agent", "LivePosting/1.0 (by /u/user)");
   ("Content-Type", "application/x-www-form-urlencoded")].

(** A text post to [r/test], and the request it is submitted with. *)
Definition sample_text_post : submission :=
  PostText (VStr "test") (VStr "T") (VStr "hi") VNone.

Definition sample_text_request : request :=
  submission_request (bearer_headers "tok")
    (text_form (VStr "test") (VStr "T") (VStr "hi") VNone).

(** A media post, and the request it is submitted with once the upload
    has answered [https://cdn/x.jpg]. *)
Definition sample_media_post : submission :=
  PostMedia (VStr "test") (VStr "T") (VStr "https://host/a.jpg") VNone VNone.

Definition sample_media_request : request :=
  submission_request (bearer_headers "tok")
    (media_form (VStr "test") (VStr "T") (VStr "https://cdn/x.jpg") "image"
       VNone VNone).

(** A world without token whose application id holds an accented letter. *)
Definition world_with_accented_id : World :=
  {| poster :=
       {| client_id := String (ascii_of_nat 233) "id";
          client_secret := "secret"; username := "user";
          password := "pw"; user_agent := "LivePosting/1.0 (by /u/user)";
          access_token := VNone; token_type := VStr "bearer" |};
     trace := [] |}.

(* ------------------------------------------------------------------ *)
(** ** The server *)
(* ------------------------------------------------------------------ *)

(** The server whose global [poster] is the object of [w]. *)
Definition serving (w : World) : Server :=
  {| global_poster := Some (poster w); history := trace w |}.

(** The way into the handler (lines 503-507), with [m] for what runs on
    the built poster. *)
Definition entered (env : Env) (m : M reply) (s : Server)
    : option (pyresult reply * Server) :=
  match global_poster s with
  | Some self => Some (on_poster self m s)
  | None =>
      match init_poster env s with
      | None => None
      | Some (Raise e, s') =>
          Some (Ok (error_reply
                      ("Failed to initialize poster: " +:+ exn_message e) 500),
                s')
      | Some (Ok self, s') => Some (on_poster self m s')
      end
  end.

(** The state in which the [try] block of the handler starts, when the
    handler gets there: the poster was built already, or [init_poster]
    has just built it. *)
Definition started (env : Env) (s : Server) : option World :=
  match global_poster s with
  | Some self => Some {| poster := self; trace := history s |}
  | None =>
      match init_poster env s with
      | Some (Ok self, s') => Some {| poster := self; trace := history s' |}
      | _ => None
      end
  end.

(** What a run of the handler answers and what it adds to the trace. *)
Definition answer (h : Server -> option (pyresult reply * Server)) (s : Server)
    : option (pyresult reply) :=
  match h s with
  | Some (r, _) => Some r
  | None => None
  end.

Definition sent (h : Server -> option (pyresult reply * Server)) (s : Server)
    : list event :=
  match h s with
  | Some (_, s') => drop (length (history s)) (history s')
  | None => []
  end.


(** The credentials that the configuration must hold, each with the value
    that the example configuration gives it (lines 426-429). *)
Definition placeholders : list (string * string) :=
  [("client_id", "YOUR_CLIENT_ID"); ("client_secret", "YOUR_CLIENT_SECRET");
   ("username", "YOUR_USERNAME"); ("password", "YOUR_PASSWORD")].

(** The credentials that [config] leaves at their example value. *)
Definition unfilled (config : gmap string value) : list string :=
  map fst
    (List.filter (fun entry => eq_str (field config (fst entry)) (snd entry))
       placeholders).

(** The example configuration that [load_config] writes and returns when
    there is no configuration file (lines 425-432). *)
Definition example_config : gmap string value :=
  {[ "client_id" := VStr "YOUR_CLIENT_ID";
     "client_secret" := VStr "YOUR_CLIENT_SECRET";
     "username" := VStr "YOUR_USERNAME";
     "password" := VStr "YOUR_PASSWORD";
     "user_agent" := VStr "LivePosting/1.0 (by /u/YOUR_USERNAME)";
     "default_subreddit" := VStr "test" ]}.

(** A server that has not built its poster yet. *)
Definition fresh_server : Server := {| global_poster := None; history := [] |}.

(** An environment whose configuration file holds [config]. *)
Definition configured (config : value) (answer : request -> http_outcome) : Env :=
  {| http := fun _ req => answer req;
     guess_type := fun _ => None;
     py_str := fun _ => "";
     load_config := Ok config |}.

(** A configuration file filled in by its owner. *)
Definition sample_config : gmap string value :=
  {[ "client_id" := VStr "id"; "client_secret" := VStr "secret";
     "username" := VStr "user"; "password" := VStr "pw" ]}.

(** The server after a first request whose authentication was refused. *)
Definition refused_server : Server :=
  {| global_poster := Some (new_poster "id" "secret" "user" "pw" None);
     history :=
       [AuthAttempt;
        EvHttp (token_request (new_poster "id" "secret" "user" "pw" None))
          (Response (text_response 401 "refused"))] |}.

(* ------------------------------------------------------------------ *)
(** ** Facts about strings *)
(* ------------------------------------------------------------------ *)

Section StringFacts.
Import PyStr.

Lemma sapp_cons (c : ascii) (a b : string) :
  String c a +:+ b = String c (a +:+ b).
Proof. reflexivity. Qed.

Lemma sapp_nil_l (b : string) : "" +:+ b = b.
Proof. reflexivity. Qed.

Ltac ssimpl := rewrite ?sapp_cons, ?sapp_nil_l in *; simpl in *.

Lemma sapp_assoc (a b c : string) : (a +:+ b) +:+ c = a +:+ (b +:+ c).
Proof. induction a as [|x a IH]; ssimpl; [reflexivity | now rewrite IH]. Qed.

Lemma sapp_nil_r (a : string) : a +:+ "" = a.
Proof. induction a as [|x a IH]; ssimpl; [reflexivity | now rewrite IH]. Qed.

Lemma slength_app (a b : string) :
  String.length (a +:+ b) = (String.length a + String.length b)%nat.
Proof. induction a as [|x a IH]; ssimpl; [reflexivity | now rewrite IH]. Qed.

Lemma startswith_spec (sub s : string) :
  startswith sub s = true <-> exists r, s = sub +:+ r.
Proof.
  revert s. induction sub as [|a sub IH]; intros s; simpl.
  - split; [intros _; now exists s | reflexivity].
  - destruct s as [|b s].
    + split; [discriminate | intros [r Hr]; discriminate].
    + rewrite andb_true_iff, IH. split.
      * intros [Hab [r ->]]. apply Ascii.eqb_eq in Hab. subst b. now exists r.
      * intros [r Hr]. injection Hr as -> ->. split; [apply Ascii.eqb_refl | now exists r].
Qed.

Lemma occurs_zero (sub s : string) :
  occurs sub s 0 <-> startswith sub s = true.
Proof.
  rewrite startswith_spec. split.
  - intros (a & b & -> & Ha). destruct a; [now exists b | discriminate].
  - intros [r ->]. exists "", r. split; reflexivity.
Qed.

Lemma occurs_succ (sub : string) (c : ascii) (s : string) (n : nat) :
  occurs sub (String c s) (S n) <-> occurs sub s n.
Proof.
  split.
  - intros (a & b & H & Ha). destruct a as [|x a]; [discriminate|].
    simpl in H, Ha. injection H as -> ->. exists a, b. split; [reflexivity | lia].
  - intros (a & b & -> & Ha). exists (String c a), b. split; [reflexivity | simpl; lia].
Qed.

Lemma occurs_empty (sub : string) (n : nat) :
  occurs sub "" n -> startswith sub "" = true.
Proof.
  intros (a & b & H & Ha). destruct a; [|discriminate].
  destruct sub; [reflexivity | discriminate].
Qed.

Lemma find_from_spec (sub s : string) (i : Z) :
  (find_from sub s i = -1 /\ forall n, ~ occurs sub s n)
  \/ (exists n, find_from sub s i = i + Z.of_nat n /\ first_occurrence sub s n).
Proof.
  revert i. induction s as [|c s IH]; intros i; simpl.
  - destruct (startswith sub "") eqn:E.
    + right. exists 0%nat. split; [lia|]. split; [now apply occurs_zero | intros; lia].
    + left. split; [reflexivity|]. intros n H. apply occurs_empty in H. congruence.
  - destruct (startswith sub (String c s)) eqn:E.
    + right. exists 0%nat. split; [lia|]. split; [now apply occurs_zero | intros; lia].
    + destruct (IH (i + 1)) as [[H1 H2] | (n & H1 & H2 & H3)].
      * left. split; [exact H1|]. intros [|n] H.
        -- apply occurs_zero in H. congruence.
        -- apply occurs_succ in H. now apply (H2 n).
      * right. exists (S n). split; [lia|]. split.
        -- now apply occurs_succ.
        -- intros [|m] H.
           ++ apply occurs_zero in H. congruence.
           ++ apply occurs_succ in H. apply H3 in H. lia.
Qed.

Lemma find_first (sub s : string) (n : nat) :
  first_occurrence sub s n -> find sub s = Z.of_nat n.
Proof.
  intros [Hn Hmin]. unfold find.
  destruct (find_from_spec sub s 0) as [[_ H] | (k & -> & Hk & Hkmin)].
  - now destruct (H n).
  - apply Hmin in Hk. apply Hkmin in Hn. lia.
Qed.

Lemma find_absent (sub s : string) :
  (forall n, ~ occurs sub s n) -> find sub s = -1.
Proof.
  intros H. unfold find.
  destruct (find_from_spec sub s 0) as [[E _] | (k & _ & Hk & _)]; [exact E|].
  now destruct (H k).
Qed.

Lemma contains_spec (sub s : string) :
  contains sub s = true <-> exists n, occurs sub s n.
Proof.
  unfold contains, find.
  destruct (find_from_spec sub s 0) as [[E H] | (k & E & Hk & _)]; rewrite E.
  - split; [discriminate | intros [n Hn]; now destruct (H n)].
  - split; [intros _; now exists k | intros _; apply Z.leb_le; lia].
Qed.

Lemma endswith_spec (s suf : string) :
  endswith s suf = true <-> exists p, s = p +:+ suf.
Proof.
  induction s as [|c s IH].
  - change (endswith "" suf) with (String.eqb "" suf || false).
    rewrite orb_false_r, String.eqb_eq. split.
    + intros <-. now exists "".
    + intros [[|x p] Hp]; [exact Hp | discriminate].
  - change (endswith (String c s) suf)
      with (String.eqb (String c s) suf || endswith s suf).
    rewrite orb_true_iff, String.eqb_eq, IH. split.
    + intros [H | [p ->]]; [now exists "" | now exists (String c p)].
    + intros [[|x p] Hp]; [now left | right].
      rewrite sapp_cons in Hp. injection Hp as -> ->. now exists p.
Qed.

Lemma substring_skip (a r : string) (k : nat) :
  substring (String.length a) k (a +:+ r) = substring 0 k r.
Proof. induction a as [|x a IH]; simpl; [reflexivity | exact IH]. Qed.

Lemma substring_prefix (m b : string) :
  substring 0 (String.length m) (m +:+ b) = m.
Proof.
  induction m as [|x m IH]; simpl; [now destruct b | now rewrite IH].
Qed.

Lemma substring_drop_last (r : string) :
  substring 0 (String.length r - 1) r = drop_last r.
Proof.
  induction r as [|x r IH]; [reflexivity|].
  destruct r as [|y r]; [reflexivity|].
  cbn [String.length Nat.sub] in IH |- *. rewrite Nat.sub_0_r in IH.
  cbn [substring drop_last] in IH |- *. now rewrite IH.
Qed.

Lemma slice_between (a m b : string) :
  slice (a +:+ m +:+ b) (len a) (len a + len m) = m.
Proof.
  unfold slice, clamp, len. rewrite !slength_app.
  destruct (Z.ltb_spec (Z.of_nat (String.length a)) 0); [lia|].
  destruct (Z.ltb_spec (Z.of_nat (String.length a) + Z.of_nat (String.length m)) 0); [lia|].
  rewrite !Z.min_l by lia.
  replace (Z.to_nat (Z.of_nat (String.length a))) with (String.length a) by lia.
  replace (Z.to_nat _) with (String.length m) by lia.
  rewrite substring_skip. apply substring_prefix.
Qed.

Lemma slice_to_last (a r : string) :
  (0 < String.length (a +:+ r))%nat ->
  slice (a +:+ r) (len a) (-1) = drop_last r.
Proof.
  intros Hpos. unfold slice, clamp, len. rewrite slength_app in *.
  destruct (Z.ltb_spec (Z.of_nat (String.length a)) 0); [lia|].
  destruct (Z.ltb_spec (-1) 0); [|lia].
  rewrite Z.min_l by lia. rewrite Z.max_r by lia.
  replace (Z.to_nat (Z.of_nat (String.length a))) with (String.length a) by lia.
  replace (Z.to_nat _) with (String.length r - 1)%nat by lia.
  rewrite substring_skip. apply substring_drop_last.
Qed.

Lemma find_first_occurrence (sub s : string) (n : nat) :
  find sub s = Z.of_nat n -> first_occurrence sub s n.
Proof.
  unfold find. intros E.
  destruct (find_from_spec sub s 0) as [[E' _] | (k & E' & Hk)]; [lia|].
  replace n with k by lia. exact Hk.
Qed.

Lemma find_no_occurrence (sub s : string) :
  find sub s = -1 -> forall n, ~ occurs sub s n.
Proof.
  unfold find. intros E.
  destruct (find_from_spec sub s 0) as [[_ H] | (k & E' & _)]; [exact H | lia].
Qed.
End StringFacts.

(* ------------------------------------------------------------------ *)
(** ** Traces and authentication *)
(* ------------------------------------------------------------------ *)

Section TraceFacts.
Context {A : Type}.

Lemma emitted_app (m : M A) (w : World) (evs : list event) :
  trace (world_after m w) = trace w ++ evs -> emitted m w = evs.
Proof. unfold emitted. intros ->. apply drop_app_length. Qed.

Lemma emits_ret (P : event -> Prop) (a : A) : emits P (ret a).
Proof. intros w. exists []. split; [symmetry; apply app_nil_r | constructor]. Qed.

Lemma emits_raise (P : event -> Prop) (e : exn) : emits P (@raise A e).
Proof. intros w. exists []. split; [symmetry; apply app_nil_r | constructor]. Qed.

Lemma emits_lift (P : event -> Prop) (r : pyresult A) : emits P (lift r).
Proof. intros w. exists []. split; [symmetry; apply app_nil_r | constructor]. Qed.

Lemma emits_try (P : event -> Prop) (body : M A) (handler : exn -> M A) :
  emits P body -> (forall e, emits P (handler e)) ->
  emits P (try_except body handler).
Proof.
  intros Hb Hh w. unfold world_after, try_except.
  destruct (Hb w) as (evs & Ht & HP). unfold world_after in Ht.
  destruct (body w) as [[a | e] w1]; simpl in *.
  - exists evs. now split.
  - destruct (Hh e w1) as (evs' & Ht' & HP'). unfold world_after in Ht'.
    exists (evs ++ evs'). rewrite Ht', Ht, app_assoc. split; [reflexivity|].
    apply Forall_app. now split.
Qed.
End TraceFacts.

Lemma emits_bind {A B} (P : event -> Prop) (m : M A) (k : A -> M B) :
  emits P m -> (forall a, emits P (k a)) -> emits P (bind m k).
Proof.
  intros Hm Hk w. unfold world_after, bind.
  destruct (Hm w) as (evs & Ht & HP). unfold world_after in Ht.
  destruct (m w) as [[a | e] w1]; simpl in *.
  - destruct (Hk a w1) as (evs' & Ht' & HP'). unfold world_after in Ht'.
    exists (evs ++ evs'). rewrite Ht', Ht, app_assoc. split; [reflexivity|].
    apply Forall_app. now split.
  - exists evs. now split.
Qed.

Lemma emits_get_self (P : event -> Prop) : emits P get_self.
Proof. intros w. exists []. split; [symmetry; apply app_nil_r | constructor]. Qed.

Lemma emits_modify_token (P : event -> Prop) (f : World -> World) :
  (forall w, trace (f w) = trace w) -> emits P (modify f).
Proof.
  intros Hf w. exists []. unfold world_after, modify. simpl.
  rewrite Hf. split; [symmetry; apply app_nil_r | constructor].
Qed.

Lemma emits_send (env : Env) (P : event -> Prop) (req : request) :
  (forall out, P (EvHttp req out)) -> emits P (send env req).
Proof.
  intros HP w. exists [EvHttp req (http env (trace w) req)].
  unfold world_after, send.
  destruct (http env (trace w) req) eqn:E; simpl; (split; [reflexivity|]);
    repeat constructor; apply HP.
Qed.

Ltac emits_step :=
  first
    [ apply emits_ret | apply emits_raise | apply emits_lift
    | apply emits_get_self
    | apply emits_modify_token; intros ?; reflexivity
    | apply emits_bind; [|intros ?]
    | apply emits_try; [|intros ?]
    | match goal with
      | |- emits _ (if ?b then _ else _) => destruct b
      | |- emits _ (match ?x with _ => _ end) => destruct x
      end ].

Section Emission.
Variable env : Env.
Variable P : event -> Prop.
Hypothesis exchanges : forall req out, P (EvHttp req out).

Lemma emits_requests_post u h d f t : emits P (requests_post env u h d f t).
Proof. apply emits_send. intros out. apply exchanges. Qed.

Lemma emits_requests_get u t : emits P (requests_get env u t).
Proof. apply emits_send. intros out. apply exchanges. Qed.

Lemma emits_get_headers : emits P (_get_headers env).
Proof. unfold _get_headers. repeat emits_step. Qed.

Lemma emits_read_submission b r : emits P (read_submission b r).
Proof. unfold read_submission. repeat emits_step. Qed.

Lemma emits_upload_media mu : emits P (_upload_media env mu).
Proof.
  unfold _upload_media.
  repeat first [ apply emits_get_headers | apply emits_requests_post
               | apply emits_requests_get | emits_step ].
Qed.
End Emission.

Ltac unfold_monad :=
  unfold try_except, bind, lift, ret, raise, get_self, modify,
    requests_post, requests_get, send in *;
  cbv beta iota zeta in *.

Ltac case_step :=
  match goal with
  | |- context [match ?x with _ => _ end] =>
      lazymatch x with
      | context [match _ with _ => _ end] => fail
      | _ => destruct x eqn:?
      end
  end.

Lemma authenticate_run (env : Env) (w : World) :
  authenticate env w =
    let w0 := log AuthAttempt w in
    let req := token_request (poster w) in
    if PyStr.is_ascii (client_id (poster w) +:+ ":" +:+ client_secret (poster w))
    then
      let out := http env (trace w0) req in
      token_verdict out (log (EvHttp req out) w0)
    else (Ok false, w0).
Proof.
  unfold authenticate, encode_ascii, token_verdict, token_request. unfold_monad.
  cbn [poster log trace].
  repeat (case_step; cbv beta iota zeta; cbn [py_get] in *; simplify_eq;
          try reflexivity).
Qed.

Lemma token_verdict_trace (out : http_outcome) (w : World) :
  trace (snd (token_verdict out w)) = trace w.
Proof.
  unfold token_verdict.
  repeat (case_step; cbv beta iota zeta); reflexivity.
Qed.

Lemma authenticate_emitted (env : Env) (w : World) :
  emitted (authenticate env) w =
    if PyStr.is_ascii (client_id (poster w) +:+ ":" +:+ client_secret (poster w))
    then [AuthAttempt;
          EvHttp (token_request (poster w))
            (http env (trace w ++ [AuthAttempt]) (token_request (poster w)))]
    else [AuthAttempt].
Proof.
  apply emitted_app. unfold world_after. rewrite authenticate_run.
  cbv zeta. destruct (PyStr.is_ascii _).
  - rewrite token_verdict_trace. cbn [log trace]. now rewrite <- app_assoc.
  - reflexivity.
Qed.

Lemma authenticate_exchange (env : Env) (w : World) req out :
  In (EvHttp req out) (emitted (authenticate env) w) ->
  authenticate env w =
    token_verdict out (log (EvHttp req out) (log AuthAttempt w)).
Proof.
  rewrite authenticate_emitted, authenticate_run. cbv zeta.
  destruct (PyStr.is_ascii _); cbn [In log trace].
  - intros [H | [H | []]]; [discriminate|]. now injection H as <- <-.
  - intros [H | []]. discriminate.
Qed.

Lemma authenticate_never_raises (env : Env) (w : World) :
  exists b, outcome_of (authenticate env) w = Ok b.
Proof.
  unfold outcome_of. rewrite authenticate_run. cbv zeta.
  destruct (PyStr.is_ascii _); [|now exists false].
  unfold token_verdict.
  repeat (case_step; cbv beta iota zeta); cbn [fst]; eauto.
Qed.

(** C4, as amended.  [authenticate] never raises.  A transport failure and
    a response whose status is not 200 both give [False] and leave the
    poster, hence the stored token, exactly as it was.  A 200 response whose
    body parses to a JSON object gives [True] and stores
    [get('access_token')] and [get('token_type', 'bearer')].  A 200
    response whose body does not parse to a JSON object gives [False] and
    leaves the poster as it was. *)
Theorem authenticate_outcome (env : Env) (w : World) :
  let result := outcome_of (authenticate env) w in
  let w' := world_after (authenticate env) w in
  let received out := In out (emitted (authenticate env) w) in
  (exists b, result = Ok b)
  /\ (forall req e,
        received (EvHttp req (TransportError e)) ->
        result = Ok false /\ poster w' = poster w)
  /\ (forall req r,
        received (EvHttp req (Response r)) -> status_code r <> 200 ->
        result = Ok false /\ poster w' = poster w)
  /\ (forall req r d,
        received (EvHttp req (Response r)) -> status_code r = 200 ->
        json r = Ok (VDict d) ->
        result = Ok true
        /\ access_token (poster w') = default VNone (d !! "access_token")
        /\ token_type (poster w') = default (VStr "bearer") (d !! "token_type"))
  /\ (forall req r,
        received (EvHttp req (Response r)) -> status_code r = 200 ->
        (forall d, json r <> Ok (VDict d)) ->
        result = Ok false /\ poster w' = poster w).
Proof.
  cbv zeta. split; [apply authenticate_never_raises|].
  unfold outcome_of, world_after. split; [|split; [|split]].
  - intros req e Hin. rewrite (authenticate_exchange _ _ _ _ Hin).
    split; reflexivity.
  - intros req r Hin Hstatus. rewrite (authenticate_exchange _ _ _ _ Hin).
    unfold token_verdict.
    destruct (Z.eqb_spec (status_code r) 200); [contradiction|].
    split; reflexivity.
  - intros req r d Hin Hstatus Hjson.
    rewrite (authenticate_exchange _ _ _ _ Hin). unfold token_verdict.
    rewrite Hstatus, Hjson. repeat split.
  - intros req r Hin Hstatus Hjson.
    rewrite (authenticate_exchange _ _ _ _ Hin). unfold token_verdict.
    rewrite Hstatus. cbn [Z.eqb Pos.eqb].
    destruct (json r) as [[]|]; try (split; reflexivity).
    now destruct (Hjson d).
Qed.

Lemma authenticate_outcome_witness :
  outcome_of
    (authenticate
       (scripted (fun _ => Response
          (json_response 200 (VDict {[ "access_token" := VStr "tok" ]})))))
    (world_with_token VNone) = Ok true
  /\ access_token (poster (world_after
       (authenticate
          (scripted (fun _ => Response
             (json_response 200 (VDict {[ "access_token" := VStr "tok" ]})))))
       (world_with_token VNone))) = VStr "tok"
  /\ token_type (poster (world_after
       (authenticate
          (scripted (fun _ => Response
             (json_response 200 (VDict {[ "access_token" := VStr "tok" ]})))))
       (world_with_token VNone))) = VStr "bearer".
Proof.
  refine (proj1 (proj2 (proj2 (proj2
           (authenticate_outcome
              (scripted (fun _ => Response
                 (json_response 200 (VDict {[ "access_token" := VStr "tok" ]}))))
              (world_with_token VNone)))))
           (token_request (poster (world_with_token VNone)))
           (json_response 200 (VDict {[ "access_token" := VStr "tok" ]}))
           {[ "access_token" := VStr "tok" ]} _ _ _).
  - vm_compute. right. left. reflexivity.
  - reflexivity.
  - reflexivity.
Defined.

(** C4, as stated, fails: the token endpoint answers 200 with a body that
    is not JSON, and [authenticate] returns [False]. *)
Lemma authenticate_200_unparsable :
  In (EvHttp (token_request (poster (world_with_token VNone)))
        (Response (text_response 200 "<html>Service</html>")))
     (emitted
        (authenticate (scripted (fun _ =>
           Response (text_response 200 "<html>Service</html>"))))
        (world_with_token VNone))
  /\ status_code (text_response 200 "<html>Service</html>") = 200
  /\ outcome_of
       (authenticate (scripted (fun _ =>
          Response (text_response 200 "<html>Service</html>"))))
       (world_with_token VNone) = Ok false.
Proof.
  split; [|split].
  - vm_compute. right. left. reflexivity.
  - reflexivity.
  - vm_compute. reflexivity.
Qed.

(** C8.  When the token endpoint answers 200 with a JSON object that has
    no [access_token] key, [authenticate] returns [True] and the stored
    access token is [None] afterwards, whatever it was before. *)
Theorem authenticate_without_access_token (env : Env) (w : World)
    (req : request) (r : response) (d : gmap string value) :
  In (EvHttp req (Response r)) (emitted (authenticate env) w) ->
  status_code r = 200 ->
  json r = Ok (VDict d) ->
  d !! "access_token" = None ->
  outcome_of (authenticate env) w = Ok true
  /\ access_token (poster (world_after (authenticate env) w)) = VNone.
Proof.
  intros Hin Hstatus Hjson Hkey. unfold outcome_of, world_after.
  rewrite (authenticate_exchange _ _ _ _ Hin). unfold token_verdict.
  rewrite Hstatus, Hjson, Hkey. split; reflexivity.
Qed.

Lemma authenticate_without_access_token_witness :
  outcome_of
    (authenticate
       (scripted (fun _ => Response
          (json_response 200 (VDict {[ "token_type" := VStr "bearer" ]})))))
    (world_with_token (VStr "valid")) = Ok true
  /\ access_token (poster (world_after
       (authenticate
          (scripted (fun _ => Response
             (json_response 200 (VDict {[ "token_type" := VStr "bearer" ]})))))
       (world_with_token (VStr "valid")))) = VNone.
Proof.
  apply (authenticate_without_access_token _ _
           (token_request (poster (world_with_token (VStr "valid"))))
           (json_response 200 (VDict {[ "token_type" := VStr "bearer" ]}))
           {[ "token_type" := VStr "bearer" ]}).
  - vm_compute. right. left. reflexivity.
  - reflexivity.
  - reflexivity.
  - reflexivity.
Defined.

Lemma authenticate_trace (env : Env) (w : World) :
  trace (world_after (authenticate env) w) =
    trace w ++ emitted (authenticate env) w.
Proof.
  rewrite authenticate_emitted. unfold world_after. rewrite authenticate_run.
  cbv zeta. destruct (PyStr.is_ascii _).
  - rewrite token_verdict_trace. cbn [log trace]. now rewrite <- app_assoc.
  - reflexivity.
Qed.

Lemma authenticate_emitted_shape (env : Env) (w : World) :
  exists rest,
    emitted (authenticate env) w = AuthAttempt :: rest
    /\ Forall is_exchange rest
    /\ (forall req out, In (EvHttp req out) rest -> url req = token_url).
Proof.
  rewrite authenticate_emitted. destruct (PyStr.is_ascii _).
  - eexists. split; [reflexivity|]. split.
    + repeat constructor. discriminate.
    + intros req out [H | []]. now injection H as <- <-.
  - exists []. split; [reflexivity|]. split; [constructor | intros ? ? []].
Qed.

Lemma ensure_token_run (env : Env) (w : World) :
  ensure_token env w =
    if truthy (access_token (poster w)) then (Ok true, w)
    else authenticate env w.
Proof.
  unfold ensure_token. unfold_monad.
  destruct (truthy (access_token (poster w))); reflexivity.
Qed.

Lemma exchange_not_attempt (l : list event) :
  Forall is_exchange l -> ~ In AuthAttempt l.
Proof.
  intros H Hin. rewrite Forall_forall in H. apply (H AuthAttempt); [|reflexivity].
  now apply list_elem_of_In.
Qed.

Section Guard.
Variable env : Env.
Variable k : bool -> M value.
Hypothesis k_emits : forall b, emits is_exchange (k b).
Hypothesis k_stops : forall w, k false w = (Ok VNone, w).

Lemma guard_without_token (w : World) :
  truthy (access_token (poster w)) = false ->
  exists rest,
    emitted (bind (ensure_token env) k) w = AuthAttempt :: rest /\ ~ In AuthAttempt rest.
Proof.
  intros Htok.
  destruct (authenticate_never_raises env w) as [b Hb].
  destruct (authenticate_emitted_shape env w) as (rest & Hrest & Hex & _).
  pose proof (authenticate_trace env w) as Ht.
  unfold outcome_of, world_after in *.
  destruct (authenticate env w) as [res w1] eqn:Hauth. cbn [fst snd] in *.
  subst res. destruct (k_emits b w1) as (evs & Hevs & Hall).
  exists (rest ++ evs). split.
  - apply emitted_app. unfold world_after, bind.
    rewrite ensure_token_run, Htok, Hauth. unfold world_after in Hevs.
    rewrite Hevs, Ht, Hrest, <- app_assoc. reflexivity.
  - apply exchange_not_attempt, Forall_app. now split.
Qed.

Lemma guard_failed_attempt (w : World) :
  truthy (access_token (poster w)) = false ->
  outcome_of (authenticate env) w = Ok false ->
  outcome_of (bind (ensure_token env) k) w = Ok VNone
  /\ emitted (bind (ensure_token env) k) w = emitted (authenticate env) w
  /\ (forall req out, In (EvHttp req out) (emitted (bind (ensure_token env) k) w) -> url req = token_url).
Proof.
  intros Htok Hfail.
  assert (Hm : bind (ensure_token env) k w = (Ok VNone, world_after (authenticate env) w)).
  { unfold bind, outcome_of, world_after in *.
    rewrite ensure_token_run, Htok.
    destruct (authenticate env w) as [res w1]. cbn [fst snd] in *.
    subst res. apply k_stops. }
  assert (He : emitted (bind (ensure_token env) k) w = emitted (authenticate env) w).
  { unfold emitted at 1. unfold world_after. rewrite Hm. reflexivity. }
  split; [unfold outcome_of; now rewrite Hm|]. split; [exact He|].
  rewrite He. intros req out Hin.
  destruct (authenticate_emitted_shape env w) as (rest & Hrest & _ & Hurl).
  rewrite Hrest in Hin. destruct Hin as [H | H]; [discriminate|].
  now apply (Hurl req out).
Qed.

Lemma guard_with_token (w : World) :
  truthy (access_token (poster w)) = true ->
  ~ In AuthAttempt (emitted (bind (ensure_token env) k) w).
Proof.
  intros Htok. destruct (k_emits true w) as (evs & Hevs & Hall).
  replace (emitted (bind (ensure_token env) k) w) with evs; [now apply exchange_not_attempt|].
  symmetry. apply emitted_app. unfold world_after, bind.
  rewrite ensure_token_run, Htok. exact Hevs.
Qed.
End Guard.

Ltac emits_auto :=
  repeat first
    [ apply emits_get_headers | apply emits_requests_post
    | apply emits_requests_get | apply emits_read_submission
    | apply emits_upload_media | emits_step
    | intros ? ?; discriminate ].

Lemma submit_guarded (env : Env) (c : submission) :
  exists k : bool -> M value,
    submit env c = bind (ensure_token env) k
    /\ (forall b, emits is_exchange (k b))
    /\ (forall w, k false w = (Ok VNone, w)).
Proof.
  destruct c; cbn [submit].
  - eexists. split; [reflexivity|]. split; [|reflexivity].
    intros b. emits_auto.
  - eexists. split; [reflexivity|]. split; [|reflexivity].
    intros b. emits_auto.
  - eexists. split; [reflexivity|]. split; [|reflexivity].
    intros b. emits_auto.
Qed.

(** C1, as amended.  For each of [post_text], [post_link], [post_media]:
    when the stored token does not count as true ([None], or empty), the
    trace of the call starts with one authentication attempt and holds no
    other; when that attempt returns [False] the call returns [None] and
    emits nothing beyond what [authenticate] emitted, all of it exchanges
    with the token endpoint; when the stored token counts as true no
    authentication attempt is made. *)
Theorem submission_authenticates_once (env : Env) (c : submission) (w : World) :
  (truthy (access_token (poster w)) = false ->
   exists rest,
     emitted (submit env c) w = AuthAttempt :: rest /\ ~ In AuthAttempt rest)
  /\ (truthy (access_token (poster w)) = false ->
      outcome_of (authenticate env) w = Ok false ->
      outcome_of (submit env c) w = Ok VNone
      /\ emitted (submit env c) w = emitted (authenticate env) w
      /\ (forall req out,
            In (EvHttp req out) (emitted (submit env c) w) ->
            url req = token_url))
  /\ (truthy (access_token (poster w)) = true ->
      ~ In AuthAttempt (emitted (submit env c) w)).
Proof.
  destruct (submit_guarded env c) as (k & -> & Hemits & Hstops).
  split; [|split].
  - now apply guard_without_token.
  - now apply guard_failed_attempt.
  - now apply guard_with_token.
Qed.

(* ------------------------------------------------------------------ *)
(** ** The media upload sequence *)
(* ------------------------------------------------------------------ *)

Lemma emitted_log1 w e1 :
  drop (length (trace w)) (trace (log e1 w)) = [e1].
Proof. cbn [log trace]. apply drop_app_length. Qed.

Lemma emitted_log2 w e1 e2 :
  drop (length (trace w)) (trace (log e2 (log e1 w))) = [e1; e2].
Proof. cbn [log trace]. rewrite <- app_assoc. apply drop_app_length. Qed.

Lemma emitted_log3 w e1 e2 e3 :
  drop (length (trace w)) (trace (log e3 (log e2 (log e1 w)))) = [e1; e2; e3].
Proof. cbn [log trace]. rewrite <- !app_assoc. apply drop_app_length. Qed.

Lemma get_headers_run (env : Env) (w : World) :
  _get_headers env w = (auth_headers env (poster w), w).
Proof.
  unfold _get_headers, auth_headers. unfold_monad.
  repeat (case_step; cbv beta iota zeta; cbn [negb] in *; simplify_eq);
    reflexivity.
Qed.

Lemma upload_media_run (env : Env) (u : string) (w : World) :
  _upload_media env (VStr u) w =
    match auth_headers env (poster w) with
    | Ok hdrs => upload_sequence env hdrs u w
    | Raise _ => (Ok VNone, w)
    end.
Proof.
  unfold _upload_media. unfold try_except at 1. unfold bind at 1. unfold lift at 1.
  cbv beta iota. unfold bind at 1. rewrite get_headers_run.
  destruct (auth_headers env (poster w)) as [hdrs|e]; [|reflexivity].
  unfold upload_sequence, lease_terms, lease_request, fetch_request,
    upload_request, located.
  unfold_monad.
  repeat (case_step; cbv beta iota zeta; cbn [fst snd py_get negb] in *;
          simplify_eq; try reflexivity).
  all: repeat match goal with
         | H : context [truthy ?x] |- _ => destruct (truthy x)
         end; cbn in *; try discriminate; try reflexivity.
Qed.


Lemma lease_grants_terms (r : response) :
  lease_grants r = match lease_terms r with Some _ => true | None => false end.
Proof.
  unfold lease_grants, lease_terms.
  repeat (case_step; cbv beta iota zeta; simplify_eq; try reflexivity).
Qed.

Lemma upload_sequence_first (env : Env) hdrs (u : string) (w : World) :
  exists out rest,
    let req := lease_request hdrs (lease_filename u)
                 (lease_mime_type env (lease_filename u)) in
    out = http env (trace w) req
    /\ trace (snd (upload_sequence env hdrs u w))
       = trace w ++ EvHttp req out :: rest
    /\ match out with
       | Response r =>
           if (status_code r =? 200) && lease_grants r
           then exists out2 rest2, rest = EvHttp (fetch_request u) out2 :: rest2
           else rest = [] /\ fst (upload_sequence env hdrs u w) = Ok VNone
       | TransportError _ =>
           rest = [] /\ fst (upload_sequence env hdrs u w) = Ok VNone
       end.
Proof.
  unfold upload_sequence. cbv zeta.
  set (req := lease_request _ _ _).
  exists (http env (trace w) req).
  destruct (http env (trace w) req) as [r|e] eqn:Hout.
  2:{ exists []. repeat split. }
  rewrite lease_grants_terms.
  destruct (status_code r =? 200); cbn [negb andb].
  2:{ exists []. repeat split. }
  destruct (lease_terms r) as [[action fields]|].
  2:{ exists []. repeat split. }
  repeat (case_step; cbv beta iota zeta); cbn [snd log trace];
    rewrite <- ?app_assoc; cbn [app];
    (eexists; split; [reflexivity|]; split; [reflexivity|]);
    eexists _, _; reflexivity.
Qed.

(** C3, as amended.  Once the lease response [r] is in, the upload goes on
    to download the media exactly when [r] has status 200 and carries both
    an [action] and a [fields] value that count as true; otherwise it
    returns [None] and the lease exchange is the only one made. *)
Theorem lease_step_gate (env : Env) (w : World) (u : string)
    (req : request) (r : response) :
  emitted (_upload_media env (VStr u)) w !! 0%nat
    = Some (EvHttp req (Response r)) ->
  if (status_code r =? 200) && lease_grants r
  then exists out,
      emitted (_upload_media env (VStr u)) w !! 1%nat
      = Some (EvHttp (fetch_request u) out)
  else outcome_of (_upload_media env (VStr u)) w = Ok VNone
       /\ emitted (_upload_media env (VStr u)) w = [EvHttp req (Response r)].
Proof.
  unfold emitted, outcome_of, world_after. rewrite upload_media_run.
  destruct (auth_headers env (poster w)) as [hdrs|e].
  2:{ cbn [snd]. rewrite drop_all. discriminate. }
  destruct (upload_sequence_first env hdrs u w) as (out & rest & Hout & Ht & Hrest).
  rewrite Ht, drop_app_length. cbn [lookup list_lookup].
  intros H. injection H as <- ->.
  destruct ((status_code r =? 200) && lease_grants r).
  - destruct Hrest as (out2 & rest2 & ->). now exists out2.
  - destruct Hrest as [-> Hres]. now split.
Qed.

Lemma upload_outcome_located (env : Env) (w : World) (u : string)
    (req : request) (r : response) :
  emitted (_upload_media env (VStr u)) w !! 2%nat
    = Some (EvHttp req (Response r)) ->
  status_code r = 200 ->
  outcome_of (_upload_media env (VStr u)) w = Ok (located r).
Proof.
  unfold emitted, outcome_of, world_after. rewrite upload_media_run.
  destruct (auth_headers env (poster w)) as [hdrs|e].
  2:{ cbn [snd]. rewrite drop_all. discriminate. }
  unfold upload_sequence. cbv zeta.
  repeat (case_step; cbv beta iota zeta); cbn [fst snd];
    rewrite ?emitted_log1, ?emitted_log2, ?emitted_log3;
    cbn [lookup list_lookup]; intros H Hs; simplify_eq; try reflexivity.
  rewrite Hs in *. discriminate.
Qed.

Lemma upload_media_not_str (env : Env) (media_url : value) (w : World) :
  (forall u, media_url <> VStr u) ->
  _upload_media env media_url w = (Ok VNone, w).
Proof.
  intros H. destruct media_url; try reflexivity. now destruct (H s).
Qed.

(** C7.  In a run of [_upload_media], an exchange (lease, download or
    upload) that is answered with a status other than 200 is the last event
    of the run, and the run returns [None]. *)
Theorem upload_stops_at_first_failure (env : Env) (w : World) (media_url : value)
    (i : nat) (req : request) (r : response) :
  emitted (_upload_media env media_url) w !! i = Some (EvHttp req (Response r)) ->
  status_code r <> 200 ->
  outcome_of (_upload_media env media_url) w = Ok VNone
  /\ length (emitted (_upload_media env media_url) w) = S i.
Proof.
  unfold emitted, outcome_of, world_after.
  assert (Hquiet : forall res : pyresult value,
             drop (length (trace w)) (trace (res, w).2) !! i
             = Some (EvHttp req (Response r)) -> False).
  { intros res. cbn [snd]. rewrite drop_all. discriminate. }
  destruct media_url as [| | |u| |];
    try (rewrite upload_media_not_str by discriminate;
         intros H; destruct (Hquiet _ H)).
  rewrite upload_media_run.
  destruct (auth_headers env (poster w)) as [hdrs|e];
    [|intros H; destruct (Hquiet _ H)].
  unfold upload_sequence. cbv zeta.
  repeat (case_step; cbv beta iota zeta); cbn [fst snd];
    rewrite ?emitted_log1, ?emitted_log2, ?emitted_log3;
    intros Hi Hs;
    repeat (destruct i as [|i]; cbn in Hi; try discriminate);
    simplify_eq; try (split; reflexivity);
    exfalso;
    repeat match goal with
      | H : negb (_ =? _) = false |- _ => apply negb_false_iff, Z.eqb_eq in H
      end;
    congruence.
Qed.

(* ------------------------------------------------------------------ *)
(** ** Submitted forms and the handler *)
(* ------------------------------------------------------------------ *)

Lemma truthy_dict (d : gmap string value) (k : string) (v : value) :
  d !! k = Some v -> truthy (VDict d) = true.
Proof.
  intros H. cbn [truthy]. destruct (map_to_list d) eqn:E; [|reflexivity].
  apply map_to_list_empty_iff in E. subst d. rewrite lookup_empty in H.
  discriminate.
Qed.

Lemma truthy_field (d : gmap string value) (k : string) :
  truthy (field d k) = true -> truthy (VDict d) = true.
Proof.
  unfold field. destruct (d !! k) eqn:E; [intros _; eapply truthy_dict, E|].
  discriminate.
Qed.

(** The [try] block once [request.get_json()] has returned. *)
Ltac read_body :=
  unfold handle_post; unfold try_except at 1; unfold bind at 1;
  unfold lift at 1; cbv beta iota.

Lemma handle_post_route (env : Env) (d : gmap string value) (w : World) :
  truthy (field d "title") = true ->
  handle_post env (Ok (VDict d)) w =
    route env (field d "title") (field d "subreddit") (field d "post_type")
      (default (VStr "") (d !! "text")) (field d "url") (field d "media_url")
      (field d "flair_id") w.
Proof.
  intros Htitle. read_body. unfold route.
  rewrite (truthy_field _ _ Htitle). cbn [negb py_get].
  unfold field in *.
  unfold try_except, bind, lift. cbv beta iota. rewrite Htitle. cbn [negb].
  reflexivity.
Qed.


Lemma respond_status (env : Env) (result : value) (w : World) :
  match fst (respond env result w) with
  | Ok rep => reply_status rep = 200 \/ reply_status rep = 500
  | Raise _ => True
  end.
Proof.
  unfold respond. unfold_monad.
  repeat (case_step; cbv beta iota zeta; cbn [fst] in *; simplify_eq);
    cbn; auto.
Qed.


Lemma emits_modify_log (P : event -> Prop) (e : event) :
  P e -> emits P (modify (log e)).
Proof.
  intros He w. exists [e]. split; [reflexivity | now repeat constructor].
Qed.

Lemma carries_attempt (key : string) (v : value) : carries key v AuthAttempt.
Proof. intros req out H. discriminate. Qed.

Ltac not_a_submission :=
  let Hm := fresh in let Hu := fresh in let Hf := fresh in
  let E := fresh in
  intros ? ? ? E [Hm [Hu Hf]]; injection E as <- <-;
  cbn [method url files data] in *;
  first [ discriminate Hm | discriminate Hf
        | vm_compute in Hu; discriminate Hu ].

Section Carried.
Variable env : Env.
Variable key : string.
Variable v : value.

Lemma carries_authenticate : emits (carries key v) (authenticate env).
Proof.
  unfold authenticate.
  repeat first
    [ apply emits_modify_log, carries_attempt
    | apply emits_send; not_a_submission
    | emits_step ].
Qed.

Lemma carries_ensure_token : emits (carries key v) (ensure_token env).
Proof.
  unfold ensure_token.
  repeat first [ apply carries_authenticate | emits_step ].
Qed.

Lemma carries_upload_media mu : emits (carries key v) (_upload_media env mu).
Proof.
  unfold _upload_media.
  repeat first
    [ apply emits_get_headers; intros ? ?; exact I
    | apply emits_send; not_a_submission
    | emits_step ].
Qed.
End Carried.

Lemma emits_bind_ok {A B} (P : event -> Prop) (a : A) (k : A -> M B) :
  emits P (k a) -> emits P (bind (lift (Ok a)) k).
Proof. intros H w. exact (H w). Qed.

Lemma emits_bind_raise {A B} (P : event -> Prop) (e : exn) (k : A -> M B) :
  emits P (bind (lift (Raise e)) k).
Proof. intros w. exists []. split; [symmetry; apply app_nil_r | constructor]. Qed.

Lemma emits_In {A} (P : event -> Prop) (m : M A) (w : World) (e : event) :
  emits P m -> In e (emitted m w) -> P e.
Proof.
  intros H Hin. destruct (H w) as (evs & Ht & Hall).
  rewrite (emitted_app _ _ _ Ht) in Hin. rewrite Forall_forall in Hall.
  now apply Hall, list_elem_of_In.
Qed.

Ltac submission_carries :=
  let E := fresh in
  intros ? ? ? E _; injection E as <- <-; cbn [data]; unfold set_if;
  repeat match goal with
    | |- context [truthy ?x] => destruct (truthy x)
    end; reflexivity.

Ltac carries_auto :=
  cbv beta iota;
  repeat first
    [ apply carries_ensure_token
    | apply carries_upload_media
    | apply emits_get_headers
    | apply emits_read_submission
    | match goal with
      | |- emits _ (bind (lift (Ok _)) _) => apply emits_bind_ok
      | |- emits _ (bind (lift (Raise _)) _) => apply emits_bind_raise
      end
    | apply emits_send; first [ not_a_submission | submission_carries ]
    | emits_step ].

Lemma carries_post_media (env : Env) (subreddit title text flair_id : value)
    (u : string) :
  emits (carries "kind" (VStr (media_kind u)))
    (post_media env subreddit title (VStr u) text flair_id).
Proof. unfold post_media. carries_auto. Qed.


(** The handler is its [try] block behind the way in. *)
Lemma post_to_reddit_entered (env : Env) (get_json : pyresult value)
    (s : Server) :
  post_to_reddit env get_json s = entered env (handle_post env get_json) s.
Proof. reflexivity. Qed.

Lemma entered_ext (env : Env) (m m' : M reply) (s : Server) :
  (forall w, m w = m' w) -> entered env m s = entered env m' s.
Proof.
  intros H. unfold entered, on_poster.
  destruct (global_poster s) as [self|]; [now rewrite H|].
  destruct (init_poster env s) as [[[self|e] s']|]; try reflexivity.
  now rewrite H.
Qed.

(* ------------------------------------------------------------------ *)
(** ** Location extraction, media kind, routing *)
(* ------------------------------------------------------------------ *)

Lemma submission_authenticates_once_witness :
  outcome_of
    (submit (scripted (hostile 401))
       (PostText (VStr "test") (VStr "T") (VStr "hi") VNone))
    (world_with_token VNone) = Ok VNone
  /\ emitted
       (submit (scripted (hostile 401))
          (PostText (VStr "test") (VStr "T") (VStr "hi") VNone))
       (world_with_token VNone)
     = emitted (authenticate (scripted (hostile 401))) (world_with_token VNone)
  /\ (forall req out,
        In (EvHttp req out)
          (emitted
             (submit (scripted (hostile 401))
                (PostText (VStr "test") (VStr "T") (VStr "hi") VNone))
             (world_with_token VNone)) ->
        url req = token_url).
Proof.
  refine (proj1 (proj2 (submission_authenticates_once (scripted (hostile 401))
            (PostText (VStr "test") (VStr "T") (VStr "hi") VNone)
            (world_with_token VNone))) _ _).
  - reflexivity.
  - vm_compute. reflexivity.
Defined.

(** C1, as stated, fails: the stored token is the empty string, which is
    not [None], and [post_text] still authenticates. *)
Lemma empty_token_reauthenticates :
  access_token (poster (world_with_token (VStr ""))) <> VNone
  /\ In AuthAttempt
       (emitted
          (submit (scripted friendly)
             (PostText (VStr "test") (VStr "T") (VStr "hi") VNone))
          (world_with_token (VStr ""))).
Proof.
  split; [discriminate|]. vm_compute. left. reflexivity.
Qed.

Lemma upload_stops_at_first_failure_witness :
  outcome_of (_upload_media (scripted (hostile 503)) (VStr "https://host/a.jpg"))
    (world_with_token (VStr "tok")) = Ok VNone
  /\ length (emitted
       (_upload_media (scripted (hostile 503)) (VStr "https://host/a.jpg"))
       (world_with_token (VStr "tok"))) = 1%nat.
Proof.
  refine (upload_stops_at_first_failure (scripted (hostile 503))
            (world_with_token (VStr "tok")) (VStr "https://host/a.jpg") 0
            (lease_request
               [("Authorization", "Bearer tok");
                ("User-Agent", "LivePosting/1.0 (by /u/user)");
                ("Content-Type", "application/x-www-form-urlencoded")]
               "a.jpg" "image/jpeg")
            (text_response 503 "refused") _ _).
  - vm_compute. reflexivity.
  - vm_compute. discriminate.
Defined.

Lemma lease_step_gate_witness :
  exists out,
    emitted (_upload_media (scripted friendly) (VStr "https://host/a.jpg"))
      (world_with_token (VStr "tok")) !! 1%nat
    = Some (EvHttp (fetch_request "https://host/a.jpg") out).
Proof.
  refine (lease_step_gate (scripted friendly) (world_with_token (VStr "tok"))
            "https://host/a.jpg"
            (lease_request
               [("Authorization", "Bearer tok");
                ("User-Agent", "LivePosting/1.0 (by /u/user)");
                ("Content-Type", "application/x-www-form-urlencoded")]
               "a.jpg" "image/jpeg")
            (json_response 200 lease_body) _).
  vm_compute. reflexivity.
Defined.

(** C3, as stated, fails.  A 200 lease response that has an [action] but
    no [fields] does not lack both, and the step fails all the same.  A 200
    lease response whose [fields] is a string has no non-empty [fields]
    list, and the step goes on to the download. *)
Lemma lease_with_action_only_fails :
  (status_code lease_without_fields = 200
   /\ lease_has_action lease_without_fields = true
   /\ outcome_of
        (_upload_media (scripted (fun _ => Response lease_without_fields))
           (VStr "https://host/a.jpg"))
        (world_with_token (VStr "tok")) = Ok VNone
   /\ emitted
        (_upload_media (scripted (fun _ => Response lease_without_fields))
           (VStr "https://host/a.jpg"))
        (world_with_token (VStr "tok"))
      = [EvHttp
           (lease_request
              [("Authorization", "Bearer tok");
               ("User-Agent", "LivePosting/1.0 (by /u/user)");
               ("Content-Type", "application/x-www-form-urlencoded")]
              "a.jpg" "image/jpeg")
           (Response lease_without_fields)])
  /\ (status_code lease_with_text_fields = 200
      /\ lease_has_fields_list lease_with_text_fields = false
      /\ emitted
           (_upload_media (scripted (fun _ => Response lease_with_text_fields))
              (VStr "https://host/a.jpg"))
           (world_with_token (VStr "tok")) !! 1%nat
         = Some (EvHttp (fetch_request "https://host/a.jpg")
                   (Response lease_with_text_fields))).
Proof.
  repeat split; vm_compute; reflexivity.
Qed.

Lemma substring_nothing (n : nat) (s : string) : substring n 0 s = EmptyString.
Proof.
  revert s. induction n as [|n IH]; intros [|c s]; cbn [substring]; auto.
Qed.

Lemma slice_backwards (s : string) (start stop : Z) :
  0 <= stop <= start -> PyStr.slice s start stop = EmptyString.
Proof.
  intros H. unfold PyStr.slice, PyStr.clamp.
  destruct (Z.ltb_spec start 0); [lia|].
  destruct (Z.ltb_spec stop 0); [lia|].
  replace (Z.to_nat (Z.min stop (PyStr.len s) - Z.min start (PyStr.len s)))
    with 0%nat by lia.
  apply substring_nothing.
Qed.

Lemma occurs_get (sub s : string) (n i : nat) (c : ascii) :
  occurs sub s n -> String.get i sub = Some c -> String.get (n + i) s = Some c.
Proof.
  intros (a & b & -> & <-) Hc.
  induction a as [|x a IH].
  - rewrite sapp_nil_l. cbn [String.length Nat.add].
    revert i Hc. induction sub as [|y sub IHs]; intros i Hc; [discriminate|].
    rewrite sapp_cons. destruct i as [|i]; cbn [String.get] in *; auto.
  - rewrite sapp_cons. cbn [String.length Nat.add String.get]. exact IH.
Qed.

Lemma sapp_split (a a' x y : string) :
  a +:+ x = a' +:+ y -> (String.length a <= String.length a')%nat ->
  exists t, a' = a +:+ t /\ x = t +:+ y.
Proof.
  revert a'. induction a as [|c a IH]; intros a' H Hlen.
  - exists a'. rewrite !sapp_nil_l in *. auto.
  - destruct a' as [|c' a']; [cbn in Hlen; lia|].
    rewrite !sapp_cons in H. injection H as -> H.
    destruct (IH a' H) as (t & -> & ->); [cbn in Hlen; lia|].
    exists t. now rewrite sapp_cons.
Qed.

Lemma between_tags (body : string) (n m : nat) :
  occurs "<Location>" body n -> occurs "</Location>" body m ->
  (n + 10 <= m)%nat ->
  exists pre mid post,
    body = pre +:+ "<Location>" +:+ mid +:+ "</Location>" +:+ post
    /\ String.length pre = n
    /\ (String.length pre + 10 + String.length mid)%nat = m.
Proof.
  intros (a & b & -> & <-) (a' & b' & H & <-) Hge.
  destruct (sapp_split a a' _ _ H) as (t & -> & Ht); [lia|].
  rewrite slength_app in Hge.
  destruct (sapp_split "<Location>" t b ("</Location>" +:+ b') Ht)
    as (mid & -> & ->); [cbn [String.length]; lia|].
  exists a, mid, b'. split; [reflexivity|]. split; [reflexivity|].
  rewrite !slength_app. cbn [String.length]. lia.
Qed.

(** A closing tag cannot start inside an opening tag. *)
Lemma closing_tag_outside_opening (body : string) (n m : nat) :
  occurs "<Location>" body n -> occurs "</Location>" body m ->
  (m < n \/ n + 10 <= m)%nat.
Proof.
  intros Hopen Hclose.
  destruct (Nat.lt_ge_cases m n) as [|Hge]; [now left|].
  destruct (Nat.lt_ge_cases m (n + 10)) as [Hlt|]; [|now right].
  exfalso.
  assert (Hk : exists k, m = (n + k)%nat /\ (k < 10)%nat)
    by (exists (m - n)%nat; lia).
  destruct Hk as (k & -> & Hk).
  pose proof (occurs_get _ _ _ 0 "<" Hclose eq_refl) as H0.
  pose proof (occurs_get _ _ _ 1 "/" Hclose eq_refl) as H1.
  rewrite Nat.add_0_r in H0.
  do 10 (destruct k as [|k];
         [ first
             [ rewrite Nat.add_0_r in H1;
               pose proof (occurs_get _ _ _ 1 "L" Hopen eq_refl) as H2;
               rewrite H2 in H1; discriminate H1
             | match type of H0 with
               | String.get (n + ?j) _ = _ =>
                   let c := eval vm_compute in (String.get j "<Location>") in
                   match c with
                   | Some ?x =>
                       pose proof (occurs_get _ _ _ j x Hopen eq_refl) as H2;
                       rewrite H2 in H0; discriminate H0
                   end
               end ]
         | ]).
  lia.
Qed.

(** C2, as amended.  When the body reads [pre <Location> mid </Location>
    post], with these the first occurrences of the two tags, the extracted
    location is [mid]; a body without [<Location>] yields no location; the
    body of the specification's example yields [https://cdn/x.jpg];
    [_upload_media] returns what is extracted from a 200 upload response.
    When the first [</Location>] starts before the first [<Location>], the
    extracted location is the empty string; and when both tags occur there
    is no third case: the first closing tag either starts before the first
    opening tag or follows it as in the first clause. *)
Theorem extract_location_between :
  (forall pre mid post body : string,
      body = pre +:+ "<Location>" +:+ mid +:+ "</Location>" +:+ post ->
      first_occurrence "<Location>" body (String.length pre) ->
      first_occurrence "</Location>" body
        (String.length pre + 10 + String.length mid) ->
      extract_location body = Some mid)
  /\ (forall body : string,
        (forall n, ~ occurs "<Location>" body n) ->
        extract_location body = None)
  /\ extract_location
       "<PostResponse><Location>https://cdn/x.jpg</Location></PostResponse>"
     = Some "https://cdn/x.jpg"
  /\ (forall env w u req r,
        emitted (_upload_media env (VStr u)) w !! 2%nat
          = Some (EvHttp req (Response r)) ->
        status_code r = 200 ->
        outcome_of (_upload_media env (VStr u)) w
        = Ok match extract_location (text r) with
             | Some location => VStr location
             | None => VNone
             end)
  /\ (forall (body : string) (n m : nat),
        first_occurrence "<Location>" body n ->
        first_occurrence "</Location>" body m ->
        (m < n)%nat ->
        extract_location body = Some EmptyString)
  /\ (forall (body : string) (n m : nat),
        first_occurrence "<Location>" body n ->
        first_occurrence "</Location>" body m ->
        (m < n)%nat
        \/ exists pre mid post,
             body = pre +:+ "<Location>" +:+ mid +:+ "</Location>" +:+ post
             /\ String.length pre = n
             /\ (String.length pre + 10 + String.length mid)%nat = m).
Proof.
  split; [|split; [|split; [|split; [|split]]]].
  - intros pre mid post body Hbody Hopen Hclose. unfold extract_location.
    assert (Hc : PyStr.contains "<Location>" body = true).
    { apply contains_spec. exists (String.length pre). apply Hopen. }
    rewrite Hc, (find_first _ _ _ Hopen), (find_first _ _ _ Hclose). f_equal.
    subst body. rewrite <- (sapp_assoc pre "<Location>").
    replace (Z.of_nat (String.length pre) + 10)
      with (PyStr.len (pre +:+ "<Location>"))
      by (unfold PyStr.len; rewrite slength_app; simpl; lia).
    replace (Z.of_nat (String.length pre + 10 + String.length mid))
      with (PyStr.len (pre +:+ "<Location>") + PyStr.len mid)
      by (unfold PyStr.len; rewrite slength_app; simpl; lia).
    apply slice_between.
  - intros body Habs. unfold extract_location.
    destruct (PyStr.contains "<Location>" body) eqn:Hc; [|reflexivity].
    apply contains_spec in Hc as [n Hn]. now destruct (Habs n).
  - vm_compute. reflexivity.
  - intros env w u req r Hev Hs. apply (upload_outcome_located _ _ _ _ _ Hev Hs).
  - intros body n m Hopen Hclose Hlt. unfold extract_location.
    assert (Hc : PyStr.contains "<Location>" body = true).
    { apply contains_spec. exists n. apply Hopen. }
    rewrite Hc, (find_first _ _ _ Hopen), (find_first _ _ _ Hclose). f_equal.
    apply slice_backwards. lia.
  - intros body n m Hopen Hclose.
    destruct (closing_tag_outside_opening body n m (proj1 Hopen) (proj1 Hclose))
      as [Hlt | Hge]; [now left | right].
    apply between_tags; [apply Hopen | apply Hclose | exact Hge].
Qed.

Lemma extract_location_between_witness :
  extract_location "<a><Location>u</Location></a>" = Some "u"
  /\ extract_location "<Error>denied</Error>" = None
  /\ outcome_of (_upload_media (scripted friendly) (VStr "https://host/a.jpg"))
       (world_with_token (VStr "tok")) = Ok (VStr "https://cdn/x.jpg")
  /\ extract_location "</Location><Location>u</Location>" = Some EmptyString.
Proof.
  split; [|split; [|split]].
  - apply (proj1 extract_location_between "<a>" "u" "</a>").
    + reflexivity.
    + apply find_first_occurrence. vm_compute. reflexivity.
    + apply find_first_occurrence. vm_compute. reflexivity.
  - apply (proj1 (proj2 extract_location_between)).
    apply find_no_occurrence. vm_compute. reflexivity.
  - refine (proj1 (proj2 (proj2 (proj2 extract_location_between)))
              (scripted friendly)
              (world_with_token (VStr "tok")) "https://host/a.jpg"
              (upload_request (scripted friendly) (VStr "//bucket.s3/amazon")
                 [(VStr "a", VStr "1")] ("a.jpg", "bytes", "image/jpeg"))
              (text_response 200
                 "<PostResponse><Location>https://cdn/x.jpg</Location></PostResponse>")
              _ _).
    + vm_compute. reflexivity.
    + reflexivity.
  - refine (proj1 (proj2 (proj2 (proj2 (proj2 extract_location_between))))
              "</Location><Location>u</Location>" 11%nat 0%nat _ _ _).
    + apply find_first_occurrence. vm_compute. reflexivity.
    + apply find_first_occurrence. vm_compute. reflexivity.
    + lia.
Defined.

(** C2, as stated, fails.  In this body the first [</Location>] comes
    before the first [<Location>]: the text between the two is [b], the
    location element holds [x], and the extraction yields the empty
    string, which [_upload_media] returns. *)
Example closing_tag_before_opening :
  let body := "a</Location>b<Location>x</Location>" in
  first_occurrence "</Location>" body 1
  /\ first_occurrence "<Location>" body 13
  /\ body = "a" +:+ "</Location>" +:+ "b" +:+ "<Location>" +:+ "x"
            +:+ "</Location>"
  /\ extract_location body = Some EmptyString
  /\ outcome_of
       (_upload_media
          (scripted (fun req =>
             if String.eqb (url req) "https://bucket.s3/amazon" then
               Response (text_response 200 "a</Location>b<Location>x</Location>")
             else friendly req))
          (VStr "https://host/a.jpg"))
       (world_with_token (VStr "tok")) = Ok (VStr "").
Proof.
  cbv zeta. split; [|split; [|split; [|split]]].
  - apply find_first_occurrence. vm_compute. reflexivity.
  - apply find_first_occurrence. vm_compute. reflexivity.
  - reflexivity.
  - vm_compute. reflexivity.
  - vm_compute. reflexivity.
Qed.

(** C9.  When the body reads [pre <Location> rest], [<Location>] occurring
    first there and [</Location>] nowhere, [find] answers [-1] for the
    closing tag, the extraction succeeds with [rest] less its last
    character, and [_upload_media] returns that string for a 200 upload
    response with this body. *)
Theorem extract_location_unclosed (pre rest body : string) :
  body = pre +:+ "<Location>" +:+ rest ->
  first_occurrence "<Location>" body (String.length pre) ->
  (forall n, ~ occurs "</Location>" body n) ->
  PyStr.find "</Location>" body = -1
  /\ extract_location body = Some (drop_last rest)
  /\ (forall env w u req r,
        emitted (_upload_media env (VStr u)) w !! 2%nat
          = Some (EvHttp req (Response r)) ->
        status_code r = 200 ->
        text r = body ->
        outcome_of (_upload_media env (VStr u)) w = Ok (VStr (drop_last rest))).
Proof.
  intros Hbody Hopen Hclose.
  pose proof (find_absent _ _ Hclose) as Hend.
  assert (Hloc : extract_location body = Some (drop_last rest)).
  { unfold extract_location.
    assert (Hc : PyStr.contains "<Location>" body = true).
    { apply contains_spec. exists (String.length pre). apply Hopen. }
    rewrite Hc, (find_first _ _ _ Hopen), Hend. f_equal.
    subst body. rewrite <- (sapp_assoc pre "<Location>").
    replace (Z.of_nat (String.length pre) + 10)
      with (PyStr.len (pre +:+ "<Location>"))
      by (unfold PyStr.len; rewrite slength_app; simpl; lia).
    apply slice_to_last. rewrite !slength_app. simpl. lia. }
  split; [exact Hend|]. split; [exact Hloc|].
  intros env w u req r Hev Hs Ht.
  rewrite (upload_outcome_located _ _ _ _ _ Hev Hs).
  unfold located. now rewrite Ht, Hloc.
Qed.

Lemma extract_location_unclosed_witness :
  PyStr.find "</Location>" "<r><Location>https://cdn/x.jpg" = -1
  /\ extract_location "<r><Location>https://cdn/x.jpg" = Some "https://cdn/x.jp".
Proof.
  refine (let H := extract_location_unclosed "<r>" "https://cdn/x.jpg"
                     "<r><Location>https://cdn/x.jpg" _ _ _ in
          conj (proj1 H) (proj1 (proj2 H))).
  - reflexivity.
  - apply find_first_occurrence. vm_compute. reflexivity.
  - apply find_no_occurrence. vm_compute. reflexivity.
Defined.

(** C5, as amended.  [kind] is [video] exactly when the lower-cased URL
    ends with [.mp4] or contains [video], and [image] otherwise; every
    submission that [post_media] sends carries that [kind]. *)
Theorem media_kind_detection (media_url : string) :
  let video :=
    (exists p, PyStr.lower media_url = p +:+ ".mp4")
    \/ (exists a b, PyStr.lower media_url = a +:+ "video" +:+ b) in
  (media_kind media_url = "video" <-> video)
  /\ (media_kind media_url = "image" <-> ~ video)
  /\ (forall env subreddit title text flair_id w,
        Forall (carries "kind" (VStr (media_kind media_url)))
          (emitted
             (post_media env subreddit title (VStr media_url) text flair_id) w)).
Proof.
  intros video.
  assert (Hv : is_video media_url = true <-> video).
  { unfold is_video, video. rewrite orb_true_iff, endswith_spec, contains_spec.
    apply or_iff_compat_l. split.
    - intros (n & a & b & H & _). now exists a, b.
    - intros (a & b & H). exists (String.length a), a, b. now split. }
  split; [|split].
  - unfold media_kind. destruct (is_video media_url).
    + split; [intros _; now apply Hv | reflexivity].
    + split; [discriminate | intros H; apply Hv in H; discriminate].
  - unfold media_kind. destruct (is_video media_url).
    + split; [discriminate | intros H; destruct H; now apply Hv].
    + split; [intros _ H; apply Hv in H; discriminate | reflexivity].
  - intros env subreddit title text flair_id w.
    apply Forall_forall. intros e He. apply list_elem_of_In in He.
    eapply emits_In; [apply carries_post_media | exact He].
Qed.

(** C5, as stated, fails: [clip.mov] ends with a video file extension and
    is submitted with [kind=image]. *)
Lemma mov_is_submitted_as_image :
  PyStr.endswith (PyStr.lower "https://host/clip.mov") ".mov" = true
  /\ media_kind "https://host/clip.mov" = "image"
  /\ exists req out,
       emitted
         (post_media (scripted friendly) (VStr "test") (VStr "T")
            (VStr "https://host/clip.mov") VNone VNone)
         (world_with_token (VStr "tok")) !! 3%nat = Some (EvHttp req out)
       /\ is_submission req
       /\ dict_lookup (data req) (VStr "kind") = Some (VStr "image").
Proof.
  split; [vm_compute; reflexivity|]. split; [vm_compute; reflexivity|].
  eexists _, _. split; [vm_compute; reflexivity|].
  repeat split; vm_compute; reflexivity.
Qed.

Example media_submission_kind :
  exists req out,
    emitted
      (post_media (scripted friendly) (VStr "test") (VStr "T")
         (VStr "https://host/CLIP.MP4") VNone VNone)
      (world_with_token (VStr "tok")) !! 3%nat = Some (EvHttp req out)
    /\ is_submission req
    /\ dict_lookup (data req) (VStr "kind") = Some (VStr "video")
    /\ dict_lookup (data req) (VStr "url") = Some (VStr "https://cdn/x.jpg").
Proof.
  eexists _, _. split; [vm_compute; reflexivity|].
  repeat split; vm_compute; reflexivity.
Qed.

(** C6.  For a request body that names no post type: if [media_url] has a
    value the inferred type is [media] and [post_media] is called; if
    [media_url] has none and [url] has one it is [link] and [post_link] is
    called; if neither has one it is [self] and [post_text] is called.  With
    a title present the handler treats the body as one that names the
    inferred type. *)
Theorem post_type_inference (env : Env) (d : gmap string value) :
  truthy (field d "post_type") = false ->
  let title := field d "title" in
  let subreddit := field d "subreddit" in
  let text := default (VStr "") (d !! "text") in
  let url := field d "url" in
  let media_url := field d "media_url" in
  let flair_id := field d "flair_id" in
  let inferred := detect_post_type (field d "post_type") media_url url in
  (truthy media_url = true ->
   inferred = VStr "media"
   /\ forall s, publish env inferred s title text url media_url flair_id
                = post_media env s title media_url text flair_id)
  /\ (truthy media_url = false -> truthy url = true ->
      inferred = VStr "link"
      /\ forall s, publish env inferred s title text url media_url flair_id
                   = post_link env s title url text flair_id)
  /\ (truthy media_url = false -> truthy url = false ->
      inferred = VStr "self"
      /\ forall s, publish env inferred s title text url media_url flair_id
                   = post_text env s title text flair_id)
  /\ (truthy title = true ->
      forall s,
        post_to_reddit env (Ok (VDict d)) s
        = entered env
            (route env title subreddit inferred text url media_url flair_id) s).
Proof.
  intros Hpt. cbv zeta. split; [|split; [|split]].
  - intros Hm. unfold detect_post_type, publish. rewrite Hpt, Hm.
    split; reflexivity.
  - intros Hm Hu. unfold detect_post_type, publish. rewrite Hpt, Hm, Hu.
    split; reflexivity.
  - intros Hm Hu. unfold detect_post_type, publish. rewrite Hpt, Hm, Hu.
    split; reflexivity.
  - intros Htitle s. rewrite post_to_reddit_entered. apply entered_ext.
    intros w. rewrite (handle_post_route _ _ _ Htitle). unfold route.
    replace (detect_post_type
               (detect_post_type (field d "post_type") (field d "media_url")
                  (field d "url"))
               (field d "media_url") (field d "url"))
      with (detect_post_type (field d "post_type") (field d "media_url")
              (field d "url")); [reflexivity|].
    unfold detect_post_type. rewrite Hpt. cbn [negb].
    destruct (truthy (field d "media_url")); [reflexivity|].
    destruct (truthy (field d "url")); reflexivity.
Qed.

Lemma post_type_inference_witness :
  detect_post_type
    (field {[ "title" := VStr "T"; "media_url" := VStr "https://host/a.jpg" ]}
       "post_type")
    (field {[ "title" := VStr "T"; "media_url" := VStr "https://host/a.jpg" ]}
       "media_url")
    (field {[ "title" := VStr "T"; "media_url" := VStr "https://host/a.jpg" ]}
       "url")
  = VStr "media"
  /\ detect_post_type
       (field {[ "title" := VStr "T"; "url" := VStr "https://host/page" ]}
          "post_type")
       (field {[ "title" := VStr "T"; "url" := VStr "https://host/page" ]}
          "media_url")
       (field {[ "title" := VStr "T"; "url" := VStr "https://host/page" ]} "url")
     = VStr "link"
  /\ detect_post_type
       (field {[ "title" := VStr "T"; "text" := VStr "hi" ]} "post_type")
       (field {[ "title" := VStr "T"; "text" := VStr "hi" ]} "media_url")
       (field {[ "title" := VStr "T"; "text" := VStr "hi" ]} "url")
     = VStr "self".
Proof.
  split; [|split].
  - refine (proj1 (proj1
              (post_type_inference (scripted friendly)
                 {[ "title" := VStr "T";
                    "media_url" := VStr "https://host/a.jpg" ]} _) _));
      reflexivity.
  - refine (proj1 (proj1 (proj2
              (post_type_inference (scripted friendly)
                 {[ "title" := VStr "T"; "url" := VStr "https://host/page" ]} _))
              _ _)); reflexivity.
  - refine (proj1 (proj1 (proj2 (proj2
              (post_type_inference (scripted friendly)
                 {[ "title" := VStr "T"; "text" := VStr "hi" ]} _)))
              _ _)); reflexivity.
Defined.

(* ------------------------------------------------------------------ *)
(** ** The submission methods and the handler, written out *)
(* ------------------------------------------------------------------ *)

Lemma read_submission_run (with_id : bool) (r : response) (w : World) :
  try_except (read_submission with_id r) (fun _ => ret VNone) w
  = (Ok (submission_result r), w).
Proof.
  unfold read_submission, submission_result. unfold_monad.
  repeat (case_step; cbv beta iota zeta; cbn [py_get py_getitem] in *;
          simplify_eq; try reflexivity).
Qed.

Lemma submit_tail_run (env : Env) (with_id : bool) (data : form) (w : World) :
  try_except
    (hdrs <~ _get_headers env ;;
     response <~ requests_post env (api_base +:+ "/api/submit") hdrs data None 30 ;;
     read_submission with_id response)
    (fun _ => ret VNone) w
  = submit_form env data w.
Proof.
  unfold submit_form, try_except at 1, bind at 1.
  rewrite get_headers_run.
  destruct (auth_headers env (poster w)) as [hdrs|e]; [|reflexivity].
  unfold bind, requests_post, send, submission_request. cbv zeta.
  destruct (http env (trace w) _) as [r|e]; [|reflexivity].
  pose proof (read_submission_run with_id r
                (log (EvHttp (submission_request hdrs data) (Response r)) w)) as H.
  unfold try_except, submission_request in H. exact H.
Qed.

Lemma ensure_token_never_raises (env : Env) (w : World) :
  exists go, fst (ensure_token env w) = Ok go.
Proof.
  rewrite ensure_token_run. destruct (truthy _); [now exists true|].
  apply authenticate_never_raises.
Qed.

Lemma post_text_run (env : Env) (subreddit title text flair_id : value) (w : World) :
  post_text env subreddit title text flair_id w
  = guarded (fst (ensure_token env w)) (snd (ensure_token env w))
      (submit_form env (text_form subreddit title text flair_id)).
Proof.
  unfold post_text, bind at 1.
  destruct (ensure_token env w) as [[[]|e] w1]; cbn [fst snd guarded negb];
    try reflexivity.
  apply submit_tail_run.
Qed.

Lemma post_link_run (env : Env) (subreddit title url text flair_id : value)
    (w : World) :
  post_link env subreddit title url text flair_id w
  = guarded (fst (ensure_token env w)) (snd (ensure_token env w))
      (submit_form env (link_form subreddit title url text flair_id)).
Proof.
  unfold post_link, bind at 1.
  destruct (ensure_token env w) as [[[]|e] w1]; cbn [fst snd guarded negb];
    try reflexivity.
  apply submit_tail_run.
Qed.

Lemma upload_media_never_raises (env : Env) (media_url : value) (w : World) :
  exists v, fst (_upload_media env media_url w) = Ok v.
Proof.
  unfold _upload_media, try_except.
  match goal with |- context [match ?b w with _ => _ end] => destruct (b w) as [[v|e] w1] end;
    cbn; eauto.
Qed.

Lemma post_media_run (env : Env) (subreddit title media_url text flair_id : value)
    (w : World) :
  post_media env subreddit title media_url text flair_id w
  = guarded (fst (ensure_token env w)) (snd (ensure_token env w))
      (media_submission env subreddit title media_url text flair_id).
Proof.
  unfold post_media, bind at 1.
  destruct (ensure_token env w) as [[[]|e] w1]; cbn [fst snd guarded negb];
    try reflexivity.
  unfold media_submission.
  destruct (upload_media_never_raises env media_url w1) as [up Hup].
  unfold try_except at 1, bind at 1.
  destruct (_upload_media env media_url w1) as [res w2]. cbn [fst] in Hup.
  subst res. destruct (truthy up); cbn [negb]; [|reflexivity].
  destruct media_url; try reflexivity.
  unfold bind at 1, lift at 1. cbv beta iota.
  apply (submit_tail_run env false).
Qed.

Lemma emits_trace {A} (P : event -> Prop) (m : M A) (w : World) :
  emits P m -> trace (world_after m w) = trace w ++ emitted m w.
Proof.
  intros H. destruct (H w) as (evs & Ht & _).
  now rewrite (emitted_app _ _ _ Ht).
Qed.

Lemma ensure_token_trace (env : Env) (w : World) :
  trace (snd (ensure_token env w)) = trace w ++ emitted (ensure_token env) w.
Proof.
  apply (emits_trace (carries "kind" VNone)), carries_ensure_token.
Qed.

Lemma upload_media_trace (env : Env) (media_url : value) (w : World) :
  trace (snd (_upload_media env media_url w))
  = trace w ++ emitted (_upload_media env media_url) w.
Proof.
  apply (emits_trace (carries "kind" VNone)), carries_upload_media.
Qed.

Lemma submit_form_cases (env : Env) (data : form) (w : World) :
  (submit_form env data w = (Ok VNone, w))
  \/ exists hdrs out,
       auth_headers env (poster w) = Ok hdrs
       /\ out = http env (trace w) (submission_request hdrs data)
       /\ submit_form env data w
          = (Ok match out with
                | Response r => submission_result r
                | TransportError _ => VNone
                end,
             log (EvHttp (submission_request hdrs data) out) w).
Proof.
  unfold submit_form. destruct (auth_headers env (poster w)) as [hdrs|e];
    [right | now left].
  exists hdrs, (http env (trace w) (submission_request hdrs data)).
  split; [reflexivity|]. split; [reflexivity|]. cbv zeta.
  destruct (http env (trace w) _); reflexivity.
Qed.

Lemma submission_result_truthy (r : response) :
  truthy (submission_result r) = true ->
  status_code r = 200
  /\ json r = Ok (submission_result r)
  /\ exists body envelope post_data,
       submission_result r = VDict body
       /\ default (VDict ∅) (body !! "json") = VDict envelope
       /\ truthy (default VNone (envelope !! "errors")) = false
       /\ default (VDict ∅) (envelope !! "data") = VDict post_data.
Proof.
  unfold submission_result.
  destruct (Z.eqb_spec (status_code r) 200) as [Hs|]; [|discriminate].
  destruct (json r) as [[| | | | |body]|]; try discriminate.
  destruct (default (VDict ∅) (body !! "json")) as [| | | | |envelope] eqn:He;
    try discriminate.
  destruct (truthy (default VNone (envelope !! "errors"))) eqn:Herr;
    [discriminate|].
  destruct (default (VDict ∅) (envelope !! "data")) as [| | | | |post_data]
    eqn:Hd; try discriminate.
  intros _. split; [exact Hs|]. split; [reflexivity|].
  exists body, envelope, post_data. repeat split; auto.
Qed.

(** The shape common to the three methods: whatever precedes, a result
    that counts as true is the result of the final submission. *)
Lemma submit_truthy_tail (env : Env) (c : submission) (w : World) (res : value) :
  outcome_of (submit env c) w = Ok res ->
  truthy res = true ->
  exists w1 data pre,
    trace w1 = trace w ++ pre
    /\ submit env c w = submit_form env data w1.
Proof.
  unfold outcome_of. intros Hres Htrue.
  assert (Hguard : forall proceed,
            fst (guarded (fst (ensure_token env w)) (snd (ensure_token env w))
                   proceed) = Ok res ->
            guarded (fst (ensure_token env w)) (snd (ensure_token env w)) proceed
            = proceed (snd (ensure_token env w))).
  { intros proceed H. destruct (fst (ensure_token env w)) as [[]|e];
      cbn [guarded fst] in *; [reflexivity | | discriminate].
    injection H as <-. discriminate Htrue. }
  pose proof (ensure_token_trace env w) as Ht1.
  destruct c as [s t x f | s t u x f | s t mu x f]; cbn [submit] in *.
  - rewrite post_text_run in *. rewrite (Hguard _ Hres). eauto.
  - rewrite post_link_run in *. rewrite (Hguard _ Hres). eauto.
  - rewrite post_media_run in *. pose proof (Hguard _ Hres) as Hg.
    rewrite Hg in Hres |- *. clear Hg Hguard.
    unfold media_submission in *.
    pose proof (upload_media_trace env mu (snd (ensure_token env w))) as Ht2.
    destruct (_upload_media env mu (snd (ensure_token env w))) as [[up|e] w2];
      cbn [fst snd] in *.
    2:{ injection Hres as <-. discriminate Htrue. }
    destruct (truthy up).
    2:{ injection Hres as <-. discriminate Htrue. }
    destruct mu; try (injection Hres as <-; discriminate Htrue).
    eexists w2, _, _. split; [|reflexivity].
    rewrite Ht2, Ht1, <- app_assoc. reflexivity.
Qed.

Lemma submit_truthy_exchange (env : Env) (c : submission)
    (w : World) (res : value) :
  outcome_of (submit env c) w = Ok res ->
  truthy res = true ->
  exists req r,
    last (emitted (submit env c) w) = Some (EvHttp req (Response r))
    /\ is_submission req
    /\ status_code r = 200
    /\ json r = Ok res
    /\ exists body envelope post_data,
         res = VDict body
         /\ default (VDict ∅) (body !! "json") = VDict envelope
         /\ truthy (default VNone (envelope !! "errors")) = false
         /\ default (VDict ∅) (envelope !! "data") = VDict post_data.
Proof.
  intros Hres Htrue.
  destruct (submit_truthy_tail env c w res Hres Htrue)
    as (w1 & data & pre & Ht & Hrun).
  unfold outcome_of, emitted, world_after in *. rewrite Hrun in *.
  destruct (submit_form_cases env data w1)
    as [Hnone | (hdrs & out & _ & Hout & Hform)].
  { rewrite Hnone in Hres. injection Hres as <-. discriminate Htrue. }
  rewrite Hform in *. cbn [fst snd log trace] in *.
  injection Hres as Hres. destruct out as [r|e]; [|subst res; discriminate Htrue].
  subst res. exists (submission_request hdrs data), r.
  destruct (submission_result_truthy r Htrue) as (Hs & Hj & Hshape).
  split.
  - rewrite Ht, <- app_assoc, drop_app_length. apply last_snoc.
  - split; [repeat split|]. auto.
Qed.

(* The handler *)

Lemma publish_chosen (env : Env)
    (post_type subreddit title text url media_url flair_id : value) :
  publish env post_type subreddit title text url media_url flair_id
  = submit env
      (chosen_submission post_type subreddit title text url media_url flair_id).
Proof.
  unfold publish, chosen_submission.
  destruct (eq_str post_type "media" && truthy media_url); [reflexivity|].
  destruct (eq_str post_type "link" && truthy url); reflexivity.
Qed.

Lemma or_default_subreddit_run (env : Env) (subreddit : value) (w : World) :
  or_default_subreddit env subreddit w =
    match resolved_subreddit env subreddit with
    | Some s => (Ok s, w)
    | None =>
        (Raise match load_config env with
               | Raise e => e
               | Ok config => AttributeError (type_name config) "get"
               end, w)
    end.
Proof.
  unfold or_default_subreddit, resolved_subreddit. unfold_monad.
  destruct (truthy subreddit); cbn [negb]; [reflexivity|].
  destruct (load_config env) as [[]|]; reflexivity.
Qed.

Lemma respond_success (env : Env) (body envelope post_data : gmap string value)
    (w : World) :
  truthy (VDict body) = true ->
  default (VDict ∅) (body !! "json") = VDict envelope ->
  default (VDict ∅) (envelope !! "data") = VDict post_data ->
  respond env (VDict body) w = (Ok (success_reply env post_data), w).
Proof.
  intros Ht He Hd. unfold respond, success_reply. rewrite Ht.
  unfold_monad. cbn [py_get]. rewrite He. cbn [py_get]. rewrite Hd.
  reflexivity.
Qed.

Lemma respond_failure (env : Env) (result : value) (w : World) :
  truthy result = false ->
  respond env result w = (Ok (error_reply "Failed to publish post" 500), w).
Proof. intros H. unfold respond. now rewrite H. Qed.

Lemma submit_never_raises (env : Env) (c : submission) (w : World) :
  exists res, outcome_of (submit env c) w = Ok res.
Proof.
  unfold outcome_of.
  destruct (ensure_token_never_raises env w) as [go Hgo].
  assert (Hform : forall data w1, exists res, fst (submit_form env data w1) = Ok res).
  { intros data w1. destruct (submit_form_cases env data w1)
      as [-> | (hdrs & out & _ & _ & ->)]; cbn [fst]; eauto. }
  destruct c as [s t x f | s t u x f | s t mu x f]; cbn [submit].
  - rewrite post_text_run, Hgo. destruct go; cbn [guarded fst]; eauto.
  - rewrite post_link_run, Hgo. destruct go; cbn [guarded fst]; eauto.
  - rewrite post_media_run, Hgo. destruct go; cbn [guarded fst]; eauto.
    unfold media_submission.
    destruct (_upload_media env mu _) as [[up|e] w2]; cbn [fst]; eauto.
    destruct (truthy up); cbn [fst]; eauto.
    destruct mu; cbn [fst]; eauto.
Qed.

(** The handler on a body with a title: the subreddit is resolved, the
    chosen submission runs, the reply is built from its result. *)
Lemma handle_post_run (env : Env) (d : gmap string value) (w : World) :
  truthy (field d "title") = true ->
  handle_post env (Ok (VDict d)) w =
    match resolved_subreddit env (field d "subreddit") with
    | None =>
        (Ok (error_reply
               (exn_message match load_config env with
                            | Raise e => e
                            | Ok config => AttributeError (type_name config) "get"
                            end) 500), w)
    | Some s =>
        let run := submit env (request_submission d s) w in
        match fst run with
        | Ok result =>
            match respond env result (snd run) with
            | (Ok rep, w') => (Ok rep, w')
            | (Raise e, w') => (Ok (error_reply (exn_message e) 500), w')
            end
        | Raise e => (Ok (error_reply (exn_message e) 500), snd run)
        end
    end.
Proof.
  intros Htitle. rewrite (handle_post_route _ _ _ Htitle).
  unfold route, try_except, bind at 1. rewrite or_default_subreddit_run.
  destruct (resolved_subreddit env (field d "subreddit")) as [s|]; [|reflexivity].
  unfold bind. rewrite publish_chosen. unfold request_submission. cbv zeta.
  destruct (submit env _ w) as [[res|e] w1]; reflexivity.
Qed.

Lemma handle_post_no_body (env : Env) (data : value) (w : World) :
  truthy data = false ->
  handle_post env (Ok data) w = (Ok (error_reply "No JSON data provided" 400), w).
Proof. intros H. read_body. now rewrite H. Qed.

Lemma handle_post_not_dict (env : Env) (data : value) (w : World) :
  truthy data = true ->
  (forall d, data <> VDict d) ->
  handle_post env (Ok data) w
  = (Ok (error_reply (exn_message (AttributeError (type_name data) "get")) 500), w).
Proof.
  intros Ht Hd. read_body. rewrite Ht.
  destruct data; try reflexivity. now destruct (Hd d).
Qed.

Lemma handle_post_no_title (env : Env) (d : gmap string value) (w : World) :
  truthy (VDict d) = true ->
  truthy (field d "title") = false ->
  handle_post env (Ok (VDict d)) w
  = (Ok (error_reply "Missing required field: title" 400), w).
Proof.
  intros Ht Htitle. read_body. rewrite Ht.
  unfold field in Htitle. unfold_monad. cbn [py_get negb]. now rewrite Htitle.
Qed.

Lemma handle_post_titled_status (env : Env) (d : gmap string value) (w : World) :
  truthy (field d "title") = true ->
  exists rep,
    fst (handle_post env (Ok (VDict d)) w) = Ok rep
    /\ (reply_status rep = 200 \/ reply_status rep = 500).
Proof.
  intros Htitle. rewrite (handle_post_run _ _ _ Htitle).
  destruct (resolved_subreddit env (field d "subreddit")) as [s|].
  2:{ eexists. split; [reflexivity|]. now right. }
  cbv zeta.
  destruct (fst (submit env (request_submission d s) w)) as [res|e].
  2:{ eexists. split; [reflexivity|]. now right. }
  pose proof (respond_status env res (snd (submit env (request_submission d s) w))) as H.
  destruct (respond env res _) as [[rep|e] w2]; cbn [fst] in *.
  - now exists rep.
  - eexists. split; [reflexivity|]. now right.
Qed.

Lemma handle_post_replies (env : Env) (data : value)
    (w : World) :
  exists rep,
    outcome_of (handle_post env (Ok data)) w = Ok rep
    /\ (reply_status rep = 200 \/ reply_status rep = 400
        \/ reply_status rep = 500)
    /\ (reply_status rep = 400 <->
        truthy data = false
        \/ exists d, data = VDict d /\ truthy (field d "title") = false)
    /\ (reply_status rep = 400 ->
        world_after (handle_post env (Ok data)) w = w).
Proof.
  unfold outcome_of, world_after.
  destruct (truthy data) eqn:Hdata.
  2:{ rewrite (handle_post_no_body _ _ _ Hdata). eexists.
      split; [reflexivity|]. cbn. repeat split; auto. }
  destruct data as [| | | | |d].
  1-5: rewrite handle_post_not_dict by (auto; discriminate); eexists;
    (split; [reflexivity|]); cbn; repeat split; auto; try discriminate;
    intros [H | (d & H & _)]; discriminate.
  destruct (truthy (field d "title")) eqn:Htitle.
  - destruct (handle_post_titled_status env d w Htitle) as (rep & Hrep & Hst).
    exists rep. split; [exact Hrep|]. split; [tauto|].
    assert (Hno : reply_status rep <> 400) by (destruct Hst as [-> | ->]; discriminate).
    split; [split|]; try (intros H; now destruct (Hno H)).
    intros [H | (d' & Hd & Ht)]; [discriminate|].
    injection Hd as <-. congruence.
  - rewrite (handle_post_no_title _ _ _ Hdata Htitle). eexists.
    split; [reflexivity|]. cbn. repeat split; auto.
    intros _. right. now exists d.
Qed.

Lemma handle_post_success (env : Env) (data : value) (w : World)
    (rep : reply) :
  outcome_of (handle_post env (Ok data)) w = Ok rep ->
  reply_status rep = 200 ->
  exists d s req r body envelope post_data,
    data = VDict d
    /\ resolved_subreddit env (field d "subreddit") = Some s
    /\ last (emitted (handle_post env (Ok data)) w)
       = Some (EvHttp req (Response r))
    /\ is_submission req
    /\ status_code r = 200
    /\ json r = Ok (VDict body)
    /\ default (VDict ∅) (body !! "json") = VDict envelope
    /\ truthy (default VNone (envelope !! "errors")) = false
    /\ default (VDict ∅) (envelope !! "data") = VDict post_data
    /\ rep = success_reply env post_data.
Proof.
  unfold outcome_of, emitted, world_after. intros Hrep Hstatus.
  destruct (truthy data) eqn:Hdata.
  2:{ rewrite (handle_post_no_body _ _ _ Hdata) in Hrep.
      injection Hrep as <-. discriminate. }
  destruct data as [| | | | |d];
    try (rewrite handle_post_not_dict in Hrep by (auto; discriminate);
         injection Hrep as <-; discriminate).
  destruct (truthy (field d "title")) eqn:Htitle.
  2:{ rewrite (handle_post_no_title _ _ _ Hdata Htitle) in Hrep.
      injection Hrep as <-. discriminate. }
  rewrite (handle_post_run _ _ _ Htitle) in *.
  destruct (resolved_subreddit env (field d "subreddit")) as [s|] eqn:Hsr;
    [|injection Hrep as <-; discriminate].
  cbv zeta in *.
  destruct (submit_never_raises env (request_submission d s) w) as [res Hres].
  unfold outcome_of in Hres. rewrite Hres in *.
  destruct (truthy res) eqn:Htrue.
  2:{ rewrite (respond_failure _ _ _ Htrue) in Hrep.
      injection Hrep as <-. discriminate. }
  destruct (submit_truthy_exchange env _ w res Hres Htrue)
    as (req & r & Hlast & Hsub & Hs & Hj & body & envelope & pd & -> & He & Herr & Hd).
  rewrite (respond_success _ _ _ _ _ Htrue He Hd) in *.
  injection Hrep as <-.
  exists d, s, req, r, body, envelope, pd.
  split; [reflexivity|]. split; [exact Hsr|]. split; [exact Hlast|].
  repeat split; auto; apply Hsub.
Qed.

Lemma respond_world (env : Env) (result : value) (w : World) :
  snd (respond env result w) = w.
Proof.
  unfold respond. unfold_monad.
  repeat (case_step; cbv beta iota zeta; cbn [snd]); reflexivity.
Qed.

Lemma handle_post_world (env : Env) (d : gmap string value) (w : World)
    (s : value) :
  truthy (field d "title") = true ->
  resolved_subreddit env (field d "subreddit") = Some s ->
  snd (handle_post env (Ok (VDict d)) w)
  = snd (submit env (request_submission d s) w).
Proof.
  intros Htitle Hs. rewrite (handle_post_run _ _ _ Htitle), Hs. cbv zeta.
  destruct (fst (submit env (request_submission d s) w)) as [res|e];
    [|reflexivity].
  pose proof (respond_world env res (snd (submit env (request_submission d s) w))) as H.
  destruct (respond env res _) as [[rep|e] w2]; exact H.
Qed.

Lemma carries_sr_title (env : Env) (c : submission) (s t : value) :
  (exists x f, c = PostText s t x f)
  \/ (exists u x f, c = PostLink s t u x f)
  \/ (exists mu x f, c = PostMedia s t mu x f) ->
  forall w, Forall (fun e => carries "sr" s e /\ carries "title" t e)
              (emitted (submit env c) w).
Proof.
  intros Hc w.
  assert (H : forall key v, In (key, v) [("sr", s); ("title", t)] ->
                            emits (carries key v) (submit env c)).
  { intros key v [E | [E | []]]; injection E as <- <-;
      destruct Hc as [(x & f & ->) | [(u & x & f & ->) | (mu & x & f & ->)]];
      cbn [submit]; unfold post_text, post_link, post_media; carries_auto. }
  apply Forall_forall. intros e He. apply list_elem_of_In in He. split.
  - exact (emits_In _ _ w e (H "sr" s ltac:(cbn; auto)) He).
  - exact (emits_In _ _ w e (H "title" t ltac:(cbn; auto)) He).
Qed.

Lemma request_submission_shape (d : gmap string value) (s : value) :
  let c := request_submission d s in
  let t := field d "title" in
  (exists x f, c = PostText s t x f)
  \/ (exists u x f, c = PostLink s t u x f)
  \/ (exists mu x f, c = PostMedia s t mu x f).
Proof.
  cbv zeta. unfold request_submission, chosen_submission.
  destruct (_ && _); [right; right; eauto|].
  destruct (_ && _); [right; left; eauto | left; eauto].
Qed.

Lemma handle_post_subreddit (env : Env) (d : gmap string value) (w : World) :
  truthy (field d "title") = true ->
  let events := emitted (handle_post env (Ok (VDict d))) w in
  let subreddit := field d "subreddit" in
  (truthy subreddit = true -> Forall (carries "sr" subreddit) events)
  /\ (truthy subreddit = false ->
      forall config, load_config env = Ok (VDict config) ->
      Forall (carries "sr" (default (VStr "test") (config !! "default_subreddit")))
        events)
  /\ (truthy subreddit = false ->
      (forall config, load_config env <> Ok (VDict config)) ->
      events = []
      /\ exists rep,
           outcome_of (handle_post env (Ok (VDict d))) w = Ok rep
           /\ reply_status rep = 500).
Proof.
  intros Htitle. cbv zeta.
  assert (Hsome : forall s,
            resolved_subreddit env (field d "subreddit") = Some s ->
            Forall (carries "sr" s) (emitted (handle_post env (Ok (VDict d))) w)).
  { intros s Hs. unfold emitted, world_after.
    rewrite (handle_post_world _ _ _ _ Htitle Hs).
    pose proof (carries_sr_title env _ s (field d "title")
                  (request_submission_shape d s) w) as H.
    eapply Forall_impl; [exact H|]. now intros e [He _]. }
  split; [|split].
  - intros Hsub. apply Hsome. unfold resolved_subreddit. now rewrite Hsub.
  - intros Hsub config Hconfig. apply Hsome. unfold resolved_subreddit.
    now rewrite Hsub, Hconfig.
  - intros Hsub Hconfig.
    assert (Hnone : resolved_subreddit env (field d "subreddit") = None).
    { unfold resolved_subreddit. rewrite Hsub.
      destruct (load_config env) as [[]|]; try reflexivity.
      match goal with c : gmap string value |- _ => now destruct (Hconfig c) end. }
    unfold emitted, outcome_of, world_after.
    rewrite (handle_post_run _ _ _ Htitle), Hnone. cbn [fst snd].
    split; [apply drop_all|]. eexists. split; reflexivity.
Qed.

(* Which requests a submission makes *)

Lemma upload_sequence_events (env : Env) (hdrs : list (string * string))
    (u : string) (w : World) :
  poster (snd (upload_sequence env hdrs u w)) = poster w
  /\ Forall (fun e => exists req out, e = EvHttp req out
                                      /\ upload_exchange env hdrs u req)
       (drop (length (trace w)) (trace (snd (upload_sequence env hdrs u w)))).
Proof.
  unfold upload_sequence, upload_exchange. cbv zeta.
  repeat (case_step; cbv beta iota zeta); cbn [snd];
    rewrite ?emitted_log1, ?emitted_log2, ?emitted_log3;
    (split; [reflexivity|]);
    repeat (constructor; [eexists _, _; split; [reflexivity|]; eauto 6|]);
    constructor.
Qed.

Lemma upload_media_events (env : Env) (media_url : value) (w : World) :
  poster (snd (_upload_media env media_url w)) = poster w
  /\ (emitted (_upload_media env media_url) w = []
      \/ exists u hdrs,
           media_url = VStr u
           /\ auth_headers env (poster w) = Ok hdrs
           /\ Forall (fun e => exists req out,
                          e = EvHttp req out /\ upload_exchange env hdrs u req)
                (emitted (_upload_media env media_url) w)).
Proof.
  unfold emitted, world_after.
  destruct media_url as [| | |u| |];
    try (rewrite upload_media_not_str by discriminate; cbn [snd];
         split; [reflexivity | left; apply drop_all]).
  rewrite upload_media_run.
  destruct (auth_headers env (poster w)) as [hdrs|e] eqn:Hh.
  - destruct (upload_sequence_events env hdrs u w) as [Hp Hev].
    split; [exact Hp|]. right. exists u, hdrs. auto.
  - cbn [snd]. split; [reflexivity | left; apply drop_all].
Qed.

Lemma upload_media_result (env : Env) (media_url : value) (w : World) :
  fst (_upload_media env media_url w) = Ok VNone
  \/ exists location, fst (_upload_media env media_url w) = Ok (VStr location).
Proof.
  destruct media_url as [| | |u| |];
    try (rewrite upload_media_not_str by discriminate; now left).
  rewrite upload_media_run.
  destruct (auth_headers env (poster w)) as [hdrs|e]; [|now left].
  unfold upload_sequence, located. cbv zeta.
  repeat (case_step; cbv beta iota zeta); cbn [fst]; eauto.
Qed.

Lemma submit_form_events (env : Env) (data : form) (w : World) :
  poster (snd (submit_form env data w)) = poster w
  /\ Forall (fun e => exists hdrs out,
                 auth_headers env (poster w) = Ok hdrs
                 /\ e = EvHttp (submission_request hdrs data) out)
       (drop (length (trace w)) (trace (snd (submit_form env data w)))).
Proof.
  destruct (submit_form_cases env data w)
    as [-> | (hdrs & out & Hh & _ & ->)]; cbn [snd].
  - split; [reflexivity|]. rewrite drop_all. constructor.
  - split; [reflexivity|]. rewrite emitted_log1.
    repeat constructor. eauto.
Qed.

Lemma ensure_token_events (env : Env) (w : World) (req : request)
    (out : http_outcome) :
  In (EvHttp req out) (emitted (ensure_token env) w) ->
  truthy (access_token (poster w)) = false /\ req = token_request (poster w).
Proof.
  unfold emitted, world_after. rewrite ensure_token_run.
  destruct (truthy (access_token (poster w))).
  - cbn [snd]. rewrite drop_all. intros [].
  - fold (world_after (authenticate env) w).
    fold (emitted (authenticate env) w). rewrite authenticate_emitted.
    destruct (PyStr.is_ascii _); cbn [In].
    + intros [H | [H | []]]; [discriminate|]. now injection H as <- _.
    + intros [H | []]. discriminate.
Qed.

Lemma drop_two_steps (w w1 w2 : World) (a : list event) :
  trace w1 = trace w ++ a ->
  drop (length (trace w)) (trace w2)
  = a ++ drop (length (trace w1)) (trace w2) ->
  forall e, In e (drop (length (trace w)) (trace w2)) ->
            In e a \/ In e (drop (length (trace w1)) (trace w2)).
Proof. intros _ -> e. apply in_app_or. Qed.

Lemma emitted_after (w w1 w2 : World) (a b : list event) :
  trace w1 = trace w ++ a ->
  trace w2 = trace w1 ++ b ->
  drop (length (trace w)) (trace w2) = a ++ b
  /\ drop (length (trace w1)) (trace w2) = b.
Proof.
  intros H1 H2. rewrite H2, drop_app_length. split; [|reflexivity].
  now rewrite H1, <- app_assoc, drop_app_length.
Qed.

Lemma submit_form_trace (env : Env) (data : form) (w : World) :
  exists b, trace (snd (submit_form env data w)) = trace w ++ b.
Proof.
  destruct (submit_form_cases env data w)
    as [-> | (hdrs & out & _ & _ & ->)]; cbn [snd log trace]; eauto.
  exists []. now rewrite app_nil_r.
Qed.

Lemma submit_exchanges (env : Env) (c : submission) (w : World)
    (req : request) (out : http_outcome) :
  In (EvHttp req out) (emitted (submit env c) w) ->
  let stored := poster (snd (ensure_token env w)) in
  (truthy (access_token (poster w)) = false
   /\ req = token_request (poster w))
  \/ (exists hdrs data,
        auth_headers env stored = Ok hdrs
        /\ req = submission_request hdrs data
        /\ form_of c data)
  \/ (exists hdrs u,
        auth_headers env stored = Ok hdrs
        /\ uploads c u
        /\ upload_exchange env hdrs u req).
Proof.
  cbv zeta. unfold emitted at 1, world_after.
  pose proof (ensure_token_trace env w) as Ht1.
  pose proof (ensure_token_events env w req out) as Hens.
  set (w1 := snd (ensure_token env w)) in *.
  set (ev := EvHttp req out) in *.
  assert (Hsf : forall data w2 pre,
            trace w2 = trace w ++ pre ->
            poster w2 = poster w1 ->
            form_of c data ->
            In ev (drop (length (trace w)) (trace (snd (submit_form env data w2)))) ->
            In ev pre
            \/ exists hdrs data,
                 auth_headers env (poster w1) = Ok hdrs
                 /\ req = submission_request hdrs data /\ form_of c data).
  { intros data w2 pre Hpre Hposter Hdata Hin.
    destruct (submit_form_trace env data w2) as [b Hb].
    destruct (emitted_after w w2 _ _ b Hpre Hb) as [Hall Hb'].
    rewrite Hall in Hin. apply in_app_or in Hin as [Hin | Hin]; [now left|].
    right. destruct (submit_form_events env data w2) as [_ Hev].
    rewrite Hb' in Hev. rewrite Forall_forall in Hev.
    apply list_elem_of_In, Hev in Hin as (hdrs & out' & Hh & E).
    injection E as -> _. rewrite Hposter in Hh. eauto. }
  assert (Hguard : In ev (drop (length (trace w)) (trace w1)) ->
                   In ev (emitted (ensure_token env) w)).
  { intros H. exact H. }
  destruct c as [s t x f | s t u x f | s t mu x f]; cbn [submit].
  - rewrite post_text_run. fold w1.
    destruct (fst (ensure_token env w)) as [[]|e]; cbn [guarded snd]; auto.
    intros Hin.
    destruct (Hsf _ w1 _ Ht1 eq_refl eq_refl Hin) as [H | H]; auto.
  - rewrite post_link_run. fold w1.
    destruct (fst (ensure_token env w)) as [[]|e]; cbn [guarded snd]; auto.
    intros Hin.
    destruct (Hsf _ w1 _ Ht1 eq_refl eq_refl Hin) as [H | H]; auto.
  - rewrite post_media_run. fold w1.
    destruct (fst (ensure_token env w)) as [[]|e]; cbn [guarded snd]; auto.
    unfold media_submission.
    pose proof (upload_media_trace env mu w1) as Ht2.
    destruct (upload_media_events env mu w1) as [Hp Hup].
    assert (Hin_up : In ev (emitted (_upload_media env mu) w1) ->
                     exists hdrs u,
                       auth_headers env (poster w1) = Ok hdrs
                       /\ uploads (PostMedia s t mu x f) u
                       /\ upload_exchange env hdrs u req).
    { intros Hin. destruct Hup as [Hnil | (u & hdrs & -> & Hh & Hall)].
      - rewrite Hnil in Hin. destruct Hin.
      - rewrite Forall_forall in Hall.
        apply list_elem_of_In, Hall in Hin as (req' & out' & E & Hex).
        injection E as <- _. exists hdrs, u. cbn [uploads]. auto. }
    pose proof (upload_media_result env mu w1) as Hres.
    destruct (_upload_media env mu w1) as [res w2]. cbn [fst snd] in *.
    assert (Hpre : trace w2
                   = trace w ++ emitted (ensure_token env) w
                     ++ emitted (_upload_media env mu) w1).
    { rewrite Ht2, Ht1, <- app_assoc. reflexivity. }
    assert (Hstop : In ev (drop (length (trace w)) (trace w2)) ->
              (truthy (access_token (poster w)) = false
               /\ req = token_request (poster w))
              \/ (exists hdrs data,
                    auth_headers env (poster w1) = Ok hdrs
                    /\ req = submission_request hdrs data
                    /\ form_of (PostMedia s t mu x f) data)
              \/ (exists hdrs u,
                    auth_headers env (poster w1) = Ok hdrs
                    /\ uploads (PostMedia s t mu x f) u
                    /\ upload_exchange env hdrs u req)).
    { rewrite Hpre, drop_app_length. intros Hin.
      apply in_app_or in Hin as [Hin | Hin]; auto. }
    destruct Hres as [-> | [location ->]].
    + cbn [truthy snd]. exact Hstop.
    + destruct (truthy (VStr location)) eqn:Hloc; [|exact Hstop].
      destruct mu as [| | |u| |]; try exact Hstop.
      intros Hin.
      destruct (Hsf (media_form s t (VStr location) (media_kind u) x f) w2 _
                  Hpre Hp ltac:(cbn [form_of]; eauto) Hin) as [H | H]; auto.
      apply Hstop. now rewrite Hpre, drop_app_length.
Qed.

(* ------------------------------------------------------------------ *)
(** ** The requests of a submission *)
(* ------------------------------------------------------------------ *)

Lemma upload_exchange_not_submission (env : Env) hdrs (u : string) (req : request) :
  upload_exchange env hdrs u req -> ~ is_submission req.
Proof.
  intros [-> | [-> | (action & ud & content & ->)]] (Hm & Hu & Hf);
    cbn [method url files lease_request fetch_request upload_request] in *.
  - vm_compute in Hu. discriminate Hu.
  - discriminate Hm.
  - discriminate Hf.
Qed.

Lemma token_request_not_submission (p : RedditAutoPoster) :
  ~ is_submission (token_request p).
Proof.
  intros (_ & Hu & _). cbn [url token_request] in Hu. vm_compute in Hu.
  discriminate Hu.
Qed.

(** X4.  If a submission method returns a value that counts as true, the
    last event of the call is a submission answered 200, the value is the
    parsed body of that response, an object, whose [json] member is an
    object without errors and with an object [data]. *)
Theorem truthy_result_is_accepted_submission (env : Env) (c : submission)
    (w : World) (res : value) :
  outcome_of (submit env c) w = Ok res ->
  truthy res = true ->
  exists req r,
    last (emitted (submit env c) w) = Some (EvHttp req (Response r))
    /\ is_submission req
    /\ status_code r = 200
    /\ json r = Ok res
    /\ exists body envelope post_data,
         res = VDict body
         /\ default (VDict ∅) (body !! "json") = VDict envelope
         /\ truthy (default VNone (envelope !! "errors")) = false
         /\ default (VDict ∅) (envelope !! "data") = VDict post_data.
Proof. apply submit_truthy_exchange. Qed.

Lemma truthy_result_is_accepted_submission_witness :
  exists req r,
    last (emitted (submit (scripted friendly) sample_text_post)
            (world_with_token (VStr "tok")))
    = Some (EvHttp req (Response r))
    /\ is_submission req
    /\ status_code r = 200
    /\ json r = Ok submitted_body.
Proof.
  destruct (truthy_result_is_accepted_submission (scripted friendly)
              sample_text_post (world_with_token (VStr "tok")) submitted_body)
    as (req & r & H1 & H2 & H3 & H4 & _).
  - vm_compute. reflexivity.
  - reflexivity.
  - exists req, r. auto.
Defined.

(** X5.  Every submission request of a call carries the form that the
    method builds from its arguments, has timeout 30, and has the headers
    that [_get_headers] builds from the poster as the guard leaves it. *)
Theorem submitted_form (env : Env) (c : submission) (w : World)
    (req : request) (out : http_outcome) :
  In (EvHttp req out) (emitted (submit env c) w) ->
  is_submission req ->
  form_of c (data req)
  /\ timeout req = 30
  /\ auth_headers env (poster (snd (ensure_token env w))) = Ok (headers req).
Proof.
  intros Hin Hsub.
  destruct (submit_exchanges env c w req out Hin)
    as [[_ ->] | [(hdrs & data & Hh & -> & Hform) | (hdrs & u & _ & _ & Hex)]].
  - now destruct (token_request_not_submission _ Hsub).
  - auto.
  - now destruct (upload_exchange_not_submission _ _ _ _ Hex Hsub).
Qed.

Lemma submitted_form_witness :
  form_of sample_text_post (data sample_text_request)
  /\ timeout sample_text_request = 30.
Proof.
  refine (let H := submitted_form (scripted friendly) sample_text_post
                     (world_with_token (VStr "tok")) sample_text_request
                     (Response (json_response 200 submitted_body)) _ _ in
          conj (proj1 H) (proj1 (proj2 H))).
  - vm_compute. left. reflexivity.
  - vm_compute. auto.
Defined.

(** X6.  What the form of a submission holds.  [post_text]: [kind=self],
    [text], no [url].  [post_link]: [kind=link], [url], and [text] only
    when it counts as true.  [post_media]: [text], the empty string
    standing for one that counts as false, and a non-empty [url].  All
    three: [flair_id] exactly when it counts as true. *)
Theorem optional_fields_sent (env : Env) (c : submission) (w : World)
    (req : request) (out : http_outcome) :
  In (EvHttp req out) (emitted (submit env c) w) ->
  is_submission req ->
  let sent (key : string) := dict_lookup (data req) (VStr key) in
  let when_given (v : value) := if truthy v then Some v else None in
  match c with
  | PostText subreddit title text flair_id =>
      sent "kind" = Some (VStr "self")
      /\ sent "text" = Some text
      /\ sent "url" = None
      /\ sent "flair_id" = when_given flair_id
  | PostLink subreddit title url text flair_id =>
      sent "kind" = Some (VStr "link")
      /\ sent "url" = Some url
      /\ sent "text" = when_given text
      /\ sent "flair_id" = when_given flair_id
  | PostMedia subreddit title media_url text flair_id =>
      sent "text" = Some (if truthy text then text else VStr "")
      /\ sent "flair_id" = when_given flair_id
      /\ exists location,
           location <> EmptyString /\ sent "url" = Some (VStr location)
  end.
Proof.
  intros Hin Hsub.
  destruct (submit_exchanges env c w req out Hin)
    as [[_ ->] | [(hdrs & fm & Hh & -> & Hform) | (hdrs & u & _ & _ & Hex)]].
  - now destruct (token_request_not_submission _ Hsub).
  - cbv zeta. cbn [data submission_request].
    destruct c as [s t x f | s t u x f | s t mu x f]; cbn [form_of] in Hform.
    + subst fm. unfold text_form, set_if.
      destruct (truthy f); repeat split; reflexivity.
    + subst fm. unfold link_form, set_if.
      destruct (truthy f), (truthy x); repeat split; reflexivity.
    + destruct Hform as (u & location & -> & Hloc & ->).
      unfold media_form, set_if, or_empty.
      assert (location <> EmptyString).
      { intros ->. discriminate Hloc. }
      destruct (truthy f), (truthy x); repeat split; eauto.
  - now destruct (upload_exchange_not_submission _ _ _ _ Hex Hsub).
Qed.

Lemma optional_fields_sent_witness :
  dict_lookup (data sample_text_request) (VStr "kind") = Some (VStr "self")
  /\ dict_lookup (data sample_text_request) (VStr "text") = Some (VStr "hi")
  /\ dict_lookup (data sample_text_request) (VStr "url") = None
  /\ dict_lookup (data sample_text_request) (VStr "flair_id") = None.
Proof.
  refine (optional_fields_sent (scripted friendly) sample_text_post
            (world_with_token (VStr "tok")) sample_text_request
            (Response (json_response 200 submitted_body)) _ _).
  - vm_compute. left. reflexivity.
  - vm_compute. auto.
Defined.

(** X7.  Every request of a submission call either has no headers, or is
    the token request, or is a POST to [/api/submit] or
    [/api/media/asset] with the headers that [_get_headers] builds from
    the poster as the guard leaves it. *)
Theorem request_headers (env : Env) (c : submission) (w : World)
    (req : request) (out : http_outcome) :
  In (EvHttp req out) (emitted (submit env c) w) ->
  headers req = []
  \/ req = token_request (poster w)
  \/ (auth_headers env (poster (snd (ensure_token env w))) = Ok (headers req)
      /\ method req = "POST"
      /\ (url req = api_base +:+ "/api/submit"
          \/ url req = api_base +:+ "/api/media/asset")).
Proof.
  intros Hin.
  destruct (submit_exchanges env c w req out Hin)
    as [[_ ->] | [(hdrs & data & Hh & -> & Hform) | (hdrs & u & Hh & _ & Hex)]].
  - auto.
  - right. right. cbn [headers method url submission_request]. auto.
  - destruct Hex as [-> | [-> | (action & ud & content & ->)]].
    + right. right. cbn [headers method url lease_request]. auto.
    + now left.
    + now left.
Qed.

Lemma request_headers_witness :
  headers sample_text_request = []
  \/ sample_text_request = token_request (poster (world_with_token (VStr "tok")))
  \/ (auth_headers (scripted friendly)
        (poster (snd (ensure_token (scripted friendly)
                        (world_with_token (VStr "tok")))))
      = Ok (headers sample_text_request)
      /\ method sample_text_request = "POST"
      /\ (url sample_text_request = api_base +:+ "/api/submit"
          \/ url sample_text_request = api_base +:+ "/api/media/asset")).
Proof.
  refine (request_headers (scripted friendly) sample_text_post
            (world_with_token (VStr "tok")) sample_text_request
            (Response (json_response 200 submitted_body)) _).
  vm_compute. left. reflexivity.
Defined.

Lemma upload_located_shape (env : Env) (u : string) (w : World)
    (location : string) :
  fst (_upload_media env (VStr u) w) = Ok (VStr location) ->
  exists e1 e2 req3 r3,
    emitted (_upload_media env (VStr u)) w = [e1; e2; EvHttp req3 (Response r3)]
    /\ status_code r3 = 200
    /\ extract_location (text r3) = Some location.
Proof.
  unfold emitted, world_after. rewrite upload_media_run.
  destruct (auth_headers env (poster w)) as [hdrs|e]; [|discriminate].
  unfold upload_sequence, located. cbv zeta.
  repeat (case_step; cbv beta iota zeta); cbn [fst snd];
    rewrite ?emitted_log1, ?emitted_log2, ?emitted_log3;
    intros H; simplify_eq.
  eexists _, _, _, _. split; [reflexivity|]. split; [|assumption].
  match goal with
  | H : negb (status_code ?r =? 200) = false |- status_code ?r = 200 =>
      now apply negb_false_iff, Z.eqb_eq in H
  end.
Qed.

(** X8.  When [post_media] sends a submission, the events of the call
    are those of the guard, three upload exchanges and the submission;
    the third exchange was answered 200 and the [url] of the submission is
    the location extracted from its response. *)
Theorem media_post_submits_uploaded_location (env : Env)
    (subreddit title media_url caption flair_id : value) (w : World)
    (req : request) (out : http_outcome) :
  In (EvHttp req out)
    (emitted (post_media env subreddit title media_url caption flair_id) w) ->
  is_submission req ->
  exists e1 e2 req3 r3 location,
    emitted (post_media env subreddit title media_url caption flair_id) w
    = emitted (ensure_token env) w
      ++ [e1; e2; EvHttp req3 (Response r3); EvHttp req out]
    /\ status_code r3 = 200
    /\ extract_location (text r3) = Some location
    /\ dict_lookup (data req) (VStr "url") = Some (VStr location).
Proof.
  intros Hin Hsub.
  pose proof (ensure_token_trace env w) as Ht1.
  assert (Hens : ~ In (EvHttp req out) (emitted (ensure_token env) w)).
  { intros H. apply ensure_token_events in H as [_ ->].
    now destruct (token_request_not_submission _ Hsub). }
  unfold emitted at 1, world_after in Hin. unfold emitted at 1, world_after.
  rewrite post_media_run in Hin |- *.
  set (w1 := snd (ensure_token env w)) in *.
  destruct (fst (ensure_token env w)) as [[]|e]; cbn [guarded snd] in Hin |- *;
    try now destruct (Hens Hin).
  unfold media_submission in Hin |- *.
  pose proof (upload_media_trace env media_url w1) as Ht2.
  destruct (upload_media_events env media_url w1) as [Hp Hup].
  assert (Hnot_up : ~ In (EvHttp req out) (emitted (_upload_media env media_url) w1)).
  { intros H. destruct Hup as [Hnil | (u & hdrs & _ & _ & Hall)].
    - rewrite Hnil in H. destruct H.
    - rewrite Forall_forall in Hall.
      apply list_elem_of_In, Hall in H as (req' & out' & E & Hex).
      injection E as <- _.
      now destruct (upload_exchange_not_submission _ _ _ _ Hex Hsub). }
  pose proof (upload_media_result env media_url w1) as Hres.
  pose proof (upload_located_shape env) as Hshape.
  destruct (_upload_media env media_url w1) as [res w2] eqn:Hrun.
  cbn [fst snd] in *.
  assert (Hpre : trace w2
                 = trace w ++ emitted (ensure_token env) w
                   ++ emitted (_upload_media env media_url) w1).
  { rewrite Ht2, Ht1, <- app_assoc. reflexivity. }
  assert (Hstop : ~ In (EvHttp req out) (drop (length (trace w)) (trace w2))).
  { rewrite Hpre, drop_app_length. intros H.
    apply in_app_or in H as [H | H]; auto. }
  destruct Hres as [-> | [location ->]];
    [cbn [truthy snd] in Hin; now destruct (Hstop Hin)|].
  destruct (truthy (VStr location)) eqn:Hloc;
    [|cbn [snd] in Hin; now destruct (Hstop Hin)].
  destruct media_url as [| | |u| |];
    try (cbn [snd] in Hin; now destruct (Hstop Hin)).
  specialize (Hshape u w1 location). rewrite Hrun in Hshape.
  destruct (Hshape eq_refl) as (e1 & e2 & req3 & r3 & Hev & Hs & Hx).
  rewrite Hev in Hpre.
  destruct (submit_form_cases env
              (media_form subreddit title (VStr location) (media_kind u)
                 caption flair_id) w2)
    as [Hsf | (hdrs & out' & _ & _ & Hsf)]; rewrite Hsf in Hin |- *;
    cbn [snd log trace] in Hin |- *.
  { now destruct (Hstop Hin). }
  rewrite Hpre, <- !app_assoc, drop_app_length in Hin |- *.
  apply in_app_or in Hin as [Hin | Hin]; [now destruct (Hens Hin)|].
  cbn [app In] in Hin.
  destruct Hin as [E | [E | [E | [E | []]]]].
  1-3: exfalso; apply Hnot_up; rewrite Hev, <- E; cbn; auto.
  injection E as <- <-.
  exists e1, e2, req3, r3, location.
  split; [reflexivity|]. split; [exact Hs|]. split; [exact Hx|].
  cbn [data submission_request]. unfold media_form, set_if.
  destruct (truthy flair_id); reflexivity.
Qed.

Lemma media_post_submits_uploaded_location_witness :
  exists location,
    dict_lookup (data sample_media_request) (VStr "url") = Some (VStr location).
Proof.
  destruct (media_post_submits_uploaded_location (scripted friendly)
              (VStr "test") (VStr "T") (VStr "https://host/a.jpg") VNone VNone
              (world_with_token (VStr "tok")) sample_media_request
              (Response (json_response 200 submitted_body)))
    as (_ & _ & _ & _ & location & _ & _ & _ & H).
  - vm_compute. do 3 right. left. reflexivity.
  - vm_compute. auto.
  - exists location. exact H.
Defined.

(* ------------------------------------------------------------------ *)
(** ** The upload form *)
(* ------------------------------------------------------------------ *)

Lemma key_eqb_refl (k : value) : hashable k = true -> key_eqb k k = true.
Proof.
  destruct k; cbn; try discriminate; intros _.
  - reflexivity.
  - now destruct b.
  - apply Z.eqb_refl.
  - apply String.eqb_refl.
Qed.

Lemma key_eqb_trans_eq (a b c : value) :
  key_eqb a b = true -> key_eqb a c = key_eqb b c.
Proof.
  destruct a as [|x|x|x| |], b as [|y|y|y| |]; cbn [key_eqb];
    try discriminate; intros H;
    destruct c as [|z|z|z| |]; cbn [key_eqb]; try reflexivity;
    repeat match goal with
      | v : bool |- _ => destruct v
      end; cbn [Bool.eqb] in *; cbv beta iota in *;
    try discriminate; try reflexivity;
    try (apply String.eqb_eq in H; now subst);
    try (apply Z.eqb_eq in H; subst);
    repeat match goal with
      | |- context [Z.eqb ?p ?q] => destruct (Z.eqb_spec p q)
      end; try reflexivity; try lia.
Qed.

Lemma key_eqb_sym (a b : value) : key_eqb a b = key_eqb b a.
Proof.
  destruct a as [|x|x|x| |], b as [|y|y|y| |]; cbn [key_eqb];
    try reflexivity.
  - now destruct x, y.
  - apply Z.eqb_sym.
  - apply String.eqb_sym.
Qed.

Lemma dict_lookup_set (d : form) (k v name : value) :
  dict_lookup (dict_set d k v) name
  = if key_eqb k name then Some v else dict_lookup d name.
Proof.
  induction d as [|[k' v'] d IH]; cbn [dict_set dict_lookup].
  - reflexivity.
  - destruct (key_eqb k' k) eqn:E; cbn [dict_lookup].
    + rewrite (key_eqb_trans_eq _ _ name E).
      now destruct (key_eqb k name).
    + rewrite IH. destruct (key_eqb k' name) eqn:E'; [|reflexivity].
      rewrite (key_eqb_trans_eq _ _ k E'), key_eqb_sym in E. now rewrite E.
Qed.

Lemma fill_upload_data_lookup (fields : list value) (acc ud : form)
    (name : value) :
  fill_upload_data acc fields = Ok ud ->
  dict_lookup ud name
  = match last_field_value fields name with
    | Some v => Some v
    | None => dict_lookup acc name
    end.
Proof.
  revert acc. induction fields as [|entry rest IH]; intros acc; cbn.
  - intros H. now injection H as <-.
  - destruct (py_getitem entry "value") as [v|]; [|discriminate].
    destruct (py_getitem entry "name") as [n|]; [|discriminate].
    destruct (hashable n); [|discriminate].
    intros H. rewrite (IH _ H), dict_lookup_set.
    destruct (last_field_value rest name); [reflexivity|].
    now destruct (key_eqb n name).
Qed.

Lemma fill_upload_data_total (fields : list value) (acc : form) :
  (exists ud, fill_upload_data acc fields = Ok ud)
  <-> forallb well_formed_field fields = true.
Proof.
  revert acc. induction fields as [|entry rest IH]; intros acc;
    cbn [fill_upload_data forallb].
  - split; [reflexivity | eauto].
  - unfold well_formed_field at 1.
    destruct (py_getitem entry "value") as [v|].
    2:{ split; [intros [ud H]; discriminate | discriminate]. }
    destruct (py_getitem entry "name") as [n|].
    2:{ split; [intros [ud H]; discriminate | discriminate]. }
    destruct (hashable n); cbn [andb].
    + apply IH.
    + split; [intros [ud H]; discriminate | discriminate].
Qed.

(** X9.  For lease [fields] that count as true, the upload form is built
    exactly when [fields] is a list of entries that have a [value] and a
    hashable [name]; looking a key up in the form then gives the value of
    the last entry whose name equals the key, and nothing for a key that
    names no entry. *)
Theorem upload_form_from_lease_fields (fields : value) :
  truthy fields = true ->
  ((exists upload_data, build_upload_data fields = Ok upload_data)
   <-> exists entries,
         fields = VList entries /\ forallb well_formed_field entries = true)
  /\ (forall entries upload_data name,
        fields = VList entries ->
        build_upload_data fields = Ok upload_data ->
        dict_lookup upload_data name = last_field_value entries name).
Proof.
  intros _. split.
  - destruct fields as [| | | |entries|]; cbn [build_upload_data];
      try (split; [intros [ud H]; discriminate
                  | intros (entries & H & _); discriminate]).
    rewrite (fill_upload_data_total entries []). split.
    + intros H. now exists entries.
    + intros (entries' & E & H). now injection E as ->.
  - intros entries ud name -> H. cbn [build_upload_data] in H.
    rewrite (fill_upload_data_lookup _ _ _ name H).
    now destruct (last_field_value entries name).
Qed.

Lemma upload_form_from_lease_fields_witness :
  dict_lookup [(VStr "a", VStr "1")] (VStr "a")
  = last_field_value
      [VDict {[ "name" := VStr "a"; "value" := VStr "1" ]}] (VStr "a").
Proof.
  refine (proj2 (upload_form_from_lease_fields
                   (VList [VDict {[ "name" := VStr "a"; "value" := VStr "1" ]}])
                   _)
            [VDict {[ "name" := VStr "a"; "value" := VStr "1" ]}]
            [(VStr "a", VStr "1")] (VStr "a") _ _).
  - reflexivity.
  - reflexivity.
  - vm_compute. reflexivity.
Defined.

(** X10.  In a run of [_upload_media] whose lease gave [action] and
    [fields] and whose download was answered 200: if the upload form can
    be built, the third event is the upload request to [action] with that
    form and the downloaded content as the file; if not, the run returns
    [None] after its two exchanges. *)
Theorem upload_after_download (env : Env) (u : string) (w : World)
    (req1 req2 : request) (r1 r2 : response) (action fields : value) :
  emitted (_upload_media env (VStr u)) w !! 0%nat
    = Some (EvHttp req1 (Response r1)) ->
  emitted (_upload_media env (VStr u)) w !! 1%nat
    = Some (EvHttp req2 (Response r2)) ->
  status_code r2 = 200 ->
  lease_terms r1 = Some (action, fields) ->
  match build_upload_data fields with
  | Ok upload_data =>
      exists out3,
        emitted (_upload_media env (VStr u)) w !! 2%nat
        = Some (EvHttp
                  (upload_request env action upload_data
                     (lease_filename u, content r2,
                      lease_mime_type env (lease_filename u)))
                  out3)
  | Raise _ =>
      outcome_of (_upload_media env (VStr u)) w = Ok VNone
      /\ length (emitted (_upload_media env (VStr u)) w) = 2%nat
  end.
Proof.
  unfold emitted, outcome_of, world_after. rewrite upload_media_run.
  destruct (auth_headers env (poster w)) as [hdrs|e].
  2:{ cbn [snd]. rewrite drop_all. discriminate. }
  unfold upload_sequence. cbv zeta.
  repeat (case_step; cbv beta iota zeta); cbn [fst snd];
    rewrite ?emitted_log1, ?emitted_log2, ?emitted_log3;
    cbn [lookup list_lookup]; intros H0 H1 Hs Hl; simplify_eq;
    try (rewrite Hs in *; discriminate);
    try match goal with
      | H : build_upload_data _ = _ |- _ => rewrite H
      end;
    repeat match goal with
      | H1 : ?t = _, H2 : ?t = _ |- _ => rewrite H1 in H2; simplify_eq
      end; eauto.
Qed.

Lemma upload_after_download_witness :
  exists out3,
    emitted (_upload_media (scripted friendly) (VStr "https://host/a.jpg"))
      (world_with_token (VStr "tok")) !! 2%nat
    = Some (EvHttp
              (upload_request (scripted friendly) (VStr "//bucket.s3/amazon")
                 [(VStr "a", VStr "1")] ("a.jpg", "bytes", "image/jpeg"))
              out3).
Proof.
  refine (upload_after_download (scripted friendly) "https://host/a.jpg"
            (world_with_token (VStr "tok"))
            (lease_request (bearer_headers "tok") "a.jpg" "image/jpeg")
            (fetch_request "https://host/a.jpg")
            (json_response 200 lease_body) (text_response 200 "bytes")
            (VStr "//bucket.s3/amazon")
            (VList [VDict {[ "name" := VStr "a"; "value" := VStr "1" ]}])
            _ _ _ _).
  - vm_compute. reflexivity.
  - vm_compute. reflexivity.
  - reflexivity.
  - vm_compute. reflexivity.
Defined.

(* ------------------------------------------------------------------ *)
(** ** Credentials, tokens and file names *)
(* ------------------------------------------------------------------ *)

Lemma submit_poster (env : Env) (c : submission) (w : World) :
  poster (snd (submit env c w)) = poster (snd (ensure_token env w)).
Proof.
  destruct c as [s t x f | s t u x f | s t mu x f]; cbn [submit].
  - rewrite post_text_run.
    destruct (fst (ensure_token env w)) as [[]|e]; cbn [guarded snd];
      try reflexivity.
    apply submit_form_events.
  - rewrite post_link_run.
    destruct (fst (ensure_token env w)) as [[]|e]; cbn [guarded snd];
      try reflexivity.
    apply submit_form_events.
  - rewrite post_media_run.
    destruct (fst (ensure_token env w)) as [[]|e]; cbn [guarded snd];
      try reflexivity.
    unfold media_submission.
    destruct (upload_media_events env mu (snd (ensure_token env w))) as [Hp _].
    destruct (_upload_media env mu _) as [[up|e] w2]; cbn [snd] in *;
      [|exact Hp].
    destruct (truthy up); [|exact Hp].
    destruct mu; try exact Hp.
    rewrite <- Hp. apply submit_form_events.
Qed.

Lemma token_verdict_identity (out : http_outcome) (w : World) :
  same_identity (poster (snd (token_verdict out w))) (poster w).
Proof.
  unfold token_verdict, same_identity.
  repeat (case_step; cbv beta iota zeta); cbn; auto.
Qed.

Lemma token_verdict_changes (out : http_outcome) (w : World) :
  poster (snd (token_verdict out w)) <> poster w ->
  exists r d, out = Response r /\ status_code r = 200 /\ json r = Ok (VDict d).
Proof.
  unfold token_verdict. destruct out as [r|e]; [|intros H; now destruct H].
  destruct (Z.eqb_spec (status_code r) 200) as [Hs|];
    [|intros H; now destruct H].
  destruct (json r) as [[| | | | |d]|] eqn:Hj; try (intros H; now destruct H).
  intros _. exists r, d. auto.
Qed.

Lemma submit_trace_after_guard (env : Env) (c : submission) (w : World) :
  exists rest,
    trace (snd (submit env c w)) = trace (snd (ensure_token env w)) ++ rest.
Proof.
  assert (Hnil : forall w1 : World, exists rest : list event,
             trace w1 = trace w1 ++ rest).
  { intros w1. exists []. now rewrite app_nil_r. }
  destruct c as [s t x f | s t u x f | s t mu x f]; cbn [submit].
  - rewrite post_text_run.
    destruct (fst (ensure_token env w)) as [[]|e]; cbn [guarded snd]; auto.
    apply submit_form_trace.
  - rewrite post_link_run.
    destruct (fst (ensure_token env w)) as [[]|e]; cbn [guarded snd]; auto.
    apply submit_form_trace.
  - rewrite post_media_run.
    destruct (fst (ensure_token env w)) as [[]|e]; cbn [guarded snd]; auto.
    unfold media_submission.
    pose proof (upload_media_trace env mu (snd (ensure_token env w))) as Ht.
    destruct (_upload_media env mu _) as [[up|e] w2]; cbn [snd] in *; eauto.
    destruct (truthy up); eauto.
    destruct mu; eauto.
    destruct (submit_form_trace env
                (media_form s t up (media_kind s0) x f) w2) as [b Hb].
    exists (emitted (_upload_media env (VStr s0)) (snd (ensure_token env w)) ++ b).
    now rewrite Hb, Ht, <- app_assoc.
Qed.

Lemma submit_emitted_after_guard (env : Env) (c : submission) (w : World) :
  exists rest,
    emitted (submit env c) w = emitted (ensure_token env) w ++ rest.
Proof.
  destruct (submit_trace_after_guard env c w) as [rest Hrest].
  exists rest. unfold emitted at 1, world_after.
  now rewrite Hrest, ensure_token_trace, <- app_assoc, drop_app_length.
Qed.

Lemma ensure_token_without_token (env : Env) (w : World) :
  truthy (access_token (poster w)) = false ->
  ensure_token env w = authenticate env w.
Proof. intros H. now rewrite ensure_token_run, H. Qed.

(** X11.  A submission call keeps the credentials and the user agent of
    the poster.  With a stored token that counts as true the poster is
    unchanged.  If the poster changed, the token request of the call was
    answered 200 with an object, and the stored token and type are its
    [access_token] and its [token_type], [bearer] when absent. *)
Theorem submission_keeps_identity (env : Env) (c : submission) (w : World) :
  let after := poster (world_after (submit env c) w) in
  same_identity after (poster w)
  /\ (truthy (access_token (poster w)) = true -> after = poster w)
  /\ (after <> poster w ->
      exists req r d,
        In (EvHttp req (Response r)) (emitted (submit env c) w)
        /\ req = token_request (poster w)
        /\ status_code r = 200
        /\ json r = Ok (VDict d)
        /\ access_token after = default VNone (d !! "access_token")
        /\ token_type after = default (VStr "bearer") (d !! "token_type")).
Proof.
  cbv zeta. unfold world_after. rewrite submit_poster, ensure_token_run.
  destruct (truthy (access_token (poster w))) eqn:Htok.
  { cbn [snd]. unfold same_identity. repeat split; auto. now intros []. }
  split; [|split; [discriminate|]].
  - rewrite authenticate_run. cbv zeta. destruct (PyStr.is_ascii _).
    + eapply eq_ind; [apply token_verdict_identity|]. reflexivity.
    + cbn. unfold same_identity. auto.
  - intros Hchange.
    assert (Hsub : forall e, In e (emitted (authenticate env) w) ->
                             In e (emitted (submit env c) w)).
    { intros e He.
      destruct (submit_emitted_after_guard env c w) as [rest ->].
      apply in_or_app. left. unfold emitted, world_after.
      rewrite (ensure_token_without_token _ _ Htok). exact He. }
    revert Hchange. rewrite authenticate_run. cbv zeta.
    destruct (PyStr.is_ascii _) eqn:Hascii; [|now intros []].
    intros Hchange.
    destruct (token_verdict_changes _ _ Hchange) as (r & d & Hout & Hs & Hj).
    exists (token_request (poster w)), r, d. split.
    { apply Hsub. rewrite authenticate_emitted, Hascii.
      cbn [log trace] in Hout. rewrite Hout. right. left. reflexivity. }
    split; [reflexivity|]. split; [exact Hs|]. split; [exact Hj|].
    rewrite Hout. unfold token_verdict. rewrite Hs, Hj. split; reflexivity.
Qed.

Lemma submission_keeps_identity_witness :
  poster (world_after (submit (scripted friendly) sample_text_post)
            (world_with_token (VStr "tok")))
  = poster (world_with_token (VStr "tok")).
Proof.
  refine (proj1 (proj2
            (submission_keeps_identity (scripted friendly) sample_text_post
               (world_with_token (VStr "tok")))) _).
  reflexivity.
Defined.

Lemma submit_form_unauthenticated (env : Env) (data : form) (w : World) :
  truthy (access_token (poster w)) = false ->
  submit_form env data w = (Ok VNone, w).
Proof.
  intros H. unfold submit_form, auth_headers. now rewrite H.
Qed.

Lemma upload_media_unauthenticated (env : Env) (media_url : value) (w : World) :
  truthy (access_token (poster w)) = false ->
  _upload_media env media_url w = (Ok VNone, w).
Proof.
  intros H. destruct media_url as [| | |u| |];
    try (apply upload_media_not_str; discriminate).
  rewrite upload_media_run. unfold auth_headers. now rewrite H.
Qed.

(** X12.  If the stored token still counts as false when the guard is
    through, a submission call returns [None] with no event beyond those
    of the guard, and [_upload_media] in that state returns [None] and
    leaves the world as it is. *)
Theorem submission_without_token (env : Env) (c : submission) (w : World) :
  truthy (access_token (poster (world_after (ensure_token env) w))) = false ->
  outcome_of (submit env c) w = Ok VNone
  /\ emitted (submit env c) w = emitted (ensure_token env) w
  /\ (forall media_url,
        _upload_media env media_url (world_after (ensure_token env) w)
        = (Ok VNone, world_after (ensure_token env) w)).
Proof.
  unfold outcome_of, emitted, world_after. intros Htok.
  split; [|split].
  - destruct (ensure_token_never_raises env w) as [go Hgo].
    destruct c as [s t x f | s t u x f | s t mu x f]; cbn [submit].
    + rewrite post_text_run, Hgo. destruct go; cbn [guarded]; [|reflexivity].
      now rewrite submit_form_unauthenticated.
    + rewrite post_link_run, Hgo. destruct go; cbn [guarded]; [|reflexivity].
      now rewrite submit_form_unauthenticated.
    + rewrite post_media_run, Hgo. destruct go; cbn [guarded]; [|reflexivity].
      unfold media_submission. now rewrite upload_media_unauthenticated.
  - f_equal. f_equal.
    destruct (ensure_token_never_raises env w) as [go Hgo].
    destruct c as [s t x f | s t u x f | s t mu x f]; cbn [submit].
    + rewrite post_text_run, Hgo. destruct go; cbn [guarded]; [|reflexivity].
      now rewrite submit_form_unauthenticated.
    + rewrite post_link_run, Hgo. destruct go; cbn [guarded]; [|reflexivity].
      now rewrite submit_form_unauthenticated.
    + rewrite post_media_run, Hgo. destruct go; cbn [guarded]; [|reflexivity].
      unfold media_submission. now rewrite upload_media_unauthenticated.
  - intros media_url. now apply upload_media_unauthenticated.
Qed.

Lemma submission_without_token_witness :
  outcome_of (submit (scripted (hostile 401)) sample_media_post)
    (world_with_token VNone) = Ok VNone
  /\ emitted (submit (scripted (hostile 401)) sample_media_post)
       (world_with_token VNone)
     = emitted (ensure_token (scripted (hostile 401))) (world_with_token VNone).
Proof.
  refine (let H := submission_without_token (scripted (hostile 401))
                     sample_media_post (world_with_token VNone) _ in
          conj (proj1 H) (proj1 (proj2 H))).
  vm_compute. reflexivity.
Defined.

(** X13.  After [authenticate] was answered 200 with an object whose
    [access_token] is a non-empty string and whose [token_type] is a
    string, a following submission call sends its submission with the
    capitalised type and the token as [Authorization], the user agent of
    the poster and the form content type, and does not authenticate
    again. *)
Theorem stored_token_is_sent (env : Env) (w : World) (req : request)
    (r : response) (d : gmap string value) (tok ty : string)
    (c : submission) (req' : request) (out' : http_outcome) :
  In (EvHttp req (Response r)) (emitted (authenticate env) w) ->
  status_code r = 200 ->
  json r = Ok (VDict d) ->
  d !! "access_token" = Some (VStr tok) ->
  tok <> EmptyString ->
  default (VStr "bearer") (d !! "token_type") = VStr ty ->
  let w' := world_after (authenticate env) w in
  In (EvHttp req' out') (emitted (submit env c) w') ->
  is_submission req' ->
  headers req'
  = [("Authorization", PyStr.capitalize ty +:+ " " +:+ tok);
     ("User-Agent", user_agent (poster w));
     ("Content-Type", "application/x-www-form-urlencoded")]
  /\ ~ In AuthAttempt (emitted (submit env c) w').
Proof.
  intros Hin Hs Hj Htok Hne Hty. cbv zeta. unfold world_after.
  rewrite (authenticate_exchange _ _ _ _ Hin). unfold token_verdict.
  rewrite Hs, Hj, Htok, Hty. cbn [Z.eqb Pos.eqb snd default from_option id].
  set (w' := with_token_type _ _).
  assert (Htrue : truthy (access_token (poster w')) = true).
  { cbn. destruct tok; [now destruct Hne | reflexivity]. }
  intros Hin' Hsub. split.
  - destruct (submit_exchanges env c w' req' out' Hin')
      as [[Hf _] | [(hdrs & fm & Hh & -> & _) | (hdrs & u & _ & _ & Hex)]].
    + rewrite Htrue in Hf. discriminate.
    + rewrite ensure_token_run, Htrue in Hh. cbn [snd] in Hh.
      unfold auth_headers in Hh. rewrite Htrue in Hh. cbn in Hh.
      injection Hh as <-. reflexivity.
    + now destruct (upload_exchange_not_submission _ _ _ _ Hex Hsub).
  - destruct (submit_guarded env c) as (k & -> & Hemits & _).
    now apply guard_with_token.
Qed.

Lemma stored_token_is_sent_witness :
  headers sample_text_request = bearer_headers "tok".
Proof.
  refine (proj1
            (stored_token_is_sent (scripted friendly) (world_with_token VNone)
               (token_request (poster (world_with_token VNone)))
               (json_response 200 (VDict {[ "access_token" := VStr "tok" ]}))
               {[ "access_token" := VStr "tok" ]} "tok" "bearer"
               sample_text_post sample_text_request
               (Response (json_response 200 submitted_body))
               _ _ _ _ _ _ _ _)).
  - vm_compute. right. left. reflexivity.
  - reflexivity.
  - reflexivity.
  - reflexivity.
  - discriminate.
  - reflexivity.
  - vm_compute. left. reflexivity.
  - vm_compute. auto.
Defined.

(** X14.  If the client id or secret holds a character that is not ASCII,
    [authenticate] returns [False], sends no request and leaves the
    poster as it was; without a stored token every submission call then
    returns [None] and its only event is the authentication attempt. *)
Theorem non_ascii_credentials (env : Env) (w : World) :
  PyStr.is_ascii (client_id (poster w) +:+ ":" +:+ client_secret (poster w))
  = false ->
  outcome_of (authenticate env) w = Ok false
  /\ emitted (authenticate env) w = [AuthAttempt]
  /\ poster (world_after (authenticate env) w) = poster w
  /\ (truthy (access_token (poster w)) = false ->
      forall c,
        outcome_of (submit env c) w = Ok VNone
        /\ emitted (submit env c) w = [AuthAttempt]).
Proof.
  intros Hascii.
  assert (Hrun : authenticate env w = (Ok false, log AuthAttempt w)).
  { rewrite authenticate_run. cbv zeta. now rewrite Hascii. }
  assert (Hem : emitted (authenticate env) w = [AuthAttempt]).
  { now rewrite authenticate_emitted, Hascii. }
  unfold outcome_of, world_after. rewrite Hrun. cbn [fst snd].
  split; [reflexivity|]. split; [exact Hem|]. split; [reflexivity|].
  intros Htok c.
  assert (Hafter : truthy (access_token
                     (poster (world_after (ensure_token env) w))) = false).
  { unfold world_after.
    rewrite (ensure_token_without_token _ _ Htok), Hrun. exact Htok. }
  assert (Hens : emitted (ensure_token env) w = [AuthAttempt]).
  { unfold emitted, world_after in *.
    rewrite (ensure_token_without_token _ _ Htok). exact Hem. }
  rewrite <- Hens.
  destruct (ensure_token_never_raises env w) as [go Hgo].
  unfold emitted, world_after in *.
  destruct c as [s t x f | s t u x f | s t mu x f]; cbn [submit].
  - rewrite post_text_run, Hgo. destruct go; cbn [guarded]; auto.
    now rewrite submit_form_unauthenticated.
  - rewrite post_link_run, Hgo. destruct go; cbn [guarded]; auto.
    now rewrite submit_form_unauthenticated.
  - rewrite post_media_run, Hgo. destruct go; cbn [guarded]; auto.
    unfold media_submission. now rewrite upload_media_unauthenticated.
Qed.

Lemma non_ascii_credentials_witness :
  outcome_of (authenticate (scripted friendly)) world_with_accented_id = Ok false
  /\ emitted (authenticate (scripted friendly)) world_with_accented_id
     = [AuthAttempt].
Proof.
  refine (let H := non_ascii_credentials (scripted friendly)
                     world_with_accented_id _ in
          conj (proj1 H) (proj1 (proj2 H))).
  vm_compute. reflexivity.
Defined.

(* File name and MIME type of the lease *)

Lemma no_slash_cons (c : ascii) (s : string) :
  (forall n, ~ occurs "/" (String c s) n) ->
  Ascii.eqb c "/" = false /\ forall n, ~ occurs "/" s n.
Proof.
  intros H. split.
  - destruct (Ascii.eqb_spec c "/") as [->|]; [|reflexivity].
    destruct (H 0%nat). exists EmptyString, s. split; reflexivity.
  - intros n Hn. apply (H (S n)). now apply occurs_succ.
Qed.

Lemma last_segment_from_no_slash (cur s : string) :
  (forall n, ~ occurs "/" s n) ->
  PyStr.last_segment_from cur s = cur +:+ s.
Proof.
  revert cur. induction s as [|c s IH]; intros cur H; cbn [PyStr.last_segment_from].
  - now rewrite sapp_nil_r.
  - destruct (no_slash_cons _ _ H) as [Hc Hs]. rewrite Hc, (IH _ Hs).
    now rewrite sapp_assoc.
Qed.

Lemma last_segment_from_slash (cur p seg : string) :
  PyStr.last_segment_from cur (p +:+ "/" +:+ seg)
  = PyStr.last_segment_from EmptyString ("/" +:+ seg)
  \/ PyStr.last_segment_from cur (p +:+ "/" +:+ seg)
     = PyStr.last_segment_from EmptyString seg.
Proof.
  right. revert cur. induction p as [|c p IH]; intros cur.
  - reflexivity.
  - rewrite sapp_cons. cbn [PyStr.last_segment_from].
    destruct (Ascii.eqb c "/"); apply IH.
Qed.

Lemma slash_head (c : ascii) (s : string) :
  occurs "/" (String c s) 0 -> Ascii.eqb c "/" = true.
Proof.
  intros (a & b & H & Ha). destruct a; [|discriminate].
  rewrite sapp_nil_l in H. change ("/" +:+ b) with (String "/" b) in H.
  injection H as -> _. reflexivity.
Qed.

Lemma no_slash_snoc (cur : string) (c : ascii) :
  (forall n, ~ occurs "/" cur n) ->
  Ascii.eqb c "/" = false ->
  forall n, ~ occurs "/" (cur +:+ String c EmptyString) n.
Proof.
  intros Hcur Hc. induction cur as [|x cur IH]; intros n Hn.
  - rewrite sapp_nil_l in Hn. destruct n as [|n].
    + apply slash_head in Hn. congruence.
    + apply occurs_succ in Hn. destruct Hn as (a & b & H & _).
      destruct a; discriminate.
  - rewrite sapp_cons in Hn. destruct (no_slash_cons _ _ Hcur) as [Hx Hrest].
    destruct n as [|n].
    + apply slash_head in Hn. congruence.
    + apply occurs_succ in Hn. exact (IH Hrest n Hn).
Qed.

Lemma last_segment_from_slash_free (cur s : string) :
  (forall n, ~ occurs "/" cur n) ->
  forall n, ~ occurs "/" (PyStr.last_segment_from cur s) n.
Proof.
  revert cur. induction s as [|c s IH]; intros cur Hcur;
    cbn [PyStr.last_segment_from]; [exact Hcur|].
  destruct (Ascii.eqb c "/") eqn:Hc.
  - apply IH. intros n (a & b & H & _). destruct a; discriminate.
  - apply IH. now apply no_slash_snoc.
Qed.

(** X15.  The file name of the lease is the part of the media URL after
    its last slash, the whole URL when it has no slash, and [media.jpg]
    when that part is empty; it is never empty and holds no slash. *)
Theorem lease_filename_is_last_segment :
  (forall p seg,
      (forall n, ~ occurs "/" seg n) ->
      lease_filename (p +:+ "/" +:+ seg)
      = if String.eqb seg "" then "media.jpg" else seg)
  /\ (forall u,
        (forall n, ~ occurs "/" u n) ->
        lease_filename u = if String.eqb u "" then "media.jpg" else u)
  /\ (forall u,
        lease_filename u <> EmptyString
        /\ forall n, ~ occurs "/" (lease_filename u) n).
Proof.
  split; [|split].
  - intros p seg Hseg. unfold lease_filename, PyStr.last_segment.
    destruct (last_segment_from_slash EmptyString p seg) as [H | H].
    + rewrite H. cbn [PyStr.last_segment_from].
      change (("/" +:+ seg)) with (String "/" seg).
      cbn [PyStr.last_segment_from]. cbn [Ascii.eqb Bool.eqb andb].
      now rewrite (last_segment_from_no_slash _ _ Hseg).
    + now rewrite H, (last_segment_from_no_slash _ _ Hseg).
  - intros u Hu. unfold lease_filename, PyStr.last_segment.
    now rewrite (last_segment_from_no_slash _ _ Hu).
  - intros u. unfold lease_filename.
    destruct (String.eqb_spec (PyStr.last_segment u) "") as [E | E].
    + split; [discriminate|]. apply find_no_occurrence. reflexivity.
    + split; [exact E|]. apply last_segment_from_slash_free.
      intros n (a & b & H & _). destruct a; discriminate.
Qed.

Lemma lease_filename_is_last_segment_witness :
  lease_filename ("https://host" +:+ "/" +:+ "a.jpg") = "a.jpg".
Proof.
  refine (proj1 lease_filename_is_last_segment "https://host" "a.jpg" _).
  apply find_no_occurrence. vm_compute. reflexivity.
Defined.

(* ------------------------------------------------------------------ *)
(** ** Exceptions, the complete upload, a fresh poster *)
(* ------------------------------------------------------------------ *)

(** X16.  [_upload_media] and the three submission methods never raise:
    every call returns a value, whatever its arguments, the state of the
    poster and the answers of the remote side. *)
Theorem posting_never_raises (env : Env) (w : World) :
  (forall media_url,
     exists v, outcome_of (_upload_media env media_url) w = Ok v)
  /\ (forall c, exists res, outcome_of (submit env c) w = Ok res).
Proof.
  split.
  - intros media_url. apply upload_media_never_raises.
  - intros c. apply submit_never_raises.
Qed.

(** X17.  If [_upload_media] returns a value that counts as true, the media
    URL is a string, the headers were built, the events of the run are the
    lease request, the download and the upload of the downloaded content,
    each answered 200, the value is the location extracted from the last
    response, and the poster is unchanged. *)
Theorem upload_success (env : Env) (media_url v : value) (w : World) :
  outcome_of (_upload_media env media_url) w = Ok v ->
  truthy v = true ->
  exists u hdrs r1 r2 r3 action fields upload_data location,
    media_url = VStr u
    /\ auth_headers env (poster w) = Ok hdrs
    /\ emitted (_upload_media env media_url) w
       = [EvHttp (lease_request hdrs (lease_filename u)
                    (lease_mime_type env (lease_filename u)))
            (Response r1);
          EvHttp (fetch_request u) (Response r2);
          EvHttp (upload_request env action upload_data
                    (lease_filename u, content r2,
                     lease_mime_type env (lease_filename u)))
            (Response r3)]
    /\ status_code r1 = 200 /\ status_code r2 = 200 /\ status_code r3 = 200
    /\ lease_terms r1 = Some (action, fields)
    /\ build_upload_data fields = Ok upload_data
    /\ extract_location (text r3) = Some location
    /\ v = VStr location
    /\ poster (world_after (_upload_media env media_url) w) = poster w.
Proof.
  intros Hres Htrue.
  assert (Hp : poster (world_after (_upload_media env media_url) w) = poster w)
    by apply upload_media_events.
  revert Hres Hp. unfold outcome_of, emitted, world_after.
  destruct media_url as [| | |u| |];
    try (rewrite upload_media_not_str by discriminate; cbn [fst];
         intros H; simplify_eq; discriminate Htrue).
  rewrite upload_media_run.
  destruct (auth_headers env (poster w)) as [hdrs|e];
    [|cbn [fst]; intros H; simplify_eq; discriminate Htrue].
  unfold upload_sequence, located. cbv zeta.
  repeat (case_step; cbv beta iota zeta); cbn [fst snd];
    rewrite ?emitted_log1, ?emitted_log2, ?emitted_log3;
    intros H Hp; simplify_eq; try discriminate Htrue.
  repeat match goal with
         | H : negb (status_code ?r =? 200) = false |- _ =>
             apply negb_false_iff, Z.eqb_eq in H
         end.
  eexists u, hdrs, _, _, _, _, _, _, _.
  repeat (split; [first [reflexivity | eassumption]|]).
  exact Hp.
Qed.

Lemma upload_success_witness :
  length (emitted (_upload_media (scripted friendly) (VStr "https://host/a.jpg"))
            (world_with_token (VStr "tok"))) = 3%nat.
Proof.
  destruct (upload_success (scripted friendly) (VStr "https://host/a.jpg")
              (VStr "https://cdn/x.jpg") (world_with_token (VStr "tok")))
    as (u & hdrs & r1 & r2 & r3 & action & fields & upload_data & location
        & _ & _ & Hem & _).
  - vm_compute. reflexivity.
  - reflexivity.
  - rewrite Hem. reflexivity.
Defined.

(** X18.  For a poster as [__init__] builds it, a submission call starts
    with an authentication attempt, and when the client id and secret are
    ASCII the next event is the token request, with the Basic
    authorization of the two, the given user agent or the default one
    made from the user name, and the password grant of the user. *)
Theorem fresh_poster_authenticates_first (env : Env)
    (id secret user pw : string) (ua : option string) (c : submission)
    (before : list event) :
  let w := {| poster := new_poster id secret user pw ua; trace := before |} in
  let agent :=
    match ua with
    | None => "LivePosting/1.0 (by /u/" +:+ user +:+ ")"
    | Some given => given
    end in
  let req :=
    {| method := "POST";
       url := "https://www.reddit.com/api/v1/access_token";
       headers :=
         [("Authorization", "Basic " +:+ PyStr.b64encode (id +:+ ":" +:+ secret));
          ("User-Agent", agent);
          ("Content-Type", "application/x-www-form-urlencoded")];
       data :=
         [(VStr "grant_type", VStr "password");
          (VStr "username", VStr user);
          (VStr "password", VStr pw)];
       files := None;
       timeout := 30 |} in
  exists rest,
    emitted (submit env c) w = AuthAttempt :: rest
    /\ (PyStr.is_ascii (id +:+ ":" +:+ secret) = true ->
        exists later,
          rest = EvHttp req (http env (before ++ [AuthAttempt]) req) :: later).
Proof.
  cbv zeta.
  set (w := {| poster := new_poster id secret user pw ua; trace := before |}).
  destruct (submit_emitted_after_guard env c w) as [tail Htail].
  assert (Hens : emitted (ensure_token env) w = emitted (authenticate env) w).
  { unfold emitted, world_after.
    now rewrite (ensure_token_without_token env w eq_refl). }
  rewrite Htail, Hens, authenticate_emitted.
  change (client_id (poster w)) with id.
  change (client_secret (poster w)) with secret.
  destruct (PyStr.is_ascii (id +:+ ":" +:+ secret)).
  - eexists. split; [reflexivity|]. intros _. exists tail. reflexivity.
  - eexists. split; [reflexivity|]. discriminate.
Qed.

Lemma fresh_poster_authenticates_first_witness :
  exists rest,
    emitted (submit (scripted friendly) sample_text_post)
      {| poster := new_poster "id" "secret" "user" "pw" None; trace := [] |}
    = AuthAttempt :: rest.
Proof.
  destruct (fresh_poster_authenticates_first (scripted friendly)
              "id" "secret" "user" "pw" None sample_text_post [])
    as (rest & H & _).
  exists rest. exact H.
Defined.

(* ------------------------------------------------------------------ *)
(** ** The server: building the poster, the handler *)
(* ------------------------------------------------------------------ *)

Lemma emits_any_authenticate (env : Env) :
  emits (fun _ => True) (authenticate env).
Proof.
  unfold authenticate.
  repeat first
    [ apply emits_modify_log; exact I
    | apply emits_send; intros; exact I
    | emits_step ].
Qed.

Lemma emits_any_handle_post (env : Env) (get_json : pyresult value) :
  emits (fun _ => True) (handle_post env get_json).
Proof.
  unfold handle_post, or_default_subreddit, publish, respond, post_text,
    post_link, post_media, ensure_token.
  repeat first
    [ apply emits_any_authenticate
    | apply emits_get_headers; intros; exact I
    | apply emits_requests_post; intros; exact I
    | apply emits_read_submission; intros; exact I
    | apply emits_upload_media; intros; exact I
    | emits_step ].
Qed.

Lemma handle_post_unread (env : Env) (e : exn) (w : World) :
  handle_post env (Raise e) w = (Ok (error_reply (exn_message e) 500), w).
Proof. reflexivity. Qed.

Lemma serving_eta (s : Server) (self : RedditAutoPoster) :
  global_poster s = Some self ->
  serving {| poster := self; trace := history s |} = s.
Proof. destruct s as [g h]. cbn. now intros ->. Qed.

(** The three ways a run of the handler can go. *)
Lemma entered_cases (env : Env) (m : M reply) (s : Server) :
  (exists w,
      started env s = Some w
      /\ entered env m s = Some (fst (m w), serving (snd (m w))))
  \/ (started env s = None /\ global_poster s = None
      /\ exists e s',
           init_poster env s = Some (Raise e, s')
           /\ entered env m s
              = Some (Ok (error_reply
                            ("Failed to initialize poster: " +:+ exn_message e)
                            500), s'))
  \/ (started env s = None /\ global_poster s = None
      /\ init_poster env s = None /\ entered env m s = None).
Proof.
  unfold entered, started, on_poster, serving.
  destruct (global_poster s) as [self|].
  - left. eexists. split; [reflexivity|].
    now destruct (m _) as [r w].
  - destruct (init_poster env s) as [[[self|e] s']|].
    + left. eexists. split; [reflexivity|]. now destruct (m _) as [r w].
    + right. left. repeat split. now exists e, s'.
    + right. right. auto.
Qed.

(** Building the poster makes no submission. *)
Lemma init_poster_events (env : Env) (s s' : Server)
    (res : pyresult RedditAutoPoster) :
  init_poster env s = Some (res, s') ->
  exists pre,
    history s' = history s ++ pre
    /\ (forall key v, Forall (carries key v) pre)
    /\ drop (length (history s)) (history s') = pre.
Proof.
  intros Hinit.
  assert (Hnil : forall h : list event,
             exists pre, h = h ++ pre
               /\ (forall key v, Forall (carries key v) pre)
               /\ drop (length h) h = pre).
  { intros h. exists []. rewrite app_nil_r, drop_all. repeat split. constructor. }
  unfold init_poster in Hinit.
  destruct (load_config env) as [config|];
    [|injection Hinit as _ <-; apply Hnil].
  destruct (missing_keys _ _) as [[|]|];
    try (injection Hinit as _ <-; apply Hnil).
  destruct (constructor_arguments _) as [args|];
    try (injection Hinit as _ <-; apply Hnil).
  destruct (construct args) as [self|]; [|discriminate].
  pose proof (authenticate_trace env {| poster := self; trace := history s |})
    as Ht.
  assert (Hc : forall key v,
             Forall (carries key v)
               (emitted (authenticate env)
                  {| poster := self; trace := history s |})).
  { intros key v. apply Forall_forall. intros ev Hev.
    apply list_elem_of_In in Hev.
    exact (emits_In _ _ _ ev (carries_authenticate env key v) Hev). }
  unfold world_after in Ht.
  destruct (authenticate env _) as [[[]|e'] w1]; cbn [snd] in Ht;
    injection Hinit as _ <-; cbn [history trace] in *;
    (eexists; split; [exact Ht|]; split; [exact Hc|]);
    rewrite Ht; apply drop_app_length.
Qed.

(** What precedes the [try] block carries no submission. *)
Lemma started_prelude (env : Env) (s : Server) (w : World) :
  started env s = Some w ->
  exists pre,
    trace w = history s ++ pre
    /\ (forall key v, Forall (carries key v) pre)
    /\ (global_poster s <> None -> pre = []).
Proof.
  unfold started.
  destruct (global_poster s) as [self|] eqn:Hg.
  - intros H. injection H as <-. exists []. cbn [trace].
    rewrite app_nil_r. repeat split; auto.
  - destruct (init_poster env s) as [[[self|e] s']|] eqn:Hinit;
      try discriminate.
    destruct (init_poster_events env s s' _ Hinit) as (pre & Hpre & Hc & _).
    intros H. injection H as <-. cbn [trace].
    exists pre. split; [exact Hpre|]. split; [exact Hc|]. now intros [].
Qed.

Lemma entered_started (env : Env) (m : M reply) (s : Server) (w : World) :
  started env s = Some w ->
  emits (fun _ => True) m ->
  exists pre,
    trace w = history s ++ pre
    /\ (forall key v, Forall (carries key v) pre)
    /\ (global_poster s <> None -> pre = [])
    /\ entered env m s = Some (fst (m w), serving (snd (m w)))
    /\ answer (entered env m) s = Some (outcome_of m w)
    /\ sent (entered env m) s = pre ++ emitted m w.
Proof.
  intros Hw Hm.
  destruct (started_prelude env s w Hw) as (pre & Hpre & Hc & Hnil).
  exists pre. split; [exact Hpre|]. split; [exact Hc|]. split; [exact Hnil|].
  destruct (entered_cases env m s)
    as [(w' & Hw' & Hrun) | [(Hn & _) | (Hn & _)]]; try congruence.
  assert (w' = w) by congruence. subst w'.
  split; [exact Hrun|]. unfold answer, sent. rewrite Hrun.
  split; [reflexivity|]. cbn [serving history].
  pose proof (emits_trace _ m w Hm) as Ht. unfold world_after in Ht.
  rewrite Ht, Hpre, <- app_assoc. apply drop_app_length.
Qed.

Lemma last_after (l1 l2 : list event) (e : event) :
  last l2 = Some e -> last (l1 ++ l2) = Some e.
Proof.
  intros H. destruct l2 as [|x l2]; [discriminate|].
  rewrite last_app. now rewrite H.
Qed.

Lemma answer_post (env : Env) (get_json : pyresult value) (s : Server) :
  answer (post_to_reddit env get_json) s
  = answer (entered env (handle_post env get_json)) s.
Proof. reflexivity. Qed.

Lemma sent_post (env : Env) (get_json : pyresult value) (s : Server) :
  sent (post_to_reddit env get_json) s
  = sent (entered env (handle_post env get_json)) s.
Proof. reflexivity. Qed.

(** X1.  The handler lets no exception escape.  It always returns when
    the poster is built, and whatever it returns is a reply with status
    200, 400 or 500.  The status is 400 exactly when the [try] block was
    reached and [get_json] returned a falsy value or an object whose
    [title] is absent or falsy; the state is then the one in which the
    block started.  When [get_json] raises, the reply is 500 with the
    message of the exception, and the state is again the one in which the
    block started.  When the poster cannot be built, the reply is 500 with
    the message of the failure to initialize. *)
Theorem handler_rejects_only_invalid_bodies (env : Env)
    (get_json : pyresult value) (s : Server) :
  (global_poster s <> None -> post_to_reddit env get_json s <> None)
  /\ forall res s',
      post_to_reddit env get_json s = Some (res, s') ->
      exists rep,
        res = Ok rep
        /\ (reply_status rep = 200 \/ reply_status rep = 400
            \/ reply_status rep = 500)
        /\ (reply_status rep = 400 <->
            started env s <> None
            /\ exists data,
                 get_json = Ok data
                 /\ (truthy data = false
                     \/ exists d,
                          data = VDict d /\ truthy (field d "title") = false))
        /\ (reply_status rep = 400 ->
            exists w, started env s = Some w /\ s' = serving w)
        /\ (forall e w,
              get_json = Raise e -> started env s = Some w ->
              rep = error_reply (exn_message e) 500 /\ s' = serving w)
        /\ (started env s = None ->
            exists e,
              init_poster env s = Some (Raise e, s')
              /\ rep = error_reply
                         ("Failed to initialize poster: " +:+ exn_message e) 500).
Proof.
  split.
  - intros Hg. rewrite post_to_reddit_entered.
    destruct (entered_cases env (handle_post env get_json) s)
      as [(w & _ & ->) | [(_ & Hn & _) | (_ & Hn & _)]]; congruence.
  - intros res s'. rewrite post_to_reddit_entered.
    destruct (entered_cases env (handle_post env get_json) s)
      as [(w & Hw & ->) | [(Hn & Hg & e & s1 & Hinit & ->) | (_ & _ & _ & ->)]];
      [| |discriminate].
    + intros H. injection H as <- <-. rewrite Hw.
      destruct get_json as [data|e].
      * destruct (handle_post_replies env data w)
          as (rep & Hrep & Hst & H400 & Hsame).
        unfold outcome_of, world_after in *.
        exists rep. split; [exact Hrep|]. split; [exact Hst|].
        split; [|split; [|split]].
        -- rewrite H400. split.
           ++ intros H. split; [discriminate|]. now exists data.
           ++ intros (_ & data' & E & H). now injection E as <-.
        -- intros H. exists w. split; [reflexivity|]. now rewrite (Hsame H).
        -- discriminate.
        -- discriminate.
      * rewrite handle_post_unread. cbn [fst snd].
        eexists. split; [reflexivity|]. split; [cbn; auto|].
        split; [|split; [|split]].
        -- split; [discriminate|]. intros (_ & data & E & _). discriminate.
        -- discriminate.
        -- intros e' w' E Hw'. injection E as <-. injection Hw' as <-.
           split; reflexivity.
        -- discriminate.
    + intros H. injection H as <- <-. rewrite Hn.
      eexists. split; [reflexivity|]. split; [cbn; auto|].
      split; [|split; [|split]].
      * split; [discriminate|]. now intros [H _].
      * discriminate.
      * discriminate.
      * intros _. now exists e.
Qed.

Lemma handler_rejects_only_invalid_bodies_witness :
  exists rep,
    Ok (error_reply "415 Unsupported Media Type" 500) = Ok rep
    /\ (reply_status rep = 200 \/ reply_status rep = 400
        \/ reply_status rep = 500).
Proof.
  destruct (proj2 (handler_rejects_only_invalid_bodies (scripted friendly)
                     (Raise (LibraryError "415 Unsupported Media Type"))
                     (serving (world_with_token (VStr "tok"))))
              (Ok (error_reply "415 Unsupported Media Type" 500))
              (serving (world_with_token (VStr "tok"))) eq_refl)
    as (rep & Hrep & Hst & _).
  exists rep. split; [exact Hrep | exact Hst].
Defined.

(** X2.  When the handler replies 200: the body was an object, a subreddit
    was resolved, the last event of the run is a submission answered 200
    with an object whose [json] member has no errors and an object [data],
    and the reply is the success reply built from that [data]: its [id],
    its [name], and [https://reddit.com] followed by its [permalink]. *)
Theorem handler_success_reply (env : Env) (get_json : pyresult value)
    (s : Server) (rep : reply) :
  answer (post_to_reddit env get_json) s = Some (Ok rep) ->
  reply_status rep = 200 ->
  exists d sr req r body envelope post_data,
    get_json = Ok (VDict d)
    /\ resolved_subreddit env (field d "subreddit") = Some sr
    /\ last (sent (post_to_reddit env get_json) s)
       = Some (EvHttp req (Response r))
    /\ is_submission req
    /\ status_code r = 200
    /\ json r = Ok (VDict body)
    /\ default (VDict ∅) (body !! "json") = VDict envelope
    /\ truthy (default VNone (envelope !! "errors")) = false
    /\ default (VDict ∅) (envelope !! "data") = VDict post_data
    /\ rep = success_reply env post_data.
Proof.
  intros Hrep Hstatus. rewrite answer_post in Hrep. rewrite sent_post.
  destruct (entered_cases env (handle_post env get_json) s)
    as [(w & Hw & _) | [(_ & _ & e & s1 & _ & Hrun) | (_ & _ & _ & Hrun)]].
  2,3: unfold answer in Hrep; rewrite Hrun in Hrep;
       try discriminate; injection Hrep as <-; discriminate.
  destruct (entered_started env _ s w Hw (emits_any_handle_post env get_json))
    as (pre & _ & _ & _ & _ & Hans & Hsent).
  rewrite Hans in Hrep. rewrite Hsent. injection Hrep as Hrep.
  destruct get_json as [data|e].
  2:{ unfold outcome_of in Hrep. rewrite handle_post_unread in Hrep.
      injection Hrep as <-. discriminate. }
  destruct (handle_post_success env data w rep Hrep Hstatus)
    as (d & sr & req & r & body & envelope & pd & -> & Hsr & Hlast & Hrest).
  exists d, sr, req, r, body, envelope, pd.
  split; [reflexivity|]. split; [exact Hsr|].
  split; [now apply last_after|]. exact Hrest.
Qed.

Lemma handler_success_reply_witness :
  exists req r,
    last (sent
            (post_to_reddit (scripted friendly)
               (Ok (VDict {[ "title" := VStr "T"; "text" := VStr "hi" ]})))
            (serving (world_with_token (VStr "tok"))))
    = Some (EvHttp req (Response r))
    /\ is_submission req
    /\ status_code r = 200.
Proof.
  destruct (handler_success_reply (scripted friendly)
              (Ok (VDict {[ "title" := VStr "T"; "text" := VStr "hi" ]}))
              (serving (world_with_token (VStr "tok")))
              (success_reply (scripted friendly)
                 {[ "id" := VStr "abc"; "name" := VStr "t3_abc";
                    "permalink" := VStr "/r/test/abc" ]}))
    as (_ & _ & req & r & _ & _ & _ & _ & _ & H1 & H2 & H3 & _).
  - vm_compute. reflexivity.
  - reflexivity.
  - exists req, r. auto.
Defined.

(** X3.  For a body with a title.  If the body has a subreddit, every
    submission sent carries it as [sr].  If it has none and the
    configuration is an object, every submission carries the
    [default_subreddit] of the configuration, or [test].  If it has none
    and the configuration cannot be read as an object, nothing is sent and
    the reply has status 500. *)
Theorem handler_subreddit (env : Env) (d : gmap string value) (s : Server) :
  truthy (field d "title") = true ->
  let events := sent (post_to_reddit env (Ok (VDict d))) s in
  let subreddit := field d "subreddit" in
  (truthy subreddit = true -> Forall (carries "sr" subreddit) events)
  /\ (truthy subreddit = false ->
      forall config, load_config env = Ok (VDict config) ->
      Forall (carries "sr" (default (VStr "test") (config !! "default_subreddit")))
        events)
  /\ (truthy subreddit = false ->
      (forall config, load_config env <> Ok (VDict config)) ->
      events = []
      /\ exists rep,
           answer (post_to_reddit env (Ok (VDict d))) s = Some (Ok rep)
           /\ reply_status rep = 500).
Proof.
  intros Htitle. cbv zeta. rewrite sent_post, answer_post.
  destruct (entered_cases env (handle_post env (Ok (VDict d))) s)
    as [(w & Hw & _) | [(_ & Hg & e & s1 & Hinit & Hrun) | (_ & _ & _ & Hrun)]].
  - destruct (entered_started env _ s w Hw
                (emits_any_handle_post env (Ok (VDict d))))
      as (pre & Hpre & Hc & Hnil & _ & Hans & Hsent).
    rewrite Hans, Hsent.
    destruct (handle_post_subreddit env d w Htitle) as (H1 & H2 & H3).
    split; [|split].
    + intros Hsub. apply Forall_app. split; [apply Hc | now apply H1].
    + intros Hsub config Hconfig. apply Forall_app.
      split; [apply Hc | now apply (H2 Hsub config)].
    + intros Hsub Hconfig. destruct (H3 Hsub Hconfig) as (Hnone & rep & Hrep & Hst).
      rewrite Hnone, app_nil_r.
      assert (Hbuilt : global_poster s <> None).
      { intros Hg. unfold started in Hw. rewrite Hg in Hw.
        unfold init_poster in Hw.
        destruct (load_config env) as [config|]; [|discriminate].
        destruct config as [| | | | |config];
          try discriminate. now destruct (Hconfig config). }
      split; [now apply Hnil|]. exists rep. now rewrite Hrep.
  - unfold sent, answer. rewrite Hrun.
    destruct (init_poster_events env s s1 _ Hinit) as (pre & _ & Hall & Hd).
    split; [intros _; rewrite Hd; apply Hall|].
    split; [intros _ config _; rewrite Hd; apply Hall|].
    intros Hsub Hconfig. clear Hd. unfold init_poster in Hinit.
    destruct (load_config env) as [[| | | | |config]|] eqn:Hcfg;
      try (injection Hinit as _ <-; rewrite drop_all;
           split; [reflexivity|]; eexists; split; reflexivity).
    now destruct (Hconfig config).
  - unfold sent, answer. rewrite Hrun. split; [constructor|].
    split; [constructor|]. intros Hsub Hconfig. exfalso.
    destruct (entered_cases env (handle_post env (Ok (VDict d))) s)
      as [(w & _ & E) | [(_ & _ & e & s1 & _ & E) | (_ & _ & Hinit & _)]];
      try congruence.
    unfold init_poster in Hinit.
    destruct (load_config env) as [[| | | | |config]|] eqn:Hcfg;
      try discriminate. now destruct (Hconfig config).
Qed.

Lemma handler_subreddit_witness :
  Forall (carries "sr" (VStr "test"))
    (sent (post_to_reddit (scripted friendly)
             (Ok (VDict {[ "title" := VStr "T" ]})))
       (serving (world_with_token (VStr "tok")))).
Proof.
  refine (proj1 (proj2
            (handler_subreddit (scripted friendly) {[ "title" := VStr "T" ]}
               (serving (world_with_token (VStr "tok"))) _)) _ ∅ _);
    reflexivity.
Defined.







Example explicit_media_published_as_text :
  exists req out rep,
    sent
      (post_to_reddit (scripted friendly)
         (Ok (VDict {[ "title" := VStr "T"; "text" := VStr "hi";
                       "post_type" := VStr "media" ]})))
      (serving (world_with_token (VStr "tok"))) = [EvHttp req out]
    /\ is_submission req
    /\ dict_lookup (data req) (VStr "kind") = Some (VStr "self")
    /\ answer
         (post_to_reddit (scripted friendly)
            (Ok (VDict {[ "title" := VStr "T"; "text" := VStr "hi";
                          "post_type" := VStr "media" ]})))
         (serving (world_with_token (VStr "tok"))) = Some (Ok rep)
    /\ reply_status rep = 200.
Proof.
  eexists _, _, _. split; [vm_compute; reflexivity|].
  repeat split; vm_compute; reflexivity.
Qed.

(* Building the poster *)

Lemma missing_keys_unfilled (config : gmap string value) :
  missing_keys (VDict config)
    ["client_id"; "client_secret"; "username"; "password"]
  = Ok (unfilled config).
Proof.
  unfold unfilled, placeholders, field.
  cbn [missing_keys py_get List.filter map fst snd].
  change ("YOUR_" +:+ PyStr.upper "client_id") with "YOUR_CLIENT_ID".
  change ("YOUR_" +:+ PyStr.upper "client_secret") with "YOUR_CLIENT_SECRET".
  change ("YOUR_" +:+ PyStr.upper "username") with "YOUR_USERNAME".
  change ("YOUR_" +:+ PyStr.upper "password") with "YOUR_PASSWORD".
  destruct (eq_str (default VNone (config !! "client_id")) _);
    destruct (eq_str (default VNone (config !! "client_secret")) _);
    destruct (eq_str (default VNone (config !! "username")) _);
    destruct (eq_str (default VNone (config !! "password")) _);
    reflexivity.
Qed.

(** X19.  If the configuration is an object that leaves a credential at
    its example value, [init_poster] raises the error that lists the
    credentials left so, in the order of [required_keys], and leaves the
    server as it was; the handler, entered without a poster, answers 500
    with that message and leaves the server as it was. *)
Theorem init_poster_unfilled_credentials (env : Env)
    (config : gmap string value) (s : Server) :
  load_config env = Ok (VDict config) ->
  unfilled config <> [] ->
  let message :=
    "Missing required configuration: " +:+ join ", " (unfilled config) in
  init_poster env s = Some (Raise (ValueError message), s)
  /\ (global_poster s = None ->
      forall get_json,
        post_to_reddit env get_json s
        = Some (Ok (error_reply ("Failed to initialize poster: " +:+ message)
                      500), s)).
Proof.
  intros Hconfig Hmissing. cbv zeta.
  assert (Hinit : init_poster env s
                  = Some (Raise (ValueError
                            ("Missing required configuration: "
                             +:+ join ", " (unfilled config))), s)).
  { unfold init_poster. rewrite Hconfig, missing_keys_unfilled.
    destruct (unfilled config); [now destruct Hmissing | reflexivity]. }
  split; [exact Hinit|].
  intros Hg get_json. unfold post_to_reddit. now rewrite Hg, Hinit.
Qed.

Lemma init_poster_unfilled_credentials_witness :
  post_to_reddit (configured (VDict example_config) friendly) (Ok VNone)
    fresh_server
  = Some (Ok (error_reply
                ("Failed to initialize poster: "
                 +:+ "Missing required configuration: "
                 +:+ "client_id, client_secret, username, password") 500),
          fresh_server).
Proof.
  assert (Hmissing : unfilled example_config <> []) by (vm_compute; discriminate).
  pose proof (proj2 (init_poster_unfilled_credentials
                       (configured (VDict example_config) friendly)
                       example_config fresh_server eq_refl Hmissing)
                eq_refl (Ok VNone)) as H.
  vm_compute in H |- *. exact H.
Defined.

Lemma authenticate_false_keeps_poster (env : Env) (w : World) :
  outcome_of (authenticate env) w = Ok false ->
  poster (world_after (authenticate env) w) = poster w.
Proof.
  unfold outcome_of, world_after. rewrite authenticate_run. cbv zeta.
  destruct (PyStr.is_ascii _); [|reflexivity].
  unfold token_verdict.
  repeat (case_step; cbv beta iota zeta); cbn [fst snd];
    intros H; try discriminate H; reflexivity.
Qed.

Lemma construct_fresh (args : value * value * value * value * value)
    (self : RedditAutoPoster) :
  construct args = Some self ->
  access_token self = VNone /\ token_type self = VStr "bearer".
Proof.
  unfold construct. intros H.
  repeat match type of H with
         | match ?x with _ => _ end = _ => destruct x; try discriminate H
         end; injection H as <-; split; reflexivity.
Qed.

(** X20.  When [init_poster] fails on a server without poster, either
    nothing was recorded and there is still no poster, or the error is
    the failure to authenticate, the attempt is in the trace and the
    global names the new poster, without token; a later request then
    runs its [try] block on that poster without building one. *)
Theorem init_failure_keeps_built_poster (env : Env) (s s1 : Server) (e : exn) :
  global_poster s = None ->
  init_poster env s = Some (Raise e, s1) ->
  (global_poster s1 = None /\ history s1 = history s)
  \/ (exists self,
        global_poster s1 = Some self
        /\ access_token self = VNone
        /\ token_type self = VStr "bearer"
        /\ e = ValueError "Failed to authenticate with Reddit"
        /\ (exists rest, history s1 = history s ++ AuthAttempt :: rest)
        /\ forall get_json,
             post_to_reddit env get_json s1
             = Some (on_poster self (handle_post env get_json) s1)).
Proof.
  intros Hg Hinit. unfold init_poster in Hinit.
  destruct (load_config env) as [config|];
    [|injection Hinit as _ <-; left; auto].
  destruct (missing_keys _ _) as [[|]|];
    try (injection Hinit as _ <-; left; auto).
  destruct (constructor_arguments _) as [args|];
    try (injection Hinit as _ <-; left; auto).
  destruct (construct args) as [self|] eqn:Hself; [|discriminate].
  destruct (construct_fresh _ _ Hself) as [Ha Hty].
  pose proof (authenticate_trace env {| poster := self; trace := history s |})
    as Ht.
  destruct (authenticate_emitted_shape env
              {| poster := self; trace := history s |}) as (rest & Hrest & _).
  destruct (authenticate_never_raises env
              {| poster := self; trace := history s |}) as [ok Hok].
  pose proof (authenticate_false_keeps_poster env
                {| poster := self; trace := history s |}) as Hkeep.
  unfold world_after, outcome_of in *.
  destruct (authenticate env _) as [res w1]. cbn [fst snd poster trace] in *.
  subst res. destruct ok; [discriminate|].
  injection Hinit as <- <-. right. cbn [global_poster history].
  exists self. rewrite (Hkeep eq_refl).
  repeat split; auto.
  exists rest. now rewrite Ht, Hrest.
Qed.

Lemma init_failure_keeps_built_poster_witness :
  exists self,
    global_poster refused_server = Some self /\ access_token self = VNone.
Proof.
  destruct (init_failure_keeps_built_poster
              (configured (VDict sample_config) (hostile 401))
              fresh_server refused_server
              (ValueError "Failed to authenticate with Reddit"))
    as [[Hnone _] | (self & Hself & Htok & _)].
  - reflexivity.
  - vm_compute. reflexivity.
  - discriminate Hnone.
  - exists self. split; assumption.
Defined.
